(** * Versioned-asset views and scheduled tasks of the DANDI archive API

    A shallow embedding of [dandiapi/api/views/asset.py] and
    [dandiapi/api/tasks/scheduled.py]: the request serializer, the nested
    asset view set (create / update / destroy / list / paths), the inline
    validation trigger and the periodic sweeps, over an explicit model of
    the database tables the views read and write. *)

From Stdlib Require Import ZArith Ascii String List Lia Bool.
From stdpp Require Import base decidable option list gmap strings fin_maps fin_sets.

Import ListNotations.
Local Open Scope string_scope.
Local Open Scope Z_scope.

(** ** JSON documents

    Asset and version metadata are JSON blobs. The top level of a metadata
    document is a finite map from keys to values, so that [==] on two
    documents (Python dict equality) compares them key by key; nested
    objects are key/value lists, read as the [dict] they denote. *)

#[warnings="-register-all"]
Inductive JSON : Type :=
  | JNull
  | JBool (b : bool)
  | JNum (n : Z)
  | JStr (s : string)
  | JList (l : list JSON)
  | JDict (l : list (string * JSON)).

Fixpoint JSON_eq_dec (a b : JSON) {struct a} : {a = b} + {a <> b}.
Proof.
  decide equality.
  - apply bool_dec.
  - apply Z.eq_dec.
  - apply string_dec.
  - apply (List.list_eq_dec JSON_eq_dec).
  - apply List.list_eq_dec. intros [k1 v1] [k2 v2].
    destruct (string_dec k1 k2) as [->|Hk]; [|right; congruence].
    destruct (JSON_eq_dec v1 v2) as [->|Hv]; [left; reflexivity|right; congruence].
Defined.

#[global] Instance JSON_eqdec : EqDecision JSON := JSON_eq_dec.

Abbreviation Metadata := (gmap string JSON).

(** Python truthiness of a JSON value ([not x] is its negation). *)
Definition truthy (j : JSON) : bool :=
  match j with
  | JNull => false
  | JBool b => b
  | JNum n => negb (n =? 0)
  | JStr s => negb (String.eqb s "")
  | JList l => negb (Nat.eqb (length l) 0)
  | JDict l => negb (Nat.eqb (length l) 0)
  end.

(** The value a key is bound to in a JSON object: when a key occurs more
    than once the last pair wins, as in the [dict] the object is read
    into. *)
Fixpoint dict_get (k : string) (l : list (string * JSON)) : option JSON :=
  match l with
  | [] => None
  | (k', v) :: rest =>
      match dict_get k rest with
      | Some v' => Some v'
      | None => if String.eqb k' k then Some v else None
      end
  end.

Definition dict_has (k : string) (l : list (string * JSON)) : bool :=
  existsb (fun p => String.eqb (fst p) k) l.

(** Python's [==] on JSON values: [True == 1] and [False == 0], lists are
    equal when they are equal element by element, objects when they bind
    the same keys to equal values, in whatever order the keys come. *)
Fixpoint py_eq (a b : JSON) {struct a} : bool :=
  match a, b with
  | JNull, JNull => true
  | JBool x, JBool y => Bool.eqb x y
  | JBool x, JNum n => Z.b2z x =? n
  | JNum n, JBool y => n =? Z.b2z y
  | JNum n, JNum m => n =? m
  | JStr s, JStr t => String.eqb s t
  | JList l, JList l' =>
      (fix all2 (l : list JSON) (l' : list JSON) {struct l} : bool :=
         match l, l' with
         | [], [] => true
         | x :: l, y :: l' => py_eq x y && all2 l l'
         | _, _ => false
         end) l l'
  | JDict l, JDict l' =>
      (fix sub (l0 : list (string * JSON)) {struct l0} : bool :=
         match l0 with
         | [] => true
         | (k, v) :: rest =>
             (dict_has k rest
              || match dict_get k l' with
                 | Some v' => py_eq v v'
                 | None => false
                 end)
             && sub rest
         end) l
      && forallb (fun p => dict_has (fst p) l) l'
  | _, _ => false
  end.

(** [==] on two metadata documents. *)
Definition metadata_eq (m1 m2 : Metadata) : bool :=
  forallb (fun '(k, v) =>
             match m2 !! k with
             | Some v' => py_eq v v'
             | None => false
             end)
          (map_to_list m1)
  && forallb (fun '(k, _) => bool_decide (is_Some (m1 !! k)))
             (map_to_list m2).

(** ** Exceptions and responses

    A view either returns a [Response] or lets an exception escape: the
    framework turns [ValidationError] into HTTP 400 and [Http404] into
    HTTP 404; anything else surfaces as a server error. *)

Inductive Exn : Type :=
  | ValidationError (field : option string) (message : string)
  | Http404
  | DoesNotExist
  | AttributeError (attribute : string)
  | TypeError
  | KeyError (key : string)
  | NotImplementedError (message : string)
  | VersionMetadataConcurrentlyModifiedError.

#[global] Instance Exn_eqdec : EqDecision Exn.
Proof. solve_decision. Defined.

Inductive Result (A : Type) : Type :=
  | Ok (a : A)
  | Raise (e : Exn).
Arguments Ok {A} a.
Arguments Raise {A} e.

#[global] Instance Result_ret : MRet Result := fun A a => Ok a.

#[global] Instance Result_bind : MBind Result := fun A B k r =>
  match r with
  | Ok a => k a
  | Raise e => Raise e
  end.

(** [get_object_or_404]: a failed lookup raises [Http404]. *)
Definition get_object_or_404 {A : Type} (o : option A) : Result A :=
  match o with
  | Some a => Ok a
  | None => Raise Http404
  end.

Definition HTTP_200_OK : Z := 200.
Definition HTTP_204_NO_CONTENT : Z := 204.
Definition HTTP_405_METHOD_NOT_ALLOWED : Z := 405.
Definition HTTP_409_CONFLICT : Z := 409.

(** ** The data model: rows of the tables the views touch *)

Abbreviation UUID := string.

(** [Asset.Status] and [Version.Status]. *)
Inductive Status : Type := PENDING | VALID | INVALID.

#[global] Instance Status_eqdec : EqDecision Status.
Proof. solve_decision. Defined.

Record ValidationIssue : Type := {
  issue_field : string;
  issue_message : string;
}.

#[global] Instance ValidationIssue_eqdec : EqDecision ValidationIssue.
Proof. solve_decision. Defined.

(** [AssetBlob] and [EmbargoedAssetBlob] (both [BaseAssetBlob]): the digest
    is filled in asynchronously after upload. *)
Module AssetBlob.
Record t : Type := {
  blob_id : UUID;
  etag : string;
  sha256 : option string;
  size : Z;
}.
End AssetBlob.

(** [ZarrArchiveStatus]: an archive is PENDING until its uploads are in and
    its checksum is computed, then COMPLETE. *)
Inductive ZarrArchiveStatus : Type :=
  | ZARR_PENDING
  | ZARR_UPLOADED
  | ZARR_INGESTING
  | COMPLETE.

#[global] Instance ZarrArchiveStatus_eqdec : EqDecision ZarrArchiveStatus.
Proof. solve_decision. Defined.

Module ZarrArchive.
Record t : Type := {
  zarr_id : UUID;
  dandiset : Z;
  checksum : option string;
  status : ZarrArchiveStatus;
  file_count : Z;
  size : Z;
}.
End ZarrArchive.

(** An [Asset] row. The three content columns hold the key of the referenced
    row; [==] on two related objects compares exactly these keys. The fields
    are those the constructor call in [asset_from_request] and migration
    0020 name: [path], [blob], [embargoed_blob], [zarr], [metadata],
    [status], together with [asset_id], [previous] and
    [validation_errors]. *)
Module Asset.
Record t : Type := {
  asset_id : UUID;
  path : string;
  blob : option UUID;
  embargoed_blob : option UUID;
  zarr : option UUID;
  metadata : Metadata;
  status : Status;
  validation_errors : list ValidationIssue;
  previous : option Z;
}.

(** The model's content-kind properties. *)
Definition is_blob (a : t) : bool := bool_decide (is_Some (blob a)).
Definition is_embargoed_blob (a : t) : bool :=
  bool_decide (is_Some (embargoed_blob a)).
Definition is_zarr (a : t) : bool := bool_decide (is_Some (zarr a)).

(** [asset.previous = old]. *)
Definition set_previous (p : option Z) (a : t) : t :=
  {| asset_id := asset_id a; path := path a; blob := blob a;
     embargoed_blob := embargoed_blob a; zarr := zarr a;
     metadata := metadata a; status := status a;
     validation_errors := validation_errors a; previous := p |}.

(** Attribute lookup [asset.zarr_archive]. The instance carries the
    columns above and the properties [is_blob], [is_embargoed_blob],
    [is_zarr]; the archive column is called [zarr], and nothing defines
    [zarr_archive], so the lookup raises. *)
Definition zarr_archive (a : t) : Result (option UUID) :=
  Raise (AttributeError "zarr_archive").

Definition set_validation (s : Status) (errs : list ValidationIssue)
    (a : t) : t :=
  {| asset_id := asset_id a; path := path a; blob := blob a;
     embargoed_blob := embargoed_blob a; zarr := zarr a;
     metadata := metadata a; status := s;
     validation_errors := errs; previous := previous a |}.
End Asset.

Module Version.
Record t : Type := {
  dandiset : Z;
  version : string;
  metadata : Metadata;
  status : Status;
  validation_errors : list ValidationIssue;
  modified : Z;
}.

Definition set_status (s : Status) (v : t) : t :=
  {| dandiset := dandiset v; version := version v; metadata := metadata v;
     status := s; validation_errors := validation_errors v;
     modified := modified v |}.

Definition set_modified (now : Z) (v : t) : t :=
  {| dandiset := dandiset v; version := version v; metadata := metadata v;
     status := status v; validation_errors := validation_errors v;
     modified := now |}.

Definition set_metadata (m : Metadata) (v : t) : t :=
  {| dandiset := dandiset v; version := version v; metadata := m;
     status := status v; validation_errors := validation_errors v;
     modified := modified v |}.
End Version.

(** A node of the per-version path index. *)
Module AssetPath.
Record t : Type := {
  version : Z;
  path : string;
  asset : option Z;
  aggregate_files : Z;
  aggregate_size : Z;
}.
End AssetPath.

(** The database: tables keyed by primary key (blobs and zarr archives by
    their unique external id), the many-to-many table behind
    [version.assets], the path index and the primary-key sequence of the
    asset table. *)
Record DB : Type := {
  asset_blobs : gmap UUID AssetBlob.t;
  embargoed_asset_blobs : gmap UUID AssetBlob.t;
  zarr_archives : gmap UUID ZarrArchive.t;
  assets : gmap Z Asset.t;
  asset_seq : Z;
  versions : gmap Z Version.t;
  version_assets : gset (Z * Z);
  asset_paths : list AssetPath.t;
}.

Definition set_assets (f : gmap Z Asset.t -> gmap Z Asset.t) (d : DB) : DB :=
  {| asset_blobs := asset_blobs d;
     embargoed_asset_blobs := embargoed_asset_blobs d;
     zarr_archives := zarr_archives d; assets := f (assets d);
     asset_seq := asset_seq d; versions := versions d;
     version_assets := version_assets d; asset_paths := asset_paths d |}.

Definition set_asset_seq (n : Z) (d : DB) : DB :=
  {| asset_blobs := asset_blobs d;
     embargoed_asset_blobs := embargoed_asset_blobs d;
     zarr_archives := zarr_archives d; assets := assets d;
     asset_seq := n; versions := versions d;
     version_assets := version_assets d; asset_paths := asset_paths d |}.

Definition set_versions (f : gmap Z Version.t -> gmap Z Version.t) (d : DB)
    : DB :=
  {| asset_blobs := asset_blobs d;
     embargoed_asset_blobs := embargoed_asset_blobs d;
     zarr_archives := zarr_archives d; assets := assets d;
     asset_seq := asset_seq d; versions := f (versions d);
     version_assets := version_assets d; asset_paths := asset_paths d |}.

Definition set_version_assets (f : gset (Z * Z) -> gset (Z * Z)) (d : DB)
    : DB :=
  {| asset_blobs := asset_blobs d;
     embargoed_asset_blobs := embargoed_asset_blobs d;
     zarr_archives := zarr_archives d; assets := assets d;
     asset_seq := asset_seq d; versions := versions d;
     version_assets := f (version_assets d); asset_paths := asset_paths d |}.

Definition set_asset_paths (f : list AssetPath.t -> list AssetPath.t)
    (d : DB) : DB :=
  {| asset_blobs := asset_blobs d;
     embargoed_asset_blobs := embargoed_asset_blobs d;
     zarr_archives := zarr_archives d; assets := assets d;
     asset_seq := asset_seq d; versions := versions d;
     version_assets := version_assets d; asset_paths := f (asset_paths d) |}.

(** ** Strings: [re.escape] and [str.replace]

    Characters are modelled as 8-bit characters; none beyond ASCII is
    special to [re.escape] or to the path filter. *)

Module re.
(** The characters [re.escape] prefixes with a backslash:
    [()[]{}?*+-|^$\.&~# \t\n\r\v\f]. *)
Definition special_chars : list ascii :=
  list_ascii_of_string "()[]{}?*+-|^$\.&~# "
    ++ map ascii_of_nat [9; 10; 13; 11; 12]%nat.

Definition is_special (c : ascii) : bool :=
  existsb (Ascii.eqb c) special_chars.

Fixpoint escape (pattern : string) : string :=
  match pattern with
  | EmptyString => EmptyString
  | String c rest =>
      if is_special c then String "\" (String c (escape rest))
      else String c (escape rest)
  end.
End re.

Module str.
(** [s.replace(old, new)]: every non-overlapping occurrence of [old],
    scanning from the left. [skip] counts the characters of a match that
    are still to be dropped. *)
Fixpoint replace_from (old new : string) (skip : nat) (s : string)
    : string :=
  match s with
  | EmptyString => EmptyString
  | String c rest =>
      match skip with
      | S k => replace_from old new k rest
      | O =>
          if String.prefix old s
          then new ++ replace_from old new (String.length old - 1) rest
          else String c (replace_from old new 0 rest)
      end
  end.

Fixpoint interleave (new s : string) : string :=
  match s with
  | EmptyString => new
  | String c rest => new ++ String c (interleave new rest)
  end.

Definition replace (s old new : string) : string :=
  match old with
  | EmptyString => interleave new s
  | _ => replace_from old new 0 s
  end.

(** [s.lower()] on one character. *)
Definition lower (c : ascii) : ascii :=
  let n := nat_of_ascii c in
  if ((65 <=? n) && (n <=? 90))%nat then ascii_of_nat (n + 32) else c.
End str.

(** The pattern [NestedAssetViewSet.list] hands to [path__iregex]. *)
Definition glob_iregex (glob_pattern : string) : string :=
  str.replace (re.escape glob_pattern) "\*" ".*".

(** The regular expressions the path filter receives, read as the database
    reads them: a backslash followed by a character that is not
    alphanumeric stands for that character, [.*] is any string, every other
    character outside the operators [.[]()*+?{}|^$\] stands for itself.
    Anything else (an operator on its own, a class escape) is outside this
    fragment. *)
Inductive Atom : Type :=
  | Lit (c : ascii)
  | AnyString.

Definition is_metachar (c : ascii) : bool :=
  existsb (Ascii.eqb c) (list_ascii_of_string ".[]()*+?{}|^$\").

Definition is_alnum (c : ascii) : bool :=
  let n := nat_of_ascii c in
  (((48 <=? n) && (n <=? 57)) || ((65 <=? n) && (n <=? 90))
   || ((97 <=? n) && (n <=? 122)))%nat.

Fixpoint atoms (regex : string) : option (list Atom) :=
  match regex with
  | EmptyString => Some []
  | String c rest =>
      if Ascii.eqb c "\" then
        match rest with
        | String d rest' =>
            if is_alnum d then None else cons (Lit d) <$> atoms rest'
        | EmptyString => None
        end
      else if Ascii.eqb c "." then
        match rest with
        | String d rest' =>
            if Ascii.eqb d "*" then cons AnyString <$> atoms rest' else None
        | EmptyString => None
        end
      else if is_metachar c then None
      else cons (Lit c) <$> atoms rest
  end.

(** Does a prefix of [s] match the atoms? Letters compare without regard
    to case, as [iregex] does. *)
Fixpoint match_here (l : list Atom) (s : string) : bool :=
  match l with
  | [] => true
  | Lit c :: l' =>
      match s with
      | String d s' => Ascii.eqb (str.lower c) (str.lower d) && match_here l' s'
      | EmptyString => false
      end
  | AnyString :: l' =>
      (fix any (s : string) : bool :=
         match_here l' s
         || match s with
            | String _ s' => any s'
            | EmptyString => false
            end) s
  end.

Fixpoint match_anywhere (l : list Atom) (s : string) : bool :=
  match_here l s
  || match s with
     | String _ s' => match_anywhere l s'
     | EmptyString => false
     end.

(** [path__iregex=regex]: an unanchored, case-insensitive search. *)
Definition iregex (regex path : string) : bool :=
  match atoms regex with
  | Some l => match_anywhere l path
  | None => false
  end.

(** What the glob is meant to denote: [*] stands for any string, every
    other character for itself (letters up to case). *)
Inductive glob_matches : list ascii -> string -> Prop :=
  | glob_nil : glob_matches [] EmptyString
  | glob_star g s1 s2 :
      glob_matches g s2 -> glob_matches ("*"%char :: g) (s1 ++ s2)
  | glob_char c d g s :
      c <> "*"%char -> str.lower c = str.lower d ->
      glob_matches g s -> glob_matches (c :: g) (String d s).

Definition glob_atom (c : ascii) : Atom :=
  if Ascii.eqb c "*" then AnyString else Lit c.

(** ** Collaborators that are not part of these modules

    [Asset.strip_metadata], [Asset.ASSET_PATH_REGEX],
    [settings.DANDI_SCHEMA_VERSION], the path-index services of
    [dandiapi.api.services.asset] and the task
    [dandiapi.api.tasks.validate_asset_metadata] are used by the views but
    defined elsewhere; the views are parametric in them. *)
Record Services : Type := {
  strip_metadata : Metadata -> Metadata;
  ASSET_PATH_REGEX : string -> bool;
  DANDI_SCHEMA_VERSION : string;
  add_asset : Z -> Z -> DB -> DB;
  update_asset : Z -> Z -> Z -> DB -> DB;
  delete_asset : Z -> Z -> DB -> DB;
  search_path : string -> Z -> DB -> option (list AssetPath.t);
  validate_asset_metadata : Z -> DB -> DB;
}.

(** ** [AssetRequestSerializer] *)

Module AssetRequestSerializer.
(** The deserialized request body; [metadata] is a JSON object. *)
Record data : Type := {
  metadata : Metadata;
  blob_id : option UUID;
  zarr_id : option UUID;
}.

Definition blob_id_error : Exn :=
  ValidationError (Some "blob_id")
    "Exactly one of blob_id or zarr_id must be specified.".
Definition no_path_error : Exn :=
  ValidationError (Some "metadata") "No path specified in metadata.".
Definition invalid_path_error : Exn :=
  ValidationError (Some "path") "Invalid path.".

(** [metadata.setdefault(key, value)]. *)
Definition setdefault (key : string) (value : JSON) (m : Metadata)
    : Metadata :=
  match m !! key with
  | Some _ => m
  | None => <[key := value]> m
  end.

(** Ensure blob_id and zarr_id are mutually exclusive. *)
Definition validate (svc : Services) (d : data) : Result data :=
  if Bool.eqb (bool_decide (is_Some (blob_id d)))
              (bool_decide (is_Some (zarr_id d)))
  then Raise blob_id_error
  else
    match metadata d !! "path" with
    | None => Raise no_path_error
    | Some p =>
        if negb (truthy p) then Raise no_path_error
        else
          match p with
          | JStr path =>
              if ASSET_PATH_REGEX svc path
              then Ok {| metadata :=
                           setdefault "schemaVersion"
                             (JStr (DANDI_SCHEMA_VERSION svc)) (metadata d);
                         blob_id := blob_id d; zarr_id := zarr_id d |}
              else Raise invalid_path_error
          | _ => Raise TypeError
          end
    end.
End AssetRequestSerializer.

(** ** Queries *)

(** [get_object_or_404(Version, dandiset=..., version=...)], before the
    404: the row and its primary key. *)
Definition find_version (dandiset_pk : Z) (version : string) (db : DB)
    : option (Z * Version.t) :=
  List.find
    (fun '(_, v) =>
       bool_decide (Version.dandiset v = dandiset_pk
                    /\ Version.version v = version))
    (map_to_list (versions db)).

(** [version.assets]: primary keys, joined with the asset table. *)
Definition version_asset_rows (vpk : Z) (db : DB) : list (Z * Asset.t) :=
  omap (fun '(v, a) =>
          if bool_decide (v = vpk) then pair a <$> assets db !! a else None)
       (elements (version_assets db)).

(** [version.assets.filter(path=path).exists()]. *)
Definition path_exists (vpk : Z) (path : string) (db : DB) : bool :=
  existsb (fun '(_, a) => String.eqb (Asset.path a) path)
          (version_asset_rows vpk db).

(** [version.assets.filter(path=path).exclude(asset_id=asset_id).exists()]. *)
Definition path_exists_excluding (vpk : Z) (path : string) (asset_id : UUID)
    (db : DB) : bool :=
  existsb (fun '(_, a) =>
             String.eqb (Asset.path a) path
             && negb (String.eqb (Asset.asset_id a) asset_id))
          (version_asset_rows vpk db).

(** [self.get_object()] of the nested view set: the asset with this
    [asset_id] among the assets of the addressed version. *)
Definition get_object (dandiset_pk : Z) (version : string) (asset_id : UUID)
    (db : DB) : Result (Z * Asset.t) :=
  '(vpk, _) ← get_object_or_404 (find_version dandiset_pk version db);
  get_object_or_404
    (List.find (fun '(_, a) => String.eqb (Asset.asset_id a) asset_id)
               (version_asset_rows vpk db)).

(** [asset.save()] for a new row: the sequence hands out the key. *)
Definition save_asset (a : Asset.t) (db : DB) : Z * DB :=
  let pk := asset_seq db in
  (pk, set_asset_seq (pk + 1) (set_assets (insert pk a) db)).

(** [version.save()]: writes the in-memory row, with [modified] set to the
    current time. *)
Definition save_version (now : Z) (vpk : Z) (v : Version.t) (db : DB) : DB :=
  set_versions (insert vpk (Version.set_modified now v)) db.

Definition version_assets_add (vpk apk : Z) (db : DB) : DB :=
  set_version_assets (fun s => {[ (vpk, apk) ]} ∪ s) db.

Definition version_assets_remove (vpk apk : Z) (db : DB) : DB :=
  set_version_assets (fun s => s ∖ {[ (vpk, apk) ]}) db.

(** [NestedAssetViewSet.list], as far as the glob goes: the assets of the
    version, narrowed by [path__iregex] when a glob is given. *)
Definition list_assets (glob_pattern : option string) (vpk : Z) (db : DB)
    : list (Z * Asset.t) :=
  let queryset := version_asset_rows vpk db in
  match glob_pattern with
  | Some glob_pattern =>
      List.filter
        (fun '(_, a) => iregex (glob_iregex glob_pattern) (Asset.path a))
        queryset
  | None => queryset
  end.

(** ** Views *)

Inductive Body : Type :=
  | Message (text : string)
  | AssetDetail (pk : Z) (asset : Asset.t)
  | AssetPaths (children : list AssetPath.t)
  | NoBody.

Record Response : Type := {
  body : Body;
  status_code : Z;
}.

Definition only_draft : Response :=
  {| body := Message "Only draft versions can be modified.";
     status_code := HTTP_405_METHOD_NOT_ALLOWED |}.

Definition path_conflict : Response :=
  {| body := Message "An asset with that path already exists";
     status_code := HTTP_409_CONFLICT |}.

Definition other_dandiset_error : Exn :=
  ValidationError None "The zarr archive belongs to a different dandiset".

Definition path_not_found_error : Exn :=
  ValidationError None "Specified path not found.".

Section Views.
Context (svc : Services).

(** [blob.refresh_from_db()] followed by the digest test. *)
Definition validate_if_digest (table : gmap UUID AssetBlob.t)
    (key : option UUID) (pk : Z) (db : DB) : Result unit * DB :=
  match key ≫= (table !!.) with
  | None => (Raise DoesNotExist, db)
  | Some blob =>
      match AssetBlob.sha256 blob with
      | None => (Ok tt, db)
      | Some _ => (Ok tt, validate_asset_metadata svc pk db)
      end
  end.

(** Validate the asset's metadata now if its blob, or embargoed blob,
    already has its sha256; an asset that is neither is left alone. *)
Definition _maybe_validate_asset_metadata (pk : Z) (asset : Asset.t)
    (db : DB) : Result unit * DB :=
  if Asset.is_blob asset then
    validate_if_digest (asset_blobs db) (Asset.blob asset) pk db
  else if Asset.is_embargoed_blob asset then
    validate_if_digest (embargoed_asset_blobs db)
      (Asset.embargoed_blob asset) pk db
  else (Ok tt, db).

(** Return an unsaved Asset, constructed from the request data. [uuid4]
    is the value drawn for the new row's [asset_id]. *)
Definition asset_from_request (uuid4 : UUID)
    (request_data : AssetRequestSerializer.data) (db : DB)
    : Result Asset.t :=
  validated_data ← AssetRequestSerializer.validate svc request_data;
  '(asset_blob, embargoed_asset_blob, zarr_archive) ←
    match AssetRequestSerializer.blob_id validated_data with
    | Some b =>
        match asset_blobs db !! b with
        | Some _ => Ok (Some b, None, None)
        | None =>
            _ ← get_object_or_404 (embargoed_asset_blobs db !! b);
            Ok (None, Some b, None)
        end
    | None =>
        match AssetRequestSerializer.zarr_id validated_data with
        | Some z =>
            _ ← get_object_or_404 (zarr_archives db !! z);
            Ok (None, None, Some z)
        | None => Raise (NotImplementedError "Storage type not handled.")
        end
    end;
  match AssetRequestSerializer.metadata validated_data !! "path" with
  | Some (JStr path) =>
      Ok {| Asset.asset_id := uuid4;
            Asset.path := path;
            Asset.blob := asset_blob;
            Asset.embargoed_blob := embargoed_asset_blob;
            Asset.zarr := zarr_archive;
            Asset.metadata :=
              strip_metadata svc
                (AssetRequestSerializer.metadata validated_data);
            Asset.status := PENDING;
            Asset.validation_errors := [];
            Asset.previous := None |}
  | Some _ => Raise TypeError
  | None => Raise (KeyError "path")
  end.

(** [asset.zarr and asset.zarr.dandiset != version.dandiset]. *)
Definition zarr_of_other_dandiset (asset : Asset.t) (version : Version.t)
    (db : DB) : bool :=
  match Asset.zarr asset ≫= (zarr_archives db !!.) with
  | Some z =>
      negb (bool_decide (ZarrArchive.dandiset z = Version.dandiset version))
  | None => false
  end.

(** The tail shared by [create] and [update]: flag the version PENDING,
    save it, validate the asset's metadata if able, answer 200. *)
Definition touch_and_respond (now vpk : Z) (version : Version.t) (pk : Z)
    (asset : Asset.t) (db : DB) : Result Response * DB :=
  let db := save_version now vpk (Version.set_status PENDING version) db in
  match _maybe_validate_asset_metadata pk asset db with
  | (Raise e, db) => (Raise e, db)
  | (Ok _, db) =>
      (Ok {| body := AssetDetail pk asset; status_code := HTTP_200_OK |},
       db)
  end.

Definition create (now : Z) (uuid4 : UUID)
    (request_data : AssetRequestSerializer.data)
    (versions__dandiset__pk : Z) (versions__version : string) (db : DB)
    : Result Response * DB :=
  match get_object_or_404
          (find_version versions__dandiset__pk versions__version db) with
  | Raise e => (Raise e, db)
  | Ok (vpk, version) =>
      if negb (String.eqb (Version.version version) "draft")
      then (Ok only_draft, db)
      else
        (* Retrieve blobs and metadata *)
        match asset_from_request uuid4 request_data db with
        | Raise e => (Raise e, db)
        | Ok asset =>
            (* Check if there are already any assets with the same path *)
            if path_exists vpk (Asset.path asset) db
            then (Ok path_conflict, db)
            else if zarr_of_other_dandiset asset version db
            then (Raise other_dandiset_error, db)
            else
              let '(pk, db) := save_asset asset db in
              let db := version_assets_add vpk pk db in
              let db := add_asset svc pk vpk db in
              touch_and_respond now vpk version pk asset db
        end
  end.

(** The comparison that decides whether [update] mints a new asset. The
    conjunction is evaluated left to right and stops at the first
    conjunct that is false. *)
Definition no_changes (new_asset old_asset : Asset.t) : Result bool :=
  if metadata_eq (Asset.metadata new_asset) (Asset.metadata old_asset) then
    if bool_decide (Asset.blob new_asset = Asset.blob old_asset) then
      if bool_decide (Asset.embargoed_blob new_asset
                      = Asset.embargoed_blob old_asset) then
        zarr_archive ← Asset.zarr_archive new_asset;
        Ok (bool_decide (zarr_archive = Asset.zarr old_asset))
      else Ok false
    else Ok false
  else Ok false.

(** Update the metadata of an asset. *)
Definition update (now : Z) (uuid4 : UUID)
    (request_data : AssetRequestSerializer.data)
    (versions__dandiset__pk : Z) (versions__version : string)
    (asset_id : UUID) (db : DB) : Result Response * DB :=
  match get_object versions__dandiset__pk versions__version asset_id db with
  | Raise e => (Raise e, db)
  | Ok (old_pk, old_asset) =>
      match get_object_or_404
              (find_version versions__dandiset__pk versions__version db) with
      | Raise e => (Raise e, db)
      | Ok (vpk, version) =>
          if negb (String.eqb (Version.version version) "draft")
          then (Ok only_draft, db)
          else
            match asset_from_request uuid4 request_data db with
            | Raise e => (Raise e, db)
            | Ok new_asset =>
                match no_changes new_asset old_asset with
                | Raise e => (Raise e, db)
                | Ok true =>
                    (* No changes, don't create a new asset *)
                    touch_and_respond now vpk version old_pk old_asset db
                | Ok false =>
                    if path_exists_excluding vpk (Asset.path new_asset)
                         (Asset.asset_id old_asset) db
                    then (Ok path_conflict, db)
                    else
                      (* Mint a new Asset *)
                      let new_asset :=
                        Asset.set_previous (Some old_pk) new_asset in
                      let '(new_pk, db) := save_asset new_asset db in
                      let db := version_assets_add vpk new_pk db in
                      let db := version_assets_remove vpk old_pk db in
                      let db := update_asset svc old_pk new_pk vpk db in
                      touch_and_respond now vpk version new_pk new_asset db
                end
            end
      end
  end.

Definition destroy (now : Z) (versions__dandiset__pk : Z)
    (versions__version : string) (asset_id : UUID) (db : DB)
    : Result Response * DB :=
  match get_object versions__dandiset__pk versions__version asset_id db with
  | Raise e => (Raise e, db)
  | Ok (pk, asset) =>
      match get_object_or_404
              (find_version versions__dandiset__pk versions__version db) with
      | Raise e => (Raise e, db)
      | Ok (vpk, version) =>
          if negb (String.eqb (Version.version version) "draft")
          then (Ok only_draft, db)
          else
            let db := version_assets_remove vpk pk db in
            let db := delete_asset svc pk vpk db in
            let db :=
              save_version now vpk (Version.set_status PENDING version) db in
            (Ok {| body := NoBody; status_code := HTTP_204_NO_CONTENT |}, db)
      end
  end.

(** Return the unique files/directories that directly reside under the
    specified path. *)
Definition paths (path_prefix : string) (versions__dandiset__pk : Z)
    (versions__version : string) (db : DB) : Result Response :=
  '(vpk, _) ← get_object_or_404
                (find_version versions__dandiset__pk versions__version db);
  match search_path svc path_prefix vpk db with
  | None => Raise path_not_found_error
  | Some children_paths =>
      Ok {| body := AssetPaths children_paths; status_code := HTTP_200_OK |}
  end.
End Views.

(** ** Scheduled tasks *)

(** Work items put on the queue with [.delay(...)]. *)
Inductive Task : Type :=
  | validate_asset_metadata_task (asset_id : Z)
  | validate_version_metadata_task (version_id : Z)
  | aggregate_assets_summary_task (version_id : Z)
  | write_manifest_files (version_id : Z).

#[global] Instance Task_eqdec : EqDecision Task.
Proof. solve_decision. Defined.

(** Yield items from iterable, throttling to max_per_second: the items and
    their order are those of the iterable; only the pace differs. *)
Definition throttled_iterator {A : Type} (iterable : list A) : list A :=
  iterable.

(** The filter of [validate_pending_asset_metadata]:
    [(blob not null and blob.sha256 not null) or (zarr not null and
    zarr.checksum not null and zarr.status = COMPLETE)]. *)
Definition blob_has_digest (db : DB) (a : Asset.t) : bool :=
  match Asset.blob a ≫= (asset_blobs db !!.) with
  | Some b => bool_decide (is_Some (AssetBlob.sha256 b))
  | None => false
  end.

Definition zarr_is_complete (db : DB) (a : Asset.t) : bool :=
  match Asset.zarr a ≫= (zarr_archives db !!.) with
  | Some z =>
      bool_decide (is_Some (ZarrArchive.checksum z))
      && bool_decide (ZarrArchive.status z = COMPLETE)
  | None => false
  end.

Definition validatable (db : DB) (a : Asset.t) : bool :=
  bool_decide (Asset.status a = PENDING)
  && (blob_has_digest db a || zarr_is_complete db a).

Definition validatable_assets (db : DB) : list Z :=
  fst <$> filter (fun '(_, a) => validatable db a = true)
                 (map_to_list (assets db)).

Definition validate_pending_asset_metadata (db : DB) : list Task :=
  let validatable_assets := validatable_assets db in
  let validatable_assets_count := length validatable_assets in
  if (0 <? validatable_assets_count)%nat
  then validate_asset_metadata_task <$> throttled_iterator validatable_assets
  else [].

(** Select only the id of draft versions that have status PENDING. *)
Definition pending_draft_versions (db : DB) : list Z :=
  fst <$> filter (fun '(_, v) => Version.version v = "draft")
            (filter (fun '(_, v) => Version.status v = PENDING)
                    (map_to_list (versions db))).

Definition validate_draft_version_metadata (db : DB) : list Task :=
  let pending_draft_versions := pending_draft_versions db in
  let pending_draft_versions_count := length pending_draft_versions in
  if (0 <? pending_draft_versions_count)%nat
  then
    draft_version_id ← pending_draft_versions;
    [ validate_version_metadata_task draft_version_id;
      aggregate_assets_summary_task draft_version_id;
      write_manifest_files draft_version_id ]
  else [].

(** ** The aggregation task and its retry policy *)

(** The options a task is registered with. [aggregate_assets_summary_task]
    sets [soft_time_limit], [autoretry_for] and [retry_backoff]; the other
    three keep the task queue's defaults. *)
Record TaskOptions : Type := {
  soft_time_limit : Z;
  autoretry_for : Exn -> bool;
  retry_backoff : bool;
  max_retries : nat;
  retry_backoff_max : Z;
  retry_jitter : bool;
}.

Definition aggregate_assets_summary_task_options : TaskOptions :=
  {| soft_time_limit := 60;
     autoretry_for :=
       fun e => bool_decide (e = VersionMetadataConcurrentlyModifiedError);
     retry_backoff := true;
     max_retries := 3;
     retry_backoff_max := 600;
     retry_jitter := true |}.

(** What other transactions commit while one run of the task is in flight:
    [before] it starts (during the countdown), and [during] it, between
    its scan and its write-back. *)
Record Interference : Type := {
  before : DB -> DB;
  during : DB -> DB;
}.

(** Modelled from the spec: [version_aggregate_assets_summary] of
    [dandiapi.api.services.metadata] is not among the sources. Following
    section 4.3 it scans the live assets of the version, computes the
    summary, and writes it into the version's metadata only if the
    version's last-modified marker is still the one read when the scan
    began; otherwise the write is rejected with
    [VersionMetadataConcurrentlyModifiedError] and nothing is written. *)
Definition version_aggregate_assets_summary
    (aggregate_assets_summary : list Metadata -> JSON)
    (concurrent : DB -> DB) (vpk : Z) (version : Version.t) (db : DB)
    : Result unit * DB :=
  let assets_summary :=
    aggregate_assets_summary
      ((fun '(_, a) => Asset.metadata a) <$> version_asset_rows vpk db) in
  let db := concurrent db in
  match versions db !! vpk with
  | Some current =>
      if bool_decide (Version.modified current = Version.modified version)
      then
        (Ok tt,
         set_versions
           (insert vpk
              (Version.set_metadata
                 (<["assetsSummary" := assets_summary]>
                    (Version.metadata version))
                 current))
           db)
      else (Raise VersionMetadataConcurrentlyModifiedError, db)
  | None => (Raise VersionMetadataConcurrentlyModifiedError, db)
  end.

(** The body of [aggregate_assets_summary_task]. *)
Definition aggregate_assets_summary_body
    (aggregate_assets_summary : list Metadata -> JSON)
    (concurrent : DB -> DB) (version_id : Z) (db : DB) : Result unit * DB :=
  match versions db !! version_id with
  | None => (Raise DoesNotExist, db)
  | Some version =>
      version_aggregate_assets_summary aggregate_assets_summary concurrent
        version_id version db
  end.

(** The countdown before retry number [retries + 1]: exponential in the
    number of retries so far, capped, and with full jitter drawn from
    [randrange]. *)
Definition get_exponential_backoff_interval (randrange : Z -> Z)
    (factor : Z) (retries : nat) (maximum : Z) (full_jitter : bool) : Z :=
  let countdown := Z.min maximum (factor * 2 ^ Z.of_nat retries) in
  let countdown := if full_jitter then randrange (countdown + 1) else countdown in
  Z.max 0 countdown.

Definition countdown (opts : TaskOptions) (randrange : Z -> Z)
    (retries : nat) : Z :=
  if retry_backoff opts
  then get_exponential_backoff_interval randrange 1 retries
         (retry_backoff_max opts) (retry_jitter opts)
  else 180.

(** What one delivery of a task leads to: the final result, the database,
    and the countdowns of the retries that were scheduled on the way. *)
Record Outcome : Type := {
  result : Result unit;
  final : DB;
  countdowns : list Z;
}.

(** The retry loop of a task registered with [autoretry_for]: an exception
    of a listed class re-queues the whole task, unless [budget], what
    remains of [max_retries], is used up, in which case the exception surfaces. *)
Fixpoint autoretry (opts : TaskOptions) (randrange : Z -> Z)
    (body : (DB -> DB) -> DB -> Result unit * DB)
    (env : nat -> Interference) (budget retries : nat) (db : DB) : Outcome :=
  match body (during (env retries)) (before (env retries) db) with
  | (Ok _, db) => {| result := Ok tt; final := db; countdowns := [] |}
  | (Raise e, db) =>
      if autoretry_for opts e then
        match budget with
        | O => {| result := Raise e; final := db; countdowns := [] |}
        | S budget =>
            let o := autoretry opts randrange body env budget (S retries) db in
            {| result := result o; final := final o;
               countdowns := countdown opts randrange retries :: countdowns o |}
        end
      else {| result := Raise e; final := db; countdowns := [] |}
  end.

Definition run_aggregate_assets_summary_task
    (aggregate_assets_summary : list Metadata -> JSON) (randrange : Z -> Z)
    (env : nat -> Interference) (version_id : Z) (db : DB) : Outcome :=
  autoretry aggregate_assets_summary_task_options randrange
    (fun concurrent =>
       aggregate_assets_summary_body aggregate_assets_summary concurrent
         version_id)
    env (max_retries aggregate_assets_summary_task_options) 0 db.

(** ** The path index *)

Module PathIndex.
(** A prefix denotes a directory: the empty string for the root, or a
    string ending in the separator. *)
Fixpoint ends_with_separator (s : string) : bool :=
  match s with
  | EmptyString => false
  | String c EmptyString => Ascii.eqb c "/"
  | String _ rest => ends_with_separator rest
  end.

Definition is_directory (path_prefix : string) : bool :=
  String.eqb path_prefix "" || ends_with_separator path_prefix.

(** A node of version [vpk] whose path starts with the prefix. *)
Definition matches (path_prefix : string) (vpk : Z) (n : AssetPath.t)
    : bool :=
  bool_decide (AssetPath.version n = vpk)
  && String.prefix path_prefix (AssetPath.path n).

Definition name_under (path_prefix : string) (n : AssetPath.t) : string :=
  let p := AssetPath.path n in
  substring (String.length path_prefix)
            (String.length p - String.length path_prefix) p.

(** One segment: no separator, except for a directory's trailing one. *)
Fixpoint one_segment (name : string) : bool :=
  match name with
  | EmptyString => true
  | String c rest =>
      if Ascii.eqb c "/" then String.eqb rest "" else one_segment rest
  end.

Definition immediate (path_prefix : string) (n : AssetPath.t) : bool :=
  let name := name_under path_prefix n in
  negb (String.eqb name "") && one_segment name.

Fixpoint insert_sorted (n : AssetPath.t) (l : list AssetPath.t)
    : list AssetPath.t :=
  match l with
  | [] => [n]
  | m :: l' =>
      if String.leb (AssetPath.path n) (AssetPath.path m)
      then n :: l else m :: insert_sorted n l'
  end.

Definition by_name (l : list AssetPath.t) : list AssetPath.t :=
  foldr insert_sorted [] l.

(** Modelled from the spec: [search_path] of
    [dandiapi.api.services.asset] is not among the sources. Following
    section 4.2 ([childrenOf]) it returns the immediate children of the
    prefix, in lexicographic order of their names, and the absent result
    when the prefix matches no existing node of the version. *)
Definition search_path (path_prefix : string) (vpk : Z) (db : DB)
    : option (list AssetPath.t) :=
  match List.filter (matches path_prefix vpk) (asset_paths db) with
  | [] => None
  | below => Some (by_name (List.filter (immediate path_prefix) below))
  end.

(** The directory prefixes of a path: [a/] and [a/b/] for [a/b/c]. *)
Fixpoint directories_from (seen rest : string) : list string :=
  match rest with
  | EmptyString => []
  | String c rest' =>
      let seen := (seen ++ String c EmptyString)%string in
      if Ascii.eqb c "/" then seen :: directories_from seen rest'
      else directories_from seen rest'
  end.

Definition directories (path : string) : list string :=
  directories_from "" path.

Definition is_node (vpk : Z) (path : string) (n : AssetPath.t) : bool :=
  bool_decide (AssetPath.version n = vpk)
  && String.eqb (AssetPath.path n) path.

(** Add [files] and [size] to the directory node, creating it if need
    be. *)
Definition bump (vpk : Z) (files size : Z) (dir : string)
    (index : list AssetPath.t) : list AssetPath.t :=
  if existsb (is_node vpk dir) index
  then
    (fun n =>
       if is_node vpk dir n
       then {| AssetPath.version := vpk; AssetPath.path := dir;
               AssetPath.asset := AssetPath.asset n;
               AssetPath.aggregate_files :=
                 AssetPath.aggregate_files n + files;
               AssetPath.aggregate_size :=
                 AssetPath.aggregate_size n + size |}
       else n) <$> index
  else
    (index ++ [ {| AssetPath.version := vpk; AssetPath.path := dir;
                   AssetPath.asset := None;
                   AssetPath.aggregate_files := files;
                   AssetPath.aggregate_size := size |} ])%list.

Definition asset_size (db : DB) (a : Asset.t) : Z :=
  match Asset.blob a ≫= (asset_blobs db !!.),
        Asset.embargoed_blob a ≫= (embargoed_asset_blobs db !!.),
        Asset.zarr a ≫= (zarr_archives db !!.) with
  | Some b, _, _ => AssetBlob.size b
  | None, Some b, _ => AssetBlob.size b
  | None, None, Some z => ZarrArchive.size z
  | None, None, None => 0
  end.

(** Modelled from the spec: the path-index services [add_asset],
    [delete_asset] and [update_asset] of [dandiapi.api.services.asset]
    are not among the sources. Following section 4.2, attaching an asset
    adds one file and the leaf's size to every directory above it and
    records the leaf; detaching subtracts symmetrically and drops the
    leaf and the directories left without files. *)
Definition add_asset (pk vpk : Z) (db : DB) : DB :=
  match assets db !! pk with
  | None => db
  | Some a =>
      let size := asset_size db a in
      set_asset_paths
        (fun index =>
           (foldr (bump vpk 1 size) index (directories (Asset.path a))
            ++ [ {| AssetPath.version := vpk;
                    AssetPath.path := Asset.path a;
                    AssetPath.asset := Some pk;
                    AssetPath.aggregate_files := 1;
                    AssetPath.aggregate_size := size |} ])%list)
        db
  end.

Definition delete_asset (pk vpk : Z) (db : DB) : DB :=
  match assets db !! pk with
  | None => db
  | Some a =>
      let size := asset_size db a in
      set_asset_paths
        (fun index =>
           List.filter
             (fun n =>
                negb (is_node vpk (Asset.path a) n)
                && (0 <? AssetPath.aggregate_files n))
             (foldr (bump vpk (-1) (- size)) index
                    (directories (Asset.path a))))
        db
  end.

Definition update_asset (old_pk new_pk vpk : Z) (db : DB) : DB :=
  add_asset new_pk vpk (delete_asset old_pk vpk db).
End PathIndex.

(** ** Metadata validation *)

Module Validation.
(** The digests the backing content provides. *)
Definition content_digest (db : DB) (a : Asset.t) : list (string * JSON) :=
  match Asset.blob a ≫= (asset_blobs db !!.),
        Asset.embargoed_blob a ≫= (embargoed_asset_blobs db !!.),
        Asset.zarr a ≫= (zarr_archives db !!.) with
  | Some b, _, _ | None, Some b, _ =>
      ("dandi:dandi-etag", JStr (AssetBlob.etag b))
      :: match AssetBlob.sha256 b with
         | Some h => [("dandi:sha2-256", JStr h)]
         | None => []
         end
  | None, None, Some z =>
      match ZarrArchive.checksum z with
      | Some h => [("dandi:dandi-zarr-checksum", JStr h)]
      | None => []
      end
  | None, None, None => []
  end.

(** The document that is validated: the stored metadata with the
    content-derived fields merged in. *)
Definition published_metadata (db : DB) (a : Asset.t) : Metadata :=
  <["digest" := JDict (content_digest db a)]>
    (<["contentSize" := JNum (PathIndex.asset_size db a)]>
       (<["path" := JStr (Asset.path a)]> (Asset.metadata a))).

Definition issue (field message : string) : ValidationIssue :=
  {| issue_field := field; issue_message := message |}.

Definition field_issues (doc : Metadata) : list ValidationIssue :=
  (match doc !! "encodingFormat" with
   | Some _ => []
   | None => [issue "encodingFormat" "field required"]
   end
   ++ match doc !! "keywords" with
      | None | Some (JList _) => []
      | Some _ => [issue "keywords" "value is not a valid list"]
      end)%list.

(** The schema validator, as far as the assertions of
    [tests/test_tasks.py] pin it down. *)
Definition schema_validate (schema_version : string) (doc : Metadata)
    : list ValidationIssue :=
  match doc !! "schemaVersion" with
  | Some (JStr v) =>
      if String.eqb v schema_version then field_issues doc
      else [issue "" ("Metadata version " ++ v ++ " is not allowed.")]
  | _ => [issue "" "Metadata version None is not allowed."]
  end.

(** Modelled from the spec: the precondition of [validateAsset] in
    section 4.3. The blob (or embargoed blob) behind the asset has its
    digest, or its zarr archive is COMPLETE with a checksum. *)
Definition content_ready (db : DB) (a : Asset.t) : bool :=
  match Asset.blob a ≫= (asset_blobs db !!.),
        Asset.embargoed_blob a ≫= (embargoed_asset_blobs db !!.),
        Asset.zarr a ≫= (zarr_archives db !!.) with
  | Some b, _, _ | None, Some b, _ =>
      bool_decide (is_Some (AssetBlob.sha256 b))
  | None, None, Some z =>
      bool_decide (is_Some (ZarrArchive.checksum z))
      && bool_decide (ZarrArchive.status z = COMPLETE)
  | None, None, None => false
  end.

(** Modelled from the spec: the task [validate_asset_metadata] of
    [dandiapi.api.tasks] is not among the sources. Following section 4.3,
    it does nothing while the backing content is not ready; once it is, it
    merges the content-derived fields into the metadata, runs the schema
    validator and records VALID with no errors or INVALID with the
    validator's list. *)
Definition validate_asset_metadata (schema_version : string) (asset_id : Z)
    (db : DB) : DB :=
  match assets db !! asset_id with
  | None => db
  | Some a =>
      if content_ready db a then
        let errors :=
          schema_validate schema_version (published_metadata db a) in
        let status := match errors with [] => VALID | _ => INVALID end in
        set_assets (insert asset_id (Asset.set_validation status errors a))
                   db
      else db
  end.
End Validation.

(** ** A reference instance of the collaborators

    One concrete choice for every collaborator, used to run the views on
    concrete requests. *)

(** The segments of a path, split at the separator. *)
Fixpoint segments_from (seen rest : string) : list string :=
  match rest with
  | EmptyString => [seen]
  | String c rest' =>
      if Ascii.eqb c "/" then seen :: segments_from "" rest'
      else segments_from (seen ++ String c EmptyString)%string rest'
  end.

Definition is_control (c : ascii) : bool :=
  let n := nat_of_ascii c in ((n <? 32) || (n =? 127))%nat.

(** Modelled from the spec: [Asset.ASSET_PATH_REGEX] is not among the
    sources. Section 3 describes it as a path-safety pattern that disallows
    empty segments, the segments [.] and [..], and control characters. *)
Definition safe_path (path : string) : bool :=
  forallb (fun seg =>
             negb (String.eqb seg "") && negb (String.eqb seg ".")
             && negb (String.eqb seg ".."))
          (segments_from "" path)
  && forallb (fun c => negb (is_control c)) (list_ascii_of_string path).

(** Modelled from the spec: [Asset.strip_metadata] is not among the
    sources. The stored metadata is the draft without the content-derived
    fields that validation merges back in (section 4.3). *)
Definition computed_fields : list string := ["digest"; "contentSize"].

Definition reference_services : Services :=
  {| strip_metadata := fun m => foldr delete m computed_fields;
     ASSET_PATH_REGEX := safe_path;
     DANDI_SCHEMA_VERSION := "0.6.0";
     add_asset := PathIndex.add_asset;
     update_asset := PathIndex.update_asset;
     delete_asset := PathIndex.delete_asset;
     search_path := PathIndex.search_path;
     validate_asset_metadata := Validation.validate_asset_metadata "0.6.0" |}.

(** ** Vocabulary of the statements *)

(** Exactly one of the three content references is set. *)
Definition exactly_one_content (a : Asset.t) : Prop :=
  (is_Some (Asset.blob a) /\ Asset.embargoed_blob a = None
   /\ Asset.zarr a = None)
  \/ (Asset.blob a = None /\ is_Some (Asset.embargoed_blob a)
      /\ Asset.zarr a = None)
  \/ (Asset.blob a = None /\ Asset.embargoed_blob a = None
      /\ is_Some (Asset.zarr a)).

(** The check constraint [exactly-one-blob] that migration 0020 puts on the
    asset table: [(blob is null and zarr is not null) or (blob is not null
    and zarr is null)]. *)
Definition exactly_one_blob (a : Asset.t) : bool :=
  (bool_decide (Asset.blob a = None)
   && negb (bool_decide (Asset.zarr a = None)))
  || (negb (bool_decide (Asset.blob a = None))
      && bool_decide (Asset.zarr a = None)).

(** The asset [pk] is live in version [vpk], at [path]. *)
Definition live_at (db : DB) (vpk : Z) (path : string) (pk : Z) (a : Asset.t)
    : Prop :=
  (vpk, pk) ∈ version_assets db /\ assets db !! pk = Some a
  /\ Asset.path a = path.

(** The request changes the metadata or the blob of the old asset: the
    new metadata is not [==] to the old, or the blob differs. *)
Definition modifies (new_asset old_asset : Asset.t) : Prop :=
  metadata_eq (Asset.metadata new_asset) (Asset.metadata old_asset) = false
  \/ Asset.blob new_asset <> Asset.blob old_asset
  \/ Asset.embargoed_blob new_asset <> Asset.embargoed_blob old_asset.

(** The database once [create] has written the new asset and saved the
    version, before the inline validation. *)
Definition created (svc : Services) (now vpk : Z) (version : Version.t)
    (asset : Asset.t) (db : DB) : DB :=
  let pk := asset_seq db in
  save_version now vpk (Version.set_status PENDING version)
    (add_asset svc pk vpk
       (version_assets_add vpk pk (snd (save_asset asset db)))).

(** Likewise for [update], when it mints a new asset. *)
Definition replaced (svc : Services) (now vpk : Z) (version : Version.t)
    (old_pk : Z) (new_asset : Asset.t) (db : DB) : DB :=
  let pk := asset_seq db in
  save_version now vpk (Version.set_status PENDING version)
    (update_asset svc old_pk pk vpk
       (version_assets_remove vpk old_pk
          (version_assets_add vpk pk
             (snd (save_asset (Asset.set_previous (Some old_pk) new_asset)
                              db))))).

Definition asset_detail (pk : Z) (a : Asset.t) : Response :=
  {| body := AssetDetail pk a; status_code := HTTP_200_OK |}.

(** The backing content of the asset has not finished processing: its blob
    (or embargoed blob) has no sha256 yet, or its zarr archive is not
    COMPLETE with a checksum. *)
Definition content_not_ready (db : DB) (a : Asset.t) : Prop :=
  (exists b row, Asset.blob a = Some b /\ Asset.embargoed_blob a = None
     /\ Asset.zarr a = None /\ asset_blobs db !! b = Some row
     /\ AssetBlob.sha256 row = None)
  \/ (exists b row, Asset.blob a = None /\ Asset.embargoed_blob a = Some b
        /\ Asset.zarr a = None /\ embargoed_asset_blobs db !! b = Some row
        /\ AssetBlob.sha256 row = None)
  \/ (exists z row, Asset.blob a = None /\ Asset.embargoed_blob a = None
        /\ Asset.zarr a = Some z /\ zarr_archives db !! z = Some row
        /\ ~ (ZarrArchive.status row = COMPLETE
              /\ is_Some (ZarrArchive.checksum row))).

(** The blob (or embargoed blob) behind the asset has its sha256, as
    [refresh_from_db] finds it in [db]. *)
Definition digest_computed (db : DB) (a : Asset.t) : Prop :=
  exists b row h,
    ((Asset.blob a = Some b /\ asset_blobs db !! b = Some row)
     \/ (Asset.blob a = None /\ Asset.embargoed_blob a = Some b
         /\ embargoed_asset_blobs db !! b = Some row))
    /\ AssetBlob.sha256 row = Some h.

(** The asset is backed by a zarr archive only. *)
Definition zarr_backed (a : Asset.t) : Prop :=
  Asset.blob a = None /\ Asset.embargoed_blob a = None
  /\ is_Some (Asset.zarr a).

(** The version's last-modified marker, after what ran concurrently with
    the pass, is no longer the one the pass read. *)
Definition marker_moved (concurrent : DB -> DB) (vpk : Z)
    (version : Version.t) (db : DB) : Prop :=
  Version.modified <$> versions (concurrent db) !! vpk
  <> Some (Version.modified version).

(** A sane random source: [randrange n] lies in [0, n). *)
Definition in_range (randrange : Z -> Z) : Prop :=
  forall n, 0 < n -> 0 <= randrange n < n.

(** An outcome reached after one more retry. *)
Definition after_countdown (c : Z) (o : Outcome) : Outcome :=
  {| result := result o; final := final o; countdowns := c :: countdowns o |}.

(** ** Fixtures *)

Module Fixture.
Definition metadata (path : string) : Metadata :=
  {[ "path" := JStr path; "schemaVersion" := JStr "0.6.0";
     "encodingFormat" := JStr "application/x-nwb" ]}.

Definition draft : Version.t :=
  {| Version.dandiset := 1; Version.version := "draft";
     Version.metadata := {[ "schemaVersion" := JStr "0.6.0" ]};
     Version.status := PENDING; Version.validation_errors := [];
     Version.modified := 10 |}.

Definition published : Version.t :=
  {| Version.dandiset := 1; Version.version := "0.220101.0000";
     Version.metadata := {[ "schemaVersion" := JStr "0.6.0" ]};
     Version.status := PENDING; Version.validation_errors := [];
     Version.modified := 5 |}.

Definition asset_a : Asset.t :=
  {| Asset.asset_id := "a-1"; Asset.path := "sub/a.nwb";
     Asset.blob := Some "b-ready"; Asset.embargoed_blob := None;
     Asset.zarr := None;
     Asset.metadata := metadata "sub/a.nwb";
     Asset.status := PENDING; Asset.validation_errors := [];
     Asset.previous := None |}.

(** An asset whose blob is still waiting for its checksum. *)
Definition asset_fresh : Asset.t :=
  {| Asset.asset_id := "a-9"; Asset.path := "sub/fresh.nwb";
     Asset.blob := Some "b-fresh"; Asset.embargoed_blob := None;
     Asset.zarr := None;
     Asset.metadata := metadata "sub/fresh.nwb";
     Asset.status := PENDING; Asset.validation_errors := [];
     Asset.previous := None |}.

Definition db : DB :=
  {| asset_blobs :=
       {[ "b-ready" := {| AssetBlob.blob_id := "b-ready";
                          AssetBlob.etag := "e1-1";
                          AssetBlob.sha256 := Some "f00d";
                          AssetBlob.size := 100 |};
          "b-fresh" := {| AssetBlob.blob_id := "b-fresh";
                          AssetBlob.etag := "e2-1";
                          AssetBlob.sha256 := None;
                          AssetBlob.size := 50 |} ]};
     embargoed_asset_blobs := ∅;
     zarr_archives :=
       {[ "z-complete" := {| ZarrArchive.zarr_id := "z-complete";
                             ZarrArchive.dandiset := 1;
                             ZarrArchive.checksum := Some "c0de-3--7";
                             ZarrArchive.status := COMPLETE;
                             ZarrArchive.file_count := 3;
                             ZarrArchive.size := 7 |} ]};
     assets := {[ 1 := asset_a; 9 := asset_fresh ]};
     asset_seq := 10;
     versions := {[ 1 := draft; 2 := published ]};
     version_assets := {[ (1, 1); (2, 1); (1, 9) ]};
     asset_paths :=
       [ {| AssetPath.version := 1; AssetPath.path := "sub/";
            AssetPath.asset := None; AssetPath.aggregate_files := 2;
            AssetPath.aggregate_size := 150 |};
         {| AssetPath.version := 1; AssetPath.path := "sub/a.nwb";
            AssetPath.asset := Some 1; AssetPath.aggregate_files := 1;
            AssetPath.aggregate_size := 100 |};
         {| AssetPath.version := 1; AssetPath.path := "sub/fresh.nwb";
            AssetPath.asset := Some 9; AssetPath.aggregate_files := 1;
            AssetPath.aggregate_size := 50 |} ] |}.

(** The same database before any asset was attached. *)
Definition blank : DB :=
  set_asset_paths (fun _ => [])
    (set_version_assets (fun _ => ∅) (set_assets (fun _ => ∅) db)).

(** Nothing interferes with the pass. *)
Definition quiet : Interference :=
  {| before := fun d => d; during := fun d => d |}.

(** What a listing shows of each child: name, file count, total size. *)
Definition totals (r : Result Response) : list (string * Z * Z) :=
  match r with
  | Ok {| body := AssetPaths children |} =>
      (fun n => (AssetPath.path n, AssetPath.aggregate_files n,
                 AssetPath.aggregate_size n)) <$> children
  | _ => []
  end.

(** The fixture of the task tests: asset 1 with other metadata. *)
Definition asset_with (m : Metadata) : Asset.t :=
  {| Asset.asset_id := "a-1"; Asset.path := "sub/a.nwb";
     Asset.blob := Some "b-ready"; Asset.embargoed_blob := None;
     Asset.zarr := None; Asset.metadata := m;
     Asset.status := PENDING; Asset.validation_errors := [];
     Asset.previous := None |}.

Definition db_with (m : Metadata) : DB :=
  set_assets (insert 1 (asset_with m)) db.

(** Every run of the aggregation pass races with a writer that saves
    version 1. *)
Definition racing (n : nat) : Interference :=
  {| before := fun d => d;
     during := fun d =>
       match versions d !! 1 with
       | Some v =>
           save_version (Version.modified v + 1) 1
             (Version.set_status PENDING v) d
       | None => d
       end |}.

Definition request (path : string) (blob_id zarr_id : option UUID)
    : AssetRequestSerializer.data :=
  {| AssetRequestSerializer.metadata := metadata path;
     AssetRequestSerializer.blob_id := blob_id;
     AssetRequestSerializer.zarr_id := zarr_id |}.
End Fixture.

(** What [validate_asset_metadata] of the reference instance records for
    asset [pk]. *)
Definition validated (db : DB) (pk : Z)
    : option (Status * list ValidationIssue) :=
  (fun a => (Asset.status a, Asset.validation_errors a))
    <$> assets (validate_asset_metadata reference_services pk db) !! pk.

(** ** Vocabulary of the further statements *)

(** The request names exactly one of [blob_id] and [zarr_id]. *)
Definition one_content_id (d : AssetRequestSerializer.data) : Prop :=
  is_Some (AssetRequestSerializer.blob_id d)
  <-> AssetRequestSerializer.zarr_id d = None.

(** The content the request names is on record: its [blob_id] among the
    blobs or the embargoed blobs, or its [zarr_id] among the archives. *)
Definition content_on_record (d : AssetRequestSerializer.data) (db : DB)
    : Prop :=
  match AssetRequestSerializer.blob_id d,
        AssetRequestSerializer.zarr_id d with
  | Some b, _ =>
      is_Some (asset_blobs db !! b)
      \/ is_Some (embargoed_asset_blobs db !! b)
  | None, Some z => is_Some (zarr_archives db !! z)
  | None, None => False
  end.

(** The content reference of the asset resolves in the database. *)
Definition content_resolves (db : DB) (a : Asset.t) : Prop :=
  (forall b, Asset.blob a = Some b -> is_Some (asset_blobs db !! b))
  /\ (forall b, Asset.embargoed_blob a = Some b ->
        is_Some (embargoed_asset_blobs db !! b))
  /\ (forall z, Asset.zarr a = Some z -> is_Some (zarr_archives db !! z)).

(** [db'] differs from [db] at most in the path index. *)
Definition same_but_paths (db' db : DB) : Prop :=
  asset_blobs db' = asset_blobs db
  /\ embargoed_asset_blobs db' = embargoed_asset_blobs db
  /\ zarr_archives db' = zarr_archives db
  /\ assets db' = assets db
  /\ asset_seq db' = asset_seq db
  /\ versions db' = versions db
  /\ version_assets db' = version_assets db.

(** [db'] differs from [db] at most in the validation status and errors of
    asset [pk]. *)
Definition same_but_validation (pk : Z) (db' db : DB) : Prop :=
  asset_blobs db' = asset_blobs db
  /\ embargoed_asset_blobs db' = embargoed_asset_blobs db
  /\ zarr_archives db' = zarr_archives db
  /\ asset_seq db' = asset_seq db
  /\ versions db' = versions db
  /\ version_assets db' = version_assets db
  /\ asset_paths db' = asset_paths db
  /\ (forall k, k <> pk -> assets db' !! k = assets db !! k)
  /\ match assets db !! pk with
     | Some a =>
         exists s errs, assets db' !! pk = Some (Asset.set_validation s errs a)
     | None => assets db' !! pk = None
     end.

(** Collaborators that write only what their names say: the path-index
    services only the path index, the validation task only the status and
    errors of the asset it is given. *)
Record well_behaved (svc : Services) : Prop := {
  add_asset_frame :
    forall pk vpk db, same_but_paths (add_asset svc pk vpk db) db;
  update_asset_frame :
    forall old_pk new_pk vpk db,
      same_but_paths (update_asset svc old_pk new_pk vpk db) db;
  delete_asset_frame :
    forall pk vpk db, same_but_paths (delete_asset svc pk vpk db) db;
  validate_asset_metadata_frame :
    forall pk db,
      same_but_validation pk (validate_asset_metadata svc pk db) db;
}.

(** The zarr archive of the asset, if any, belongs to the version's
    dandiset. *)
Definition zarr_of_same_dandiset (db : DB) (a : Asset.t) (v : Version.t)
    : Prop :=
  forall z row, Asset.zarr a = Some z -> zarr_archives db !! z = Some row ->
    ZarrArchive.dandiset row = Version.dandiset v.

(** The version row [version.save()] writes after an asset mutation. *)
Definition touched (now : Z) (v : Version.t) : Version.t :=
  Version.set_modified now (Version.set_status PENDING v).

(** The primary-key sequence of the asset table is ahead of every key in
    use. *)
Definition sequence_ahead (db : DB) : Prop :=
  forall k, is_Some (assets db !! k) -> k < asset_seq db.

(** The invariants of the asset tables: associations point at stored
    assets, the key sequence is ahead, [asset_id]s are unique, a version has
    at most one live asset per path, and every stored asset has exactly one
    content reference, which resolves. *)
Record consistent (db : DB) : Prop := {
  associations_resolve :
    forall v k, (v, k) ∈ version_assets db -> is_Some (assets db !! k);
  keys_below_sequence : sequence_ahead db;
  asset_ids_unique :
    forall k1 k2 r1 r2,
      assets db !! k1 = Some r1 -> assets db !! k2 = Some r2 ->
      Asset.asset_id r1 = Asset.asset_id r2 -> k1 = k2;
  paths_unique :
    forall v k1 k2 r1 r2,
      (v, k1) ∈ version_assets db -> (v, k2) ∈ version_assets db ->
      assets db !! k1 = Some r1 -> assets db !! k2 = Some r2 ->
      Asset.path r1 = Asset.path r2 -> k1 = k2;
  contents_resolve :
    forall k r, assets db !! k = Some r ->
      exactly_one_content r /\ content_resolves db r;
}.

(** No stored asset carries this [asset_id]. *)
Definition unused_asset_id (db : DB) (uuid4 : UUID) : Prop :=
  forall k r, assets db !! k = Some r -> Asset.asset_id r <> uuid4.

(** The view answered with a success status. *)
Definition succeeded (r : Result Response) : Prop :=
  exists resp, r = Ok resp
    /\ (status_code resp = HTTP_200_OK
        \/ status_code resp = HTTP_204_NO_CONTENT).

(** ** The throttled iterator, step by step *)

(** What a consumer that drains [throttled_iterator(iterable,
    max_per_second)] observes: the items it is handed and, after each, the
    sleep of [1 / max_per_second] seconds; and the exception, if any, that
    ends the iteration. *)
Inductive Step (A : Type) : Type :=
  | Yielded (item : A)
  | Slept (max_per_second : Z).
Arguments Yielded {A} item.
Arguments Slept {A} max_per_second.

Inductive SleepError : Type :=
  | ZeroDivisionError
  | ValueError.

(** [1 / max_per_second] is a float, the correctly rounded quotient of the
    two integers. Half the smallest positive float is [2 ^ -1075] and a tie
    goes to the even neighbour, so the quotient is zero, with the sign of
    the divisor, exactly when the divisor is [2 ^ 1075] or more in
    magnitude. *)
Definition quotient_is_zero (max_per_second : Z) : bool :=
  2 ^ 1075 <=? Z.abs max_per_second.

(** [time.sleep(1 / max_per_second)]: the division fails on zero, and
    [time.sleep] refuses a negative length; it takes [-0.0] for zero. *)
Definition sleep_one_over (max_per_second : Z) : option SleepError :=
  if max_per_second =? 0 then Some ZeroDivisionError
  else if (max_per_second <? 0) && negb (quotient_is_zero max_per_second)
  then Some ValueError
  else None.

Fixpoint throttled_steps {A : Type} (iterable : list A)
    (max_per_second : Z) : list (Step A) * option SleepError :=
  match iterable with
  | [] => ([], None)
  | item :: rest =>
      match sleep_one_over max_per_second with
      | Some e => ([Yielded item], Some e)
      | None =>
          let '(steps, e) := throttled_steps rest max_per_second in
          (Yielded item :: Slept max_per_second :: steps, e)
      end
  end.

(** The items among the steps. *)
Definition yielded {A : Type} (steps : list (Step A)) : list A :=
  omap (fun s => match s with Yielded x => Some x | Slept _ => None end)
       steps.

(** ** Who may read

    The permission checks of the two view sets, over the embargo status of
    the dandisets, the dandiset of each embargoed blob and the ownership
    relation of the permission backend. *)

Inductive EmbargoStatus : Type := OPEN | EMBARGOED | UNEMBARGOING.

#[global] Instance EmbargoStatus_eqdec : EqDecision EmbargoStatus.
Proof. solve_decision. Defined.

Record Access : Type := {
  embargo_status : gmap Z EmbargoStatus;
  embargoed_blob_dandiset : gmap UUID Z;
  owners : gset (Z * Z);
}.

(** The outcome of a permission check. *)
Inductive Verdict : Type :=
  | Allowed
  | NotAuthenticated
  | PermissionDenied
  | Failed (e : Exn).

(** [request.user]: [None] is the anonymous user, [Some u] an
    authenticated one. *)
Definition has_perm_owner (acc : Access) (user : Z) (dandiset : Z) : bool :=
  bool_decide ((user, dandiset) ∈ owners acc).

(** The two nested tests both checks share. *)
Definition owner_only (acc : Access) (user : option Z) (dandiset : Z)
    : Verdict :=
  match user with
  | None => NotAuthenticated
  | Some u =>
      if has_perm_owner acc u dandiset then Allowed else PermissionDenied
  end.

(** [get_object_or_404(Asset, asset_id=asset_id)]. *)
Definition find_asset (asset_id : UUID) (db : DB) : option (Z * Asset.t) :=
  List.find (fun '(_, a) => String.eqb (Asset.asset_id a) asset_id)
            (map_to_list (assets db)).

(** [AssetViewSet.raise_if_unauthorized]. *)
Definition asset_raise_if_unauthorized (acc : Access) (user : option Z)
    (asset_id : option UUID) (db : DB) : Verdict :=
  match asset_id with
  | None => Allowed
  | Some asset_id =>
      match find_asset asset_id db with
      | None => Failed Http404
      | Some (_, asset) =>
          match Asset.embargoed_blob asset with
          | None => Allowed
          | Some b =>
              match embargoed_blob_dandiset acc !! b with
              | Some dandiset => owner_only acc user dandiset
              | None => Failed DoesNotExist
              end
          end
      end
  end.

(** [NestedAssetViewSet.raise_if_unauthorized]. *)
Definition nested_raise_if_unauthorized (acc : Access) (user : option Z)
    (versions__dandiset__pk : Z) (versions__version : string) (db : DB)
    : Verdict :=
  match find_version versions__dandiset__pk versions__version db with
  | None => Failed Http404
  | Some (_, version) =>
      match embargo_status acc !! Version.dandiset version with
      | None => Failed DoesNotExist
      | Some status =>
          if bool_decide (status <> OPEN)
          then owner_only acc user (Version.dandiset version)
          else Allowed
      end
  end.

(** [AssetViewSet.retrieve]: the permission check of [get_queryset], the
    lookup of [get_object], then the asset's metadata. *)
Definition retrieve (acc : Access) (user : option Z) (asset_id : UUID)
    (db : DB) : Verdict * option Metadata :=
  match asset_raise_if_unauthorized acc user (Some asset_id) db with
  | Allowed =>
      match find_asset asset_id db with
      | Some (_, asset) => (Allowed, Some (Asset.metadata asset))
      | None => (Failed Http404, None)
      end
  | refused => (refused, None)
  end.

(** ** The validators of the character fields

    The migrations declare character fields with a regular expression:
    [Dandiset.draft_folder_id] and [Asset.sha256] in the initial migration,
    [ZarrUploadFile.etag] in the zarr migration. Their patterns are kept as
    syntax trees; [show] prints a tree back to the text of the migration.
    A string is the sequence of bytes of its UTF-8 encoding. These patterns
    name ASCII characters only, so a character or class of the pattern
    matches one byte, and a byte of a character outside ASCII matches
    nothing. *)
Module pattern.

Inductive t : Type :=
  | Never
  | Empty
  | Char (c : ascii)
  | Class (ranges : list (ascii * ascii))
  | Cat (r1 r2 : t)
  | Alt (r1 r2 : t)
  | Star (r : t)
  | Opt (r : t)
  | Times (r : t) (n : nat)
  | Group (r : t).

Definition in_range (lo hi c : ascii) : bool :=
  ((nat_of_ascii lo <=? nat_of_ascii c)
   && (nat_of_ascii c <=? nat_of_ascii hi))%nat.

Definition in_class (ranges : list (ascii * ascii)) (c : ascii) : bool :=
  existsb (fun '(lo, hi) => in_range lo hi c) ranges.

(** The class [[0-9]]. *)
Definition is_ascii_digit (c : ascii) : bool := in_range "0" "9" c.

Fixpoint nullable (r : t) : bool :=
  match r with
  | Never | Char _ | Class _ => false
  | Empty | Star _ | Opt _ => true
  | Cat r1 r2 => nullable r1 && nullable r2
  | Alt r1 r2 => nullable r1 || nullable r2
  | Times r n => match n with O => true | S _ => nullable r end
  | Group r => nullable r
  end.

(** What is left of [r] once it has read [c]. *)
Fixpoint deriv (c : ascii) (r : t) : t :=
  match r with
  | Never | Empty => Never
  | Char d => if Ascii.eqb c d then Empty else Never
  | Class ranges => if in_class ranges c then Empty else Never
  | Cat r1 r2 =>
      if nullable r1 then Alt (Cat (deriv c r1) r2) (deriv c r2)
      else Cat (deriv c r1) r2
  | Alt r1 r2 => Alt (deriv c r1) (deriv c r2)
  | Star r => Cat (deriv c r) (Star r)
  | Opt r => deriv c r
  | Times r n =>
      match n with
      | O => Never
      | S n' => Cat (deriv c r) (Times r n')
      end
  | Group r => deriv c r
  end.

(** [re.fullmatch(r, s) is not None]. *)
Fixpoint fullmatch (r : t) (s : list ascii) : bool :=
  match s with
  | [] => nullable r
  | c :: s' => fullmatch (deriv c r) s'
  end.

(** The language of a pattern. *)
Inductive Matches : t -> list ascii -> Prop :=
  | M_Empty : Matches Empty []
  | M_Char c : Matches (Char c) [c]
  | M_Class ranges c : in_class ranges c = true -> Matches (Class ranges) [c]
  | M_Cat r1 r2 s1 s2 :
      Matches r1 s1 -> Matches r2 s2 -> Matches (Cat r1 r2) (s1 ++ s2)
  | M_AltL r1 r2 s : Matches r1 s -> Matches (Alt r1 r2) s
  | M_AltR r1 r2 s : Matches r2 s -> Matches (Alt r1 r2) s
  | M_Star0 r : Matches (Star r) []
  | M_StarS r s1 s2 :
      Matches r s1 -> Matches (Star r) s2 -> Matches (Star r) (s1 ++ s2)
  | M_Opt0 r : Matches (Opt r) []
  | M_Opt1 r s : Matches r s -> Matches (Opt r) s
  | M_Times0 r : Matches (Times r 0) []
  | M_TimesS r n s1 s2 :
      Matches r s1 -> Matches (Times r n) s2 ->
      Matches (Times r (S n)) (s1 ++ s2)
  | M_Group r s : Matches r s -> Matches (Group r) s.

Definition is_special (c : ascii) : bool :=
  existsb (Ascii.eqb c) (list_ascii_of_string ".^$*+?{}[]\|()").

Definition digit_char (n : nat) : ascii := ascii_of_nat (48 + n).

Fixpoint decimal_digits (fuel n : nat) (acc : string) : string :=
  match fuel with
  | O => acc
  | S fuel' =>
      let acc' := String (digit_char (n mod 10)) acc in
      if (n <? 10)%nat then acc' else decimal_digits fuel' (n / 10) acc'
  end.

Definition decimal (n : nat) : string := decimal_digits (S n) n "".

(** The text of a pattern. *)
Fixpoint show (r : t) : string :=
  match r with
  | Never => "(?!)"
  | Empty => ""
  | Char c => if is_special c then String "\" (String c "") else String c ""
  | Class ranges =>
      "[" ++ fold_right (fun '(lo, hi) rest =>
                           String lo (String "-" (String hi rest)))
                        "]" ranges
  | Cat r1 r2 => show r1 ++ show r2
  | Alt r1 r2 => show r1 ++ "|" ++ show r2
  | Star r => show r ++ "*"
  | Opt r => show r ++ "?"
  | Times r n => show r ++ "{" ++ decimal n ++ "}"
  | Group r => "(" ++ show r ++ ")"
  end.

(** A pattern written [^body$], without flags. *)
Definition anchored (body : t) : string := "^" ++ show body ++ "$".

(** [s] without its last character, when that is a newline. *)
Definition before_final_newline (s : list ascii) : option (list ascii) :=
  match reverse s with
  | c :: rest => if Ascii.eqb c "010" then Some (reverse rest) else None
  | [] => None
  end.

(** [re.compile('^body$').search(value) is not None]: [^] is the start of
    the string; [$] is its end, or the place before a newline that ends
    it. *)
Definition search_anchored (body : t) (value : string) : bool :=
  let s := list_ascii_of_string value in
  fullmatch body s
  || match before_final_newline s with
     | Some s' => fullmatch body s'
     | None => false
     end.

End pattern.

(** A validator accepts a value ([true]) or raises [ValidationError]
    ([false]). *)
Definition RegexValidator (body : pattern.t) (value : string) : bool :=
  pattern.search_anchored body value.

(** A byte [10xxxxxx] continues a character; every other byte starts
    one. *)
Definition is_continuation (c : ascii) : bool :=
  let n := nat_of_ascii c in ((128 <=? n) && (n <? 192))%nat.

Definition code_points (bytes : list ascii) : nat :=
  length (List.filter (fun c => negb (is_continuation c)) bytes).

(** [len(value)]: the number of characters of the string. *)
Definition len (value : string) : nat :=
  code_points (list_ascii_of_string value).

Definition MaxLengthValidator (limit_value : nat) (value : string) : bool :=
  (len value <=? limit_value)%nat.

Record CharField : Type := {
  max_length : nat;
  validators : list (string -> bool);
  blank : bool;
}.

(** [models.CharField(max_length=..., validators=[...])]: the field adds
    the length validator to the declared ones and is not blank. *)
Definition models_CharField (max_length : nat)
    (validators : list (string -> bool)) : CharField :=
  {| max_length := max_length;
     validators := (validators ++ [MaxLengthValidator max_length])%list;
     blank := false |}.

Definition is_empty_value (value : string) : bool :=
  match value with EmptyString => true | String _ _ => false end.

(** [Field.run_validators]: an empty value is not looked at. *)
Definition run_validators (field : CharField) (value : string) : bool :=
  is_empty_value value || forallb (fun v => v value) (validators field).

(** [Field.clean] on a string: [validate] refuses an empty value of a
    field that is not blank, then the validators run. *)
Definition clean (field : CharField) (value : string) : bool :=
  (blank field || negb (is_empty_value value)) && run_validators field value.

Definition hex : pattern.t := pattern.Class [("0", "9"); ("a", "f")]%char.

Definition draft_folder_id_regex : pattern.t := pattern.Times hex 24.

Definition sha256_regex : pattern.t := pattern.Times hex 64.

Definition etag_regex : pattern.t :=
  pattern.Cat (pattern.Times hex 32)
    (pattern.Opt
       (pattern.Group
          (pattern.Cat (pattern.Char "-")
             (pattern.Cat (pattern.Class [("1", "9")]%char)
                (pattern.Star (pattern.Class [("0", "9")]%char)))))).

Definition draft_folder_id_field : CharField :=
  models_CharField 24 [RegexValidator draft_folder_id_regex].

Definition sha256_field : CharField :=
  models_CharField 64 [RegexValidator sha256_regex].

Definition etag_field : CharField :=
  models_CharField 40 [RegexValidator etag_regex].

(** Lower-case hexadecimal digits, and decimal digits. *)
Definition is_hex (c : ascii) : bool :=
  pattern.in_range "0" "9" c || pattern.in_range "a" "f" c.

(** The part count an etag of a multipart upload ends with: a dash and a
    number without a leading zero. *)
Definition is_part_number (parts : list ascii) : Prop :=
  exists d ds,
    parts = ("-" :: d :: ds)%char%list
    /\ pattern.in_range "1" "9" d = true
    /\ forallb pattern.is_ascii_digit ds = true.


(** A dandiset has at most one version of each name. *)
Definition versions_unique (db : DB) : Prop :=
  forall k1 k2 v1 v2,
    versions db !! k1 = Some v1 -> versions db !! k2 = Some v2 ->
    Version.dandiset v1 = Version.dandiset v2 ->
    Version.version v1 = Version.version v2 -> k1 = k2.

(** ** WebKNOSSOS addresses *)

(** [os.getenv('WEBKNOSSOS_API_URL', default)], the environment holding a
    value for the variable or none. *)
Definition getenv (environ : option string) (default : option string)
    : option string :=
  match environ with
  | Some value => Some value
  | None => default
  end.

(** A value inside an f-string: [None] prints as its name. *)
Definition fstr (value : option string) : string :=
  match value with
  | Some s => s
  | None => "None"
  end.

Definition WEBKNOSSOS_BINARY_DATA_FOLDER : string := "binaryData".
Definition WEBKNOSSOS_BINARY_DATA_PORT : string := "8080".
Definition WEBKNOSSOS_DATASOURCE_PROPERTIES_FILE_NAME : string :=
  "datasource-properties.json".
Definition default_webknossos_api_url : string :=
  "webknossos-r5.lincbrain.org".

Module WebKnossosDataset.

Record t : Type := {
  webknossos_dataset_name : option string;
  webknossos_organization_name : option string;
}.

(** [None] stands for the [Exception] raised when the variable is set but
    empty. *)
Definition get_datasource_properties_url (environ : option string)
    (self : t) : option string :=
  let webknossos_api_url :=
    fstr (getenv environ (Some default_webknossos_api_url)) in
  if negb (String.eqb webknossos_api_url "") then
    Some ("http://" ++ webknossos_api_url ++ ":"
          ++ WEBKNOSSOS_BINARY_DATA_PORT ++ "/"
          ++ WEBKNOSSOS_BINARY_DATA_FOLDER ++ "/"
          ++ fstr (webknossos_organization_name self) ++ "/"
          ++ fstr (webknossos_dataset_name self) ++ "/"
          ++ WEBKNOSSOS_DATASOURCE_PROPERTIES_FILE_NAME)
  else None.

Definition get_webknossos_url (environ : option string) (self : t)
    : option string :=
  let webknossos_api_url :=
    fstr (getenv environ (Some default_webknossos_api_url)) in
  if negb (String.eqb webknossos_api_url "") then
    Some ("https://" ++ webknossos_api_url ++ "/datasets/"
          ++ fstr (webknossos_organization_name self) ++ "/"
          ++ fstr (webknossos_dataset_name self))
  else None.

End WebKnossosDataset.

(** The two addresses [populate_webknossos_datasets_and_annotations]
    builds from the same variable. *)
Definition webknossos_login_endpoint (environ : option string) : string :=
  fstr (getenv environ None) ++ "/api/auth/login".

Definition webknossos_datasets_url (environ : option string) : string :=
  "https://" ++ fstr (getenv environ (Some default_webknossos_api_url))
  ++ "/api/datasets".

(** ** Further sample data *)
Module Sample.

(** A request whose metadata names a path and nothing else. *)
Definition bare_request : AssetRequestSerializer.data :=
  {| AssetRequestSerializer.metadata := {[ "path" := JStr "sub/b.nwb" ]};
     AssetRequestSerializer.blob_id := Some "b-ready";
     AssetRequestSerializer.zarr_id := None |}.

(** The same request once validated. *)
Definition bare_validated : AssetRequestSerializer.data :=
  {| AssetRequestSerializer.metadata :=
       {[ "path" := JStr "sub/b.nwb"; "schemaVersion" := JStr "0.6.0" ]};
     AssetRequestSerializer.blob_id := Some "b-ready";
     AssetRequestSerializer.zarr_id := None |}.

(** A request whose path is a number. *)
Definition numeric_path_request : AssetRequestSerializer.data :=
  {| AssetRequestSerializer.metadata := {[ "path" := JNum 7 ]};
     AssetRequestSerializer.blob_id := Some "b-ready";
     AssetRequestSerializer.zarr_id := None |}.

(** The unsaved asset a request of the fixture yields. *)
Definition new_asset (path : string) (blob zarr : option UUID) : Asset.t :=
  {| Asset.asset_id := "a-2"; Asset.path := path;
     Asset.blob := blob; Asset.embargoed_blob := None; Asset.zarr := zarr;
     Asset.metadata := Fixture.metadata path;
     Asset.status := PENDING; Asset.validation_errors := [];
     Asset.previous := None |}.

(** Dandiset 1 is embargoed and user 7 owns it. *)
Definition access : Access :=
  {| embargo_status := {[ 1 := EMBARGOED ]};
     embargoed_blob_dandiset := ∅;
     owners := {[ (7, 1) ]} |}.




(** Metadata that differ as JSON texts and are equal as Python values. *)
Definition flagged (flag : JSON) : Metadata :=
  <["flag" := flag]> (Fixture.metadata "sub/a.nwb").

End Sample.

(** * Globs *)

Section GlobFacts.

Ltac by_cases_on_ascii c :=
  destruct c as [[] [] [] [] [] [] [] []]; vm_compute; intuition congruence.

Lemma special_not_alnum c : re.is_special c = true -> is_alnum c = false.
Proof. by_cases_on_ascii c. Qed.

Lemma plain_not_metachar c : re.is_special c = false -> is_metachar c = false.
Proof. by_cases_on_ascii c. Qed.

Lemma plain_not_backslash c : re.is_special c = false -> Ascii.eqb c "\" = false.
Proof. by_cases_on_ascii c. Qed.

Lemma plain_not_dot c : re.is_special c = false -> Ascii.eqb c "." = false.
Proof. by_cases_on_ascii c. Qed.

Lemma plain_not_star c : re.is_special c = false -> Ascii.eqb c "*" = false.
Proof. by_cases_on_ascii c. Qed.

End GlobFacts.

Lemma prefix_backslash_star a b r :
  String.prefix "\*" (String a (String b r))
  = Ascii.eqb a "\" && Ascii.eqb b "*".
Proof.
  cbn [String.prefix].
  destruct (ascii_dec "\" a) as [<-|Ha].
  - destruct (ascii_dec "*" b) as [<-|Hb]; [by destruct r|].
    destruct (Ascii.eqb_spec b "*"); [congruence|reflexivity].
  - destruct (Ascii.eqb_spec a "\"); [congruence|reflexivity].
Qed.

Lemma escape_head_not_star r :
  match re.escape r with
  | String c _ => Ascii.eqb c "*" = false
  | EmptyString => True
  end.
Proof.
  destruct r as [|c r]; cbn [re.escape]; [exact I|].
  destruct (re.is_special c) eqn:Hc; [reflexivity|].
  by apply plain_not_star.
Qed.

Lemma no_match_before_escape c r :
  String.prefix "\*" (String c (re.escape r)) = false.
Proof.
  pose proof (escape_head_not_star r) as H.
  destruct (re.escape r) as [|d s].
  - cbn [String.prefix]. by destruct (ascii_dec _ _).
  - rewrite prefix_backslash_star, H. apply andb_false_r.
Qed.

Lemma atoms_replace_escape g :
  atoms (str.replace_from "\*" ".*" 0 (re.escape g))
  = Some (glob_atom <$> list_ascii_of_string g).
Proof.
  induction g as [|c g IH]; [reflexivity|].
  cbn [re.escape list_ascii_of_string fmap list_fmap].
  destruct (re.is_special c) eqn:Hc.
  - cbn [str.replace_from]. rewrite prefix_backslash_star.
    cbn [Ascii.eqb Bool.eqb andb].
    unfold glob_atom at 1.
    destruct (Ascii.eqb c "*") eqn:Hstar.
    + cbn [String.length Nat.sub str.replace_from].
      change (atoms (String "." (String "*"
                (str.replace_from "\*" ".*" 0 (re.escape g))))
              = Some (AnyString :: (glob_atom <$> list_ascii_of_string g))).
      cbn [atoms]. cbn [Ascii.eqb Bool.eqb]. by rewrite IH.
    + rewrite no_match_before_escape.
      cbn [atoms]. cbn [Ascii.eqb Bool.eqb].
      rewrite (special_not_alnum _ Hc). by rewrite IH.
  - cbn [str.replace_from]. rewrite no_match_before_escape.
    cbn [atoms].
    rewrite (plain_not_backslash _ Hc), (plain_not_dot _ Hc),
      (plain_not_metachar _ Hc), IH.
    unfold glob_atom. by rewrite (plain_not_star _ Hc).
Qed.

Lemma atoms_glob_iregex g :
  atoms (glob_iregex g) = Some (glob_atom <$> list_ascii_of_string g).
Proof. apply atoms_replace_escape. Qed.

Lemma append_assoc (a b c : string) : (a ++ (b ++ c) = (a ++ b) ++ c)%string.
Proof.
  induction a as [|x a IH]; [reflexivity|].
  change (String x (a ++ (b ++ c)) = String x ((a ++ b) ++ c))%string.
  by rewrite IH.
Qed.

Lemma match_here_any l s :
  match_here (AnyString :: l) s = true
  <-> exists pre rest, s = (pre ++ rest)%string /\ match_here l rest = true.
Proof.
  induction s as [|d s IH].
  - cbn. rewrite orb_false_r. split.
    + intros H. by exists EmptyString, EmptyString.
    + intros (pre & rest & Heq & H). by destruct pre, rest.
  - change (match_here l (String d s) || match_here (AnyString :: l) s = true
            <-> exists pre rest,
                String d s = (pre ++ rest)%string /\ match_here l rest = true).
    rewrite orb_true_iff, IH. split.
    + intros [H|(pre & rest & -> & H)].
      * by exists EmptyString, (String d s).
      * by exists (String d pre), rest.
    + intros (pre & rest & Heq & H). destruct pre as [|x pre].
      * left. change (String d s = rest) in Heq. by subst rest.
      * right. change (String d s = String x (pre ++ rest)%string) in Heq.
        injection Heq as -> ->. by exists pre, rest.
Qed.

Lemma match_here_glob g : forall s,
  match_here (glob_atom <$> g) s = true
  <-> exists s1 s2, s = (s1 ++ s2)%string /\ glob_matches g s1.
Proof.
  induction g as [|c g IH]; intros s.
  - split; [intros _|reflexivity].
    exists EmptyString, s. split; [reflexivity|constructor].
  - cbn [fmap list_fmap]. unfold glob_atom at 1.
    destruct (Ascii.eqb_spec c "*") as [->|Hc].
    + rewrite match_here_any. split.
      * intros (pre & rest & -> & H). apply IH in H as (s1 & s2 & -> & H).
        exists (pre ++ s1)%string, s2. split; [apply append_assoc|].
        by constructor.
      * intros (s1 & s2 & -> & H). inversion H as [|g' p q Hq|]; subst.
        -- exists p, (q ++ s2)%string. split; [by rewrite append_assoc|].
           apply IH. by exists q, s2.
        -- congruence.
    + cbn [match_here]. split.
      * destruct s as [|d s]; [discriminate|].
        rewrite andb_true_iff. intros [Hd H].
        apply IH in H as (s1 & s2 & -> & H).
        exists (String d s1), s2. split; [reflexivity|].
        constructor; [done| |done].
        by destruct (Ascii.eqb_spec (str.lower c) (str.lower d)).
      * intros (s1 & s2 & -> & H). inversion H; subst; [congruence|].
        cbn. apply andb_true_iff. split.
        -- destruct (Ascii.eqb_spec (str.lower c) (str.lower d)); congruence.
        -- apply IH. by eexists _, _.
Qed.

Lemma match_anywhere_spec l s :
  match_anywhere l s = true
  <-> exists pre rest, s = (pre ++ rest)%string /\ match_here l rest = true.
Proof.
  induction s as [|d s IH].
  - cbn [match_anywhere]. rewrite orb_false_r. split.
    + intros H. by exists EmptyString, EmptyString.
    + intros (pre & rest & Heq & H). by destruct pre, rest.
  - cbn [match_anywhere]. rewrite orb_true_iff, IH. split.
    + intros [H|(pre & rest & -> & H)].
      * by exists EmptyString, (String d s).
      * by exists (String d pre), rest.
    + intros (pre & rest & Heq & H). destruct pre as [|x pre].
      * left. change (String d s = rest) in Heq. by subst rest.
      * right. change (String d s = String x (pre ++ rest)%string) in Heq.
        injection Heq as -> ->. by exists pre, rest.
Qed.

(** C10. For every glob handed to the asset list, the pattern passed to the
    path filter is a sequence of atoms, one per character of the glob: the
    wildcard [.*] for each [*] and a literal character for every other
    character, every regular-expression metacharacter having been escaped.
    Hence the filter accepts a path exactly when some substring of it matches
    the glob with [*] standing for any string and every other character for
    itself (letters up to case, the filter being [iregex]); these are the
    assets the list keeps. *)
Theorem glob_only_star_is_wildcard (glob_pattern : string) :
  atoms (glob_iregex glob_pattern)
  = Some (glob_atom <$> list_ascii_of_string glob_pattern)
  /\ (forall path,
        iregex (glob_iregex glob_pattern) path = true
        <-> exists before matched after,
              path = (before ++ matched ++ after)%string
              /\ glob_matches (list_ascii_of_string glob_pattern) matched)
  /\ (forall vpk db pk a,
        In (pk, a) (list_assets (Some glob_pattern) vpk db)
        <-> In (pk, a) (version_asset_rows vpk db)
            /\ exists before matched after,
                 Asset.path a = (before ++ matched ++ after)%string
                 /\ glob_matches (list_ascii_of_string glob_pattern)
                      matched).
Proof.
  assert (H : forall path,
        iregex (glob_iregex glob_pattern) path = true
        <-> exists before matched after,
              path = (before ++ matched ++ after)%string
              /\ glob_matches (list_ascii_of_string glob_pattern) matched).
  { intros path. unfold iregex.
    rewrite atoms_glob_iregex, match_anywhere_spec. split.
    - intros (pre & rest & -> & H).
      apply match_here_glob in H as (m & post & -> & H).
      by exists pre, m, post.
    - intros (pre & m & post & -> & H). exists pre, (m ++ post)%string.
      split; [reflexivity|]. apply match_here_glob. by exists m, post. }
  split; [apply atoms_glob_iregex|]. split; [exact H|].
  intros vpk db pk a. unfold list_assets. rewrite filter_In.
  by rewrite H.
Qed.

(** * Python equality *)

Lemma JSON_nested_ind (P : JSON -> Prop) :
  P JNull -> (forall b, P (JBool b)) -> (forall n, P (JNum n)) ->
  (forall s, P (JStr s)) ->
  (forall l, Forall P l -> P (JList l)) ->
  (forall l, Forall (fun p => P (snd p)) l -> P (JDict l)) ->
  forall j, P j.
Proof.
  intros HNull HBool HNum HStr HList HDict.
  fix IH 1. intros [|b|n|s|l|l].
  - exact HNull.
  - apply HBool.
  - apply HNum.
  - apply HStr.
  - apply HList. induction l as [|x l IHl]; constructor; [apply IH|exact IHl].
  - apply HDict. induction l as [|[k v] l IHl]; constructor;
      [apply IH|exact IHl].
Qed.

Lemma dict_get_None k l : dict_has k l = false -> dict_get k l = None.
Proof.
  induction l as [|[k' v] l IH]; [done|]. cbn.
  intros H. apply orb_false_iff in H as [Hk Hl]. by rewrite (IH Hl), Hk.
Qed.

Lemma dict_get_last k v pre rest :
  dict_has k rest = false ->
  dict_get k (pre ++ (k, v) :: rest)%list = Some v.
Proof.
  intros Hrest. induction pre as [|[k' v'] pre IH].
  - cbn. by rewrite (dict_get_None _ _ Hrest), String.eqb_refl.
  - cbn. cbn in IH. by rewrite IH.
Qed.

Lemma dict_has_In k v l : In (k, v) l -> dict_has k l = true.
Proof.
  intros Hin. apply existsb_exists. exists (k, v). split; [done|].
  apply String.eqb_refl.
Qed.

Lemma py_eq_refl j : py_eq j j = true.
Proof.
  induction j as [|b|n|s|l IH|l IH] using JSON_nested_ind; cbn [py_eq].
  - done.
  - by destruct b.
  - apply Z.eqb_refl.
  - apply String.eqb_refl.
  - induction IH as [|x l Hx _ IHl]; [done|]. by rewrite Hx, IHl.
  - apply andb_true_iff. split.
    + assert (H : forall pre l0, l = (pre ++ l0)%list ->
                (fix sub (l0 : list (string * JSON)) : bool :=
                   match l0 with
                   | [] => true
                   | (k, v) :: rest =>
                       (dict_has k rest
                        || match dict_get k l with
                           | Some v' => py_eq v v'
                           | None => false
                           end) && sub rest
                   end) l0 = true).
      { intros pre l0. revert pre.
        induction l0 as [|[k v] rest IHr]; intros pre Heq; [done|].
        apply andb_true_iff. split.
        - destruct (dict_has k rest) eqn:Hh; [done|]. cbn.
          rewrite Heq, (dict_get_last _ _ _ _ Hh).
          rewrite Forall_forall in IH. apply (IH (k, v)).
          rewrite Heq. apply elem_of_app. right. left.
        - apply (IHr (pre ++ [(k, v)])%list).
          by rewrite <- app_assoc. }
      by apply (H []).
    + apply forallb_forall. intros [k v] Hin. by eapply dict_has_In.
Qed.

Lemma metadata_eq_refl (m : Metadata) : metadata_eq m m = true.
Proof.
  unfold metadata_eq. apply andb_true_iff. split.
  - apply forallb_forall. intros [k v] Hin.
    apply list_elem_of_In, elem_of_map_to_list in Hin. rewrite Hin.
    apply py_eq_refl.
  - apply forallb_forall. intros [k v] Hin.
    apply list_elem_of_In, elem_of_map_to_list in Hin.
    apply bool_decide_eq_true. eauto.
Qed.

Example python_equality_is_not_structural :
  py_eq (JBool true) (JNum 1) = true
  /\ py_eq (JDict [("a", JNum 1); ("b", JNull)])
           (JDict [("b", JNull); ("a", JBool true)]) = true
  /\ py_eq (JDict [("a", JNum 1)]) (JDict [("a", JNum 1); ("b", JNull)])
     = false
  /\ py_eq (JList [JNum 1]) (JList [JNum 1; JNum 2]) = false
  /\ py_eq (JStr "1") (JNum 1) = false.
Proof. repeat split. Qed.

(** * Queries *)

Lemma find_version_Some dandiset_pk version db vpk v :
  find_version dandiset_pk version db = Some (vpk, v) ->
  versions db !! vpk = Some v /\ Version.dandiset v = dandiset_pk
  /\ Version.version v = version.
Proof.
  unfold find_version. intros H. apply List.find_some in H as [Hin Hp].
  apply list_elem_of_In, elem_of_map_to_list in Hin.
  apply bool_decide_eq_true in Hp. tauto.
Qed.

Lemma elem_of_version_asset_rows vpk db pk a :
  (pk, a) ∈ version_asset_rows vpk db
  <-> (vpk, pk) ∈ version_assets db /\ assets db !! pk = Some a.
Proof.
  unfold version_asset_rows. rewrite list_elem_of_omap. split.
  - intros ([v x] & Hin & H). apply elem_of_elements in Hin.
    case_bool_decide; [subst v|discriminate].
    destruct (assets db !! x) eqn:Hx; simplify_eq/=. done.
  - intros [Hin Ha]. exists (vpk, pk). split; [by apply elem_of_elements|].
    rewrite bool_decide_eq_true_2 by done. by rewrite Ha.
Qed.

Lemma path_exists_true vpk path db :
  path_exists vpk path db = true <-> exists pk a, live_at db vpk path pk a.
Proof.
  unfold path_exists, live_at. rewrite existsb_exists. split.
  - intros ([pk a] & Hin & Hp).
    apply list_elem_of_In, elem_of_version_asset_rows in Hin as [? ?].
    apply String.eqb_eq in Hp. by exists pk, a.
  - intros (pk & a & Hin & Ha & Hp). exists (pk, a). split.
    + apply list_elem_of_In, elem_of_version_asset_rows. done.
    + by apply String.eqb_eq.
Qed.

Lemma path_exists_excluding_true vpk path asset_id db :
  path_exists_excluding vpk path asset_id db = true
  <-> exists pk a, live_at db vpk path pk a /\ Asset.asset_id a <> asset_id.
Proof.
  unfold path_exists_excluding, live_at. rewrite existsb_exists. split.
  - intros ([pk a] & Hin & Hp).
    apply list_elem_of_In, elem_of_version_asset_rows in Hin as [? ?].
    apply andb_true_iff in Hp as [Hp Hid]. apply String.eqb_eq in Hp.
    apply negb_true_iff, String.eqb_neq in Hid. by exists pk, a.
  - intros (pk & a & (Hin & Ha & Hp) & Hid). exists (pk, a). split.
    + apply list_elem_of_In, elem_of_version_asset_rows. done.
    + apply andb_true_iff. split; [by apply String.eqb_eq|].
      by apply negb_true_iff, String.eqb_neq.
Qed.

Lemma get_object_Ok dandiset_pk version asset_id db pk a :
  get_object dandiset_pk version asset_id db = Ok (pk, a) ->
  exists vpk v, find_version dandiset_pk version db = Some (vpk, v)
    /\ (vpk, pk) ∈ version_assets db /\ assets db !! pk = Some a
    /\ Asset.asset_id a = asset_id.
Proof.
  unfold get_object. destruct (find_version _ _ _) as [[vpk v]|]; [|done].
  cbn. destruct (List.find _ _) as [[pk' a']|] eqn:Hf; [|done].
  cbn. intros [= -> ->]. apply List.find_some in Hf as [Hin Hp].
  apply list_elem_of_In, elem_of_version_asset_rows in Hin as [? ?].
  apply String.eqb_eq in Hp. by exists vpk, v.
Qed.

(** * Views *)

Lemma eqb_draft_false v : v <> "draft" -> String.eqb v "draft" = false.
Proof. by intros H; apply String.eqb_neq. Qed.

(** C3. For every version whose version string is not the draft marker,
    [create], [update] and [destroy] answer "Only draft versions can be
    modified." (405) and leave the database, hence the version's asset set,
    unchanged. For [update] and [destroy] the 405 presupposes that the
    addressed asset is found in the version; the database is unchanged in
    any case. *)
Theorem non_draft_version_is_immutable (svc : Services) (now : Z)
    (uuid4 : UUID) (request_data : AssetRequestSerializer.data)
    (dandiset_pk : Z) (version_str : string) (asset_id : UUID) (db : DB)
    (vpk : Z) (version : Version.t) :
  find_version dandiset_pk version_str db = Some (vpk, version) ->
  version_str <> "draft" ->
  create svc now uuid4 request_data dandiset_pk version_str db
    = (Ok only_draft, db)
  /\ (forall pk a,
        get_object dandiset_pk version_str asset_id db = Ok (pk, a) ->
        update svc now uuid4 request_data dandiset_pk version_str asset_id db
          = (Ok only_draft, db)
        /\ destroy svc now dandiset_pk version_str asset_id db
           = (Ok only_draft, db))
  /\ snd (update svc now uuid4 request_data dandiset_pk version_str asset_id
            db) = db
  /\ snd (destroy svc now dandiset_pk version_str asset_id db) = db.
Proof.
  intros Hv Hnd.
  destruct (find_version_Some _ _ _ _ _ Hv) as (_ & _ & Hstr).
  assert (Hd : String.eqb (Version.version version) "draft" = false)
    by (rewrite Hstr; by apply eqb_draft_false).
  split; [|split; [|split]].
  - unfold create. rewrite Hv. cbn. by rewrite Hd.
  - intros pk a Hobj. unfold update, destroy. rewrite Hobj, Hv. cbn.
    by rewrite Hd.
  - unfold update. destruct (get_object _ _ _ _) as [[pk a]|e]; [|done].
    rewrite Hv. cbn. by rewrite Hd.
  - unfold destroy. destruct (get_object _ _ _ _) as [[pk a]|e]; [|done].
    rewrite Hv. cbn. by rewrite Hd.
Qed.

Lemma non_draft_version_is_immutable_witness :
  create reference_services 11 "a-2"
    (Fixture.request "sub/b.nwb" (Some "b-ready") None) 1 "0.220101.0000"
    Fixture.db = (Ok only_draft, Fixture.db)
  /\ update reference_services 11 "a-2"
       (Fixture.request "sub/b.nwb" (Some "b-ready") None) 1 "0.220101.0000"
       "a-1" Fixture.db = (Ok only_draft, Fixture.db)
  /\ destroy reference_services 11 1 "0.220101.0000" "a-1" Fixture.db
     = (Ok only_draft, Fixture.db).
Proof.
  destruct (non_draft_version_is_immutable reference_services 11 "a-2"
              (Fixture.request "sub/b.nwb" (Some "b-ready") None)
              1 "0.220101.0000" "a-1" Fixture.db 2 Fixture.published)
    as (Hc & Hud & _).
  - vm_compute. reflexivity.
  - discriminate.
  - destruct (Hud 1 Fixture.asset_a) as [Hu Hd]; [vm_compute; reflexivity|].
    auto.
Defined.

Lemma validate_conflict svc d :
  (is_Some (AssetRequestSerializer.blob_id d)
   <-> is_Some (AssetRequestSerializer.zarr_id d)) ->
  AssetRequestSerializer.validate svc d
  = Raise AssetRequestSerializer.blob_id_error.
Proof.
  intros H. unfold AssetRequestSerializer.validate.
  destruct (AssetRequestSerializer.blob_id d) as [b|],
           (AssetRequestSerializer.zarr_id d) as [z|]; cbn; try reflexivity.
  - destruct H as [H _]. destruct H as [? [=]]. by eexists.
  - destruct H as [_ H]. destruct H as [? [=]]. by eexists.
Qed.

Lemma asset_from_request_exactly_one svc uuid4 d db a :
  asset_from_request svc uuid4 d db = Ok a -> exactly_one_content a.
Proof.
  unfold asset_from_request, exactly_one_content.
  destruct (AssetRequestSerializer.validate svc d) as [d'|e] eqn:Hv;
    [|discriminate]. cbn.
  destruct (AssetRequestSerializer.blob_id d') as [b|].
  - destruct (asset_blobs db !! b).
    + cbn. destruct (_ !! "path") as [[]|]; try discriminate.
      intros [= <-]. cbn. left. eauto.
    + destruct (embargoed_asset_blobs db !! b); cbn; [|discriminate].
      destruct (_ !! "path") as [[]|]; try discriminate.
      intros [= <-]. cbn. right. left. eauto.
  - destruct (AssetRequestSerializer.zarr_id d') as [z|]; [|discriminate].
    destruct (zarr_archives db !! z); cbn; [|discriminate].
    destruct (_ !! "path") as [[]|]; try discriminate.
    intros [= <-]. cbn. right. right. eauto.
Qed.

Lemma exactly_one_blob_holds a :
  exactly_one_content a -> Asset.embargoed_blob a = None ->
  exactly_one_blob a = true.
Proof.
  unfold exactly_one_content, exactly_one_blob.
  intros [(Hb & _ & Hz)|[(_ & He & _)|(Hb & _ & Hz)]] He'.
  - rewrite Hz. destruct Hb as [b ->]. reflexivity.
  - rewrite He' in He. by destruct He.
  - rewrite Hb. destruct Hz as [z ->]. reflexivity.
Qed.

Lemma asset_from_request_conflict svc uuid4 d db :
  (is_Some (AssetRequestSerializer.blob_id d)
   <-> is_Some (AssetRequestSerializer.zarr_id d)) ->
  asset_from_request svc uuid4 d db
  = Raise AssetRequestSerializer.blob_id_error.
Proof.
  intros H. unfold asset_from_request. by rewrite validate_conflict.
Qed.

Lemma no_changes_not_true new_asset old_asset :
  no_changes new_asset old_asset <> Ok true.
Proof.
  unfold no_changes. destruct (metadata_eq _ _); [|discriminate].
  repeat case_bool_decide; cbn; discriminate.
Qed.

Lemma touch_and_respond_Ok svc now vpk version pk asset db r db' :
  touch_and_respond svc now vpk version pk asset db = (Ok r, db') ->
  r = asset_detail pk asset.
Proof.
  unfold touch_and_respond.
  destruct (_maybe_validate_asset_metadata _ _ _ _) as [[[]|e] db''];
    by intros [= <- <-].
Qed.

(** C4. Every asset that [create] or [update] accepts has exactly one of
    blob, embargoed blob and zarr set (and, when it has no embargoed blob,
    satisfies the [exactly-one-blob] check of migration 0020). A request
    with both or neither of [blob_id] and [zarr_id] is rejected by the
    serializer with "Exactly one of blob_id or zarr_id must be specified.";
    on a draft version [create] and [update] raise that error with the
    database unchanged. *)
Theorem exactly_one_content_reference (svc : Services) (now : Z)
    (uuid4 : UUID) (request_data : AssetRequestSerializer.data)
    (dandiset_pk : Z) (version_str : string) (asset_id : UUID) (db : DB) :
  (forall pk a db',
     create svc now uuid4 request_data dandiset_pk version_str db
       = (Ok (asset_detail pk a), db')
     \/ update svc now uuid4 request_data dandiset_pk version_str asset_id db
        = (Ok (asset_detail pk a), db') ->
     exactly_one_content a
     /\ (Asset.embargoed_blob a = None -> exactly_one_blob a = true))
  /\ ((is_Some (AssetRequestSerializer.blob_id request_data)
       <-> is_Some (AssetRequestSerializer.zarr_id request_data)) ->
      asset_from_request svc uuid4 request_data db
        = Raise AssetRequestSerializer.blob_id_error
      /\ forall vpk version,
           find_version dandiset_pk version_str db = Some (vpk, version) ->
           version_str = "draft" ->
           create svc now uuid4 request_data dandiset_pk version_str db
             = (Raise AssetRequestSerializer.blob_id_error, db)
           /\ forall old_pk old_asset,
                get_object dandiset_pk version_str asset_id db
                  = Ok (old_pk, old_asset) ->
                update svc now uuid4 request_data dandiset_pk version_str
                  asset_id db
                = (Raise AssetRequestSerializer.blob_id_error, db)).
Proof.
  split.
  - assert (Hone : forall a, exactly_one_content a ->
              exactly_one_content a
              /\ (Asset.embargoed_blob a = None -> exactly_one_blob a = true)).
    { intros a Ha. split; [done|]. by apply exactly_one_blob_holds. }
    intros pk a db' [H|H]; apply Hone.
    + unfold create in H.
      destruct (find_version _ _ _) as [[vpk version]|]; [|discriminate].
      cbn in H. destruct (negb _); [discriminate|].
      destruct (asset_from_request svc uuid4 request_data db) as [x|e] eqn:Hx;
        [|discriminate].
      apply asset_from_request_exactly_one in Hx.
      destruct (path_exists _ _ _); [discriminate|].
      destruct (zarr_of_other_dandiset _ _ _); [discriminate|].
      cbn in H. destruct (touch_and_respond _ _ _ _ _ _ _) as [[r|e] d] eqn:Ht;
        [|discriminate].
      apply touch_and_respond_Ok in Ht. by simplify_eq.
    + unfold update in H.
      destruct (get_object _ _ _ _) as [[old_pk old_asset]|]; [|discriminate].
      destruct (find_version _ _ _) as [[vpk version]|]; [|discriminate].
      cbn in H. destruct (negb _); [discriminate|].
      destruct (asset_from_request svc uuid4 request_data db) as [x|e] eqn:Hx;
        [|discriminate].
      apply asset_from_request_exactly_one in Hx.
      pose proof (no_changes_not_true x old_asset) as Hnc.
      destruct (no_changes x old_asset) as [[]|]; [done| |discriminate].
      destruct (path_exists_excluding _ _ _ _); [discriminate|].
      cbn in H. destruct (touch_and_respond _ _ _ _ _ _ _) as [[r|e] d] eqn:Ht;
        [|discriminate].
      apply touch_and_respond_Ok in Ht. simplify_eq.
      unfold exactly_one_content in *. by cbn.
  - intros Hc. split; [by apply asset_from_request_conflict|].
    intros vpk version Hv ->.
    destruct (find_version_Some _ _ _ _ _ Hv) as (_ & _ & Hstr). split.
    + unfold create. rewrite Hv. cbn. rewrite Hstr. cbn.
      by rewrite asset_from_request_conflict.
    + intros old_pk old_asset Hobj. unfold update. rewrite Hobj, Hv. cbn.
      rewrite Hstr. cbn. by rewrite asset_from_request_conflict.
Qed.

Lemma maybe_validate_digest svc pk a db :
  digest_computed db a ->
  _maybe_validate_asset_metadata svc pk a db
  = (Ok tt, validate_asset_metadata svc pk db).
Proof.
  intros (b & row & h & [[Hb Hrow]|(Hb & He & Hrow)] & Hh);
    unfold _maybe_validate_asset_metadata, Asset.is_blob,
      Asset.is_embargoed_blob, validate_if_digest.
  - rewrite Hb. rewrite bool_decide_eq_true_2 by eauto. cbn.
    by rewrite Hrow, Hh.
  - rewrite Hb, He. rewrite bool_decide_eq_false_2 by (by intros [? [=]]).
    rewrite bool_decide_eq_true_2 by eauto. cbn. by rewrite Hrow, Hh.
Qed.

Lemma maybe_validate_zarr svc pk a db :
  Asset.blob a = None -> Asset.embargoed_blob a = None ->
  _maybe_validate_asset_metadata svc pk a db = (Ok tt, db).
Proof.
  intros Hb He. unfold _maybe_validate_asset_metadata, Asset.is_blob,
    Asset.is_embargoed_blob. rewrite Hb, He.
  by rewrite bool_decide_eq_false_2 by (by intros [? [=]]).
Qed.

Lemma maybe_validate_not_ready svc pk a db :
  content_not_ready db a ->
  _maybe_validate_asset_metadata svc pk a db = (Ok tt, db).
Proof.
  intros [(b & row & Hb & He & Hz & Hrow & Hh)
         |[(b & row & Hb & He & Hz & Hrow & Hh)
          |(z & row & Hb & He & Hz & Hrow & Hh)]].
  - unfold _maybe_validate_asset_metadata, Asset.is_blob, validate_if_digest.
    rewrite Hb. rewrite bool_decide_eq_true_2 by eauto. cbn.
    by rewrite Hrow, Hh.
  - unfold _maybe_validate_asset_metadata, Asset.is_blob,
      Asset.is_embargoed_blob, validate_if_digest.
    rewrite Hb, He. rewrite bool_decide_eq_false_2 by (by intros [? [=]]).
    rewrite bool_decide_eq_true_2 by eauto. cbn. by rewrite Hrow, Hh.
  - by apply maybe_validate_zarr.
Qed.

Lemma no_changes_modifies new_asset old_asset :
  modifies new_asset old_asset -> no_changes new_asset old_asset = Ok false.
Proof.
  unfold modifies, no_changes. intros H.
  destruct (metadata_eq _ _); [|reflexivity].
  repeat case_bool_decide; try reflexivity.
  destruct H as [?|[?|?]]; done.
Qed.

Lemma no_changes_false_modifies new_asset old_asset :
  no_changes new_asset old_asset = Ok false -> modifies new_asset old_asset.
Proof.
  unfold no_changes, modifies.
  destruct (metadata_eq _ _); [|by left].
  repeat case_bool_decide; cbn; try discriminate; tauto.
Qed.

Lemma no_changes_python_equal new_asset old_asset :
  metadata_eq (Asset.metadata new_asset) (Asset.metadata old_asset) = true ->
  Asset.blob new_asset = Asset.blob old_asset ->
  Asset.embargoed_blob new_asset = Asset.embargoed_blob old_asset ->
  no_changes new_asset old_asset = Raise (AttributeError "zarr_archive").
Proof.
  intros Hm Hb He. unfold no_changes. rewrite Hm.
  by rewrite !bool_decide_eq_true_2 by done.
Qed.

Lemma no_changes_identical new_asset old_asset :
  Asset.metadata new_asset = Asset.metadata old_asset ->
  Asset.blob new_asset = Asset.blob old_asset ->
  Asset.embargoed_blob new_asset = Asset.embargoed_blob old_asset ->
  no_changes new_asset old_asset = Raise (AttributeError "zarr_archive").
Proof.
  intros Hm Hb He. apply no_changes_python_equal; [|done|done].
  rewrite Hm. apply metadata_eq_refl.
Qed.


(** C1. What [update] does when the request repeats the old asset's path,
    metadata and content reference: the comparison reaches
    [new_asset.zarr_archive], which raises [AttributeError], so the view
    fails instead of returning the old asset. Nothing is written. *)
Theorem update_identical_request_raises (svc : Services) (now : Z)
    (uuid4 : UUID) (request_data : AssetRequestSerializer.data)
    (dandiset_pk : Z) (version_str : string) (asset_id : UUID) (db : DB)
    (vpk : Z) (version : Version.t) (old_pk : Z)
    (old_asset new_asset : Asset.t) :
  find_version dandiset_pk version_str db = Some (vpk, version) ->
  version_str = "draft" ->
  get_object dandiset_pk version_str asset_id db = Ok (old_pk, old_asset) ->
  asset_from_request svc uuid4 request_data db = Ok new_asset ->
  Asset.path new_asset = Asset.path old_asset ->
  Asset.metadata new_asset = Asset.metadata old_asset ->
  Asset.blob new_asset = Asset.blob old_asset ->
  Asset.embargoed_blob new_asset = Asset.embargoed_blob old_asset ->
  Asset.zarr new_asset = Asset.zarr old_asset ->
  update svc now uuid4 request_data dandiset_pk version_str asset_id db
  = (Raise (AttributeError "zarr_archive"), db).
Proof.
  intros Hv -> Hobj Hreq _ Hm Hb He _.
  destruct (find_version_Some _ _ _ _ _ Hv) as (_ & _ & Hstr).
  unfold update. rewrite Hobj, Hv. cbn. rewrite Hstr. cbn.
  by rewrite Hreq, (no_changes_identical _ _ Hm Hb He).
Qed.

(** C6, as the code has it. On the draft version, a successful [create] or
    [update] runs [validate_asset_metadata] inline, on the state it has just
    written, when the new asset's blob or embargoed blob has its sha256. For
    an asset backed by a zarr archive it returns the written state as is: no
    inline validation, whatever the archive's status. *)
Theorem inline_validation_needs_a_blob (svc : Services) (now : Z)
    (uuid4 : UUID) (request_data : AssetRequestSerializer.data)
    (dandiset_pk : Z) (version_str : string) (asset_id : UUID) (db : DB)
    (vpk : Z) (version : Version.t) (new_asset : Asset.t) :
  find_version dandiset_pk version_str db = Some (vpk, version) ->
  version_str = "draft" ->
  asset_from_request svc uuid4 request_data db = Ok new_asset ->
  (path_exists vpk (Asset.path new_asset) db = false ->
   zarr_of_other_dandiset new_asset version db = false ->
   let pk := asset_seq db in
   let st := created svc now vpk version new_asset db in
   (digest_computed st new_asset ->
    create svc now uuid4 request_data dandiset_pk version_str db
    = (Ok (asset_detail pk new_asset), validate_asset_metadata svc pk st))
   /\ (zarr_backed new_asset ->
       create svc now uuid4 request_data dandiset_pk version_str db
       = (Ok (asset_detail pk new_asset), st)))
  /\ (forall old_pk old_asset,
        get_object dandiset_pk version_str asset_id db
          = Ok (old_pk, old_asset) ->
        modifies new_asset old_asset ->
        path_exists_excluding vpk (Asset.path new_asset)
          (Asset.asset_id old_asset) db = false ->
        let pk := asset_seq db in
        let minted := Asset.set_previous (Some old_pk) new_asset in
        let st := replaced svc now vpk version old_pk new_asset db in
        (digest_computed st new_asset ->
         update svc now uuid4 request_data dandiset_pk version_str asset_id db
         = (Ok (asset_detail pk minted), validate_asset_metadata svc pk st))
        /\ (zarr_backed new_asset ->
            update svc now uuid4 request_data dandiset_pk version_str
              asset_id db
            = (Ok (asset_detail pk minted), st))).
Proof.
  intros Hv -> Hreq.
  destruct (find_version_Some _ _ _ _ _ Hv) as (_ & _ & Hstr). split.
  - intros Hfree Hz pk st. split.
    + intros Hd. unfold create. rewrite Hv. cbn. rewrite Hstr. cbn.
      rewrite Hreq, Hfree, Hz. cbn. unfold touch_and_respond.
      fold (created svc now vpk version new_asset db). fold st.
      by rewrite (maybe_validate_digest _ _ _ _ Hd).
    + intros (Hb & He & _). unfold create. rewrite Hv. cbn. rewrite Hstr. cbn.
      rewrite Hreq, Hfree, Hz. cbn. unfold touch_and_respond.
      fold (created svc now vpk version new_asset db). fold st.
      by rewrite (maybe_validate_zarr _ _ _ _ Hb He).
  - intros old_pk old_asset Hobj Hmod Hfree pk minted st. split.
    + intros Hd. unfold update. rewrite Hobj, Hv. cbn. rewrite Hstr. cbn.
      rewrite Hreq, (no_changes_modifies _ _ Hmod), Hfree. cbn.
      unfold touch_and_respond.
      rewrite maybe_validate_digest; [reflexivity|exact Hd].
    + intros (Hb & He & _). unfold update. rewrite Hobj, Hv. cbn.
      rewrite Hstr. cbn.
      rewrite Hreq, (no_changes_modifies _ _ Hmod), Hfree. cbn.
      unfold touch_and_respond.
      rewrite maybe_validate_zarr; [reflexivity|exact Hb|exact He].
Qed.

(** * Validation and the sweeps *)

Lemma not_ready_not_validatable db a :
  content_not_ready db a -> validatable db a = false.
Proof.
  intros [(b & row & Hb & He & Hz & Hrow & Hh)
         |[(b & row & Hb & He & Hz & Hrow & Hh)
          |(z & row & Hb & He & Hz & Hrow & Hh)]];
    unfold validatable, blob_has_digest, zarr_is_complete;
    rewrite Hb, Hz; cbn [mbind option_bind]; rewrite ?Hrow, ?Hh;
    repeat case_bool_decide; try reflexivity;
    first [by destruct (is_Some_None (A:=string))|tauto].
Qed.

Lemma elem_of_validatable_assets db pk :
  pk ∈ validatable_assets db
  <-> exists a, assets db !! pk = Some a /\ validatable db a = true.
Proof.
  unfold validatable_assets. rewrite list_elem_of_fmap. split.
  - intros ([pk' a] & -> & Hin). apply list_elem_of_filter in Hin as [Hp Hin].
    apply elem_of_map_to_list in Hin. by exists a.
  - intros (a & Ha & Hp). exists (pk, a). split; [done|].
    apply list_elem_of_filter. split; [done|by apply elem_of_map_to_list].
Qed.

Lemma elem_of_validate_pending_asset_metadata db t :
  t ∈ validate_pending_asset_metadata db
  <-> exists pk, t = validate_asset_metadata_task pk
                 /\ pk ∈ validatable_assets db.
Proof.
  unfold validate_pending_asset_metadata, throttled_iterator.
  destruct (validatable_assets db) as [|x l] eqn:Hl.
  - cbn. split; [by intros ?%elem_of_nil|].
    by intros (pk & _ & ?%elem_of_nil).
  - cbn [length Nat.ltb Nat.leb]. by rewrite list_elem_of_fmap.
Qed.

(** C2. For an asset whose backing content is not ready (blob or embargoed
    blob without sha256, zarr archive not COMPLETE with a checksum),
    invoking the validation through [_maybe_validate_asset_metadata] is a
    no-op, not a failure: it returns normally and the database, hence the
    asset's status and errors, is as before; and the periodic sweep does
    not select the asset nor enqueue its validation. The validation is
    deferred until the content is ready: once the asset is PENDING with a
    digest-bearing blob or a complete archive, the sweep enqueues it, and
    once its blob or embargoed blob has its digest, the inline trigger runs
    the validation. *)
Theorem validation_deferred_until_content_ready (svc : Services) (pk : Z)
    (asset : Asset.t) (db : DB) :
  content_not_ready db asset ->
  _maybe_validate_asset_metadata svc pk asset db = (Ok tt, db)
  /\ (assets db !! pk = Some asset ->
      (pk ∉ validatable_assets db)
      /\ (validate_asset_metadata_task pk
            ∉ validate_pending_asset_metadata db))
  /\ (forall later,
        assets later !! pk = Some asset -> Asset.status asset = PENDING ->
        blob_has_digest later asset = true
        \/ zarr_is_complete later asset = true ->
        validate_asset_metadata_task pk
          ∈ validate_pending_asset_metadata later)
  /\ (forall later,
        digest_computed later asset ->
        _maybe_validate_asset_metadata svc pk asset later
        = (Ok tt, validate_asset_metadata svc pk later)).
Proof.
  intros Hnr. split; [by apply maybe_validate_not_ready|].
  split; [|split; [|intros later Hd; by apply maybe_validate_digest]].
  - intros Ha. apply not_ready_not_validatable in Hnr.
    assert (Hpk : pk ∉ validatable_assets db).
    { rewrite elem_of_validatable_assets. intros (a & Ha' & Hv).
      congruence. }
    split; [done|]. rewrite elem_of_validate_pending_asset_metadata.
    by intros (? & [= <-] & ?).
  - intros later Ha Hp Hready.
    apply elem_of_validate_pending_asset_metadata. exists pk.
    split; [done|]. apply elem_of_validatable_assets. exists asset.
    split; [done|]. unfold validatable.
    rewrite bool_decide_eq_true_2 by done.
    by destruct Hready as [->| ->]; rewrite ?orb_true_r.
Qed.

Lemma elem_of_pending_draft_versions db pk :
  pk ∈ pending_draft_versions db
  <-> exists v, versions db !! pk = Some v /\ Version.status v = PENDING
                /\ Version.version v = "draft".
Proof.
  unfold pending_draft_versions. rewrite list_elem_of_fmap. split.
  - intros ([pk' v] & -> & Hin).
    apply list_elem_of_filter in Hin as [Hd Hin].
    apply list_elem_of_filter in Hin as [Hp Hin].
    apply elem_of_map_to_list in Hin. by exists v.
  - intros (v & Hv & Hp & Hd). exists (pk, v). split; [done|].
    apply list_elem_of_filter. split; [done|].
    apply list_elem_of_filter. split; [done|by apply elem_of_map_to_list].
Qed.

Lemma elem_of_validate_draft_version_metadata db t :
  t ∈ validate_draft_version_metadata db
  <-> exists pk, pk ∈ pending_draft_versions db
        /\ (t = validate_version_metadata_task pk
            \/ t = aggregate_assets_summary_task pk
            \/ t = write_manifest_files pk).
Proof.
  unfold validate_draft_version_metadata.
  destruct (pending_draft_versions db) as [|x l] eqn:Hl.
  - cbn. split; [by intros ?%elem_of_nil|].
    by intros (pk & ?%elem_of_nil & _).
  - cbn [length Nat.ltb Nat.leb]. rewrite list_elem_of_bind.
    split; intros (pk & H1 & H2); exists pk.
    + split; [done|]. rewrite !elem_of_cons, elem_of_nil in H1. tauto.
    + split; [|done]. rewrite !elem_of_cons, elem_of_nil. tauto.
Qed.

(** C9. The tasks [validate_draft_version_metadata] enqueues are exactly the
    three tasks (version validation, summary aggregation, manifest writing)
    of the versions that are PENDING and whose version string is [draft]; no
    task is enqueued for a version that is not the draft, PENDING or not. *)
Theorem draft_sweep_schedules_pending_drafts_only (db : DB) :
  (forall t, t ∈ validate_draft_version_metadata db <->
     exists pk v, versions db !! pk = Some v
       /\ Version.status v = PENDING /\ Version.version v = "draft"
       /\ (t = validate_version_metadata_task pk
           \/ t = aggregate_assets_summary_task pk
           \/ t = write_manifest_files pk))
  /\ (forall pk v, versions db !! pk = Some v ->
        Version.version v <> "draft" ->
        (validate_version_metadata_task pk
           ∉ validate_draft_version_metadata db)
        /\ (aggregate_assets_summary_task pk
              ∉ validate_draft_version_metadata db)
        /\ (write_manifest_files pk ∉ validate_draft_version_metadata db)).
Proof.
  assert (H : forall t, t ∈ validate_draft_version_metadata db <->
     exists pk v, versions db !! pk = Some v
       /\ Version.status v = PENDING /\ Version.version v = "draft"
       /\ (t = validate_version_metadata_task pk
           \/ t = aggregate_assets_summary_task pk
           \/ t = write_manifest_files pk)).
  { intros t. rewrite elem_of_validate_draft_version_metadata. split.
    - intros (pk & Hin & Ht). apply elem_of_pending_draft_versions in Hin
        as (v & ? & ? & ?). by exists pk, v.
    - intros (pk & v & ? & ? & ? & Ht). exists pk. split; [|done].
      apply elem_of_pending_draft_versions. by exists v. }
  split; [exact H|]. intros pk v Hv Hnd.
  repeat split; rewrite H; intros (pk' & v' & Hv' & _ & Hd & Ht);
    destruct Ht as [Ht|[Ht|Ht]]; simplify_eq.
Qed.

(** * The aggregation task *)

Lemma rejected_write_keeps_newer_state aggregate concurrent vpk version db :
  marker_moved concurrent vpk version db ->
  version_aggregate_assets_summary aggregate concurrent vpk version db
  = (Raise VersionMetadataConcurrentlyModifiedError, concurrent db).
Proof.
  unfold marker_moved, version_aggregate_assets_summary. intros H.
  destruct (versions (concurrent db) !! vpk) as [current|]; [|done].
  cbn in H. case_bool_decide; [|done]. congruence.
Qed.

Lemma accepted_write_is_guarded aggregate concurrent vpk version db db' :
  version_aggregate_assets_summary aggregate concurrent vpk version db
  = (Ok tt, db') ->
  Version.modified <$> versions (concurrent db) !! vpk
  = Some (Version.modified version).
Proof.
  unfold version_aggregate_assets_summary.
  destruct (versions (concurrent db) !! vpk) as [current|]; [|done].
  case_bool_decide; [|done]. intros _. cbn. congruence.
Qed.

Lemma autoretry_requeues opts randrange body env budget retries db e db1 :
  body (during (env retries)) (before (env retries) db) = (Raise e, db1) ->
  autoretry_for opts e = true ->
  autoretry opts randrange body env (S budget) retries db
  = after_countdown (countdown opts randrange retries)
      (autoretry opts randrange body env budget (S retries) db1).
Proof. intros Hb He. cbn [autoretry]. by rewrite Hb, He. Qed.

Lemma autoretry_countdowns_length opts randrange body env budget :
  forall retries db,
    (length (countdowns (autoretry opts randrange body env budget retries db))
     <= budget)%nat.
Proof.
  induction budget as [|budget IH]; intros retries db; cbn [autoretry];
    destruct (body _ _) as [[[]|e] db1]; cbn; try lia;
    destruct (autoretry_for opts e); cbn; try lia.
  specialize (IH (S retries) db1). lia.
Qed.

Lemma autoretry_surfaces_on_exhaustion opts randrange body env budget :
  forall retries db e,
    result (autoretry opts randrange body env budget retries db) = Raise e ->
    autoretry_for opts e = true ->
    length (countdowns (autoretry opts randrange body env budget retries db))
    = budget.
Proof.
  induction budget as [|budget IH]; intros retries db e; cbn [autoretry];
    destruct (body _ _) as [[[]|e'] db1]; try discriminate;
    destruct (autoretry_for opts e') eqn:He'.
  - reflexivity.
  - cbn. intros [= ->]. congruence.
  - cbn. intros H He. f_equal. by eapply IH.
  - cbn. intros [= ->]. congruence.
Qed.

Lemma backoff_interval_bounds randrange factor retries maximum full_jitter :
  in_range randrange -> 0 <= maximum -> 0 < factor ->
  0 <= get_exponential_backoff_interval randrange factor retries maximum
         full_jitter <= maximum.
Proof.
  intros Hr Hm Hf. unfold get_exponential_backoff_interval.
  assert (0 < 2 ^ Z.of_nat retries) by (apply Z.pow_pos_nonneg; lia).
  set (c := Z.min maximum (factor * 2 ^ Z.of_nat retries)).
  assert (0 <= c <= maximum) by (unfold c; nia).
  destruct full_jitter; [|lia].
  specialize (Hr (c + 1)). lia.
Qed.

Lemma autoretry_countdowns_bounded opts randrange body env budget :
  in_range randrange -> retry_backoff opts = true ->
  0 <= retry_backoff_max opts ->
  forall retries db c,
    c ∈ countdowns (autoretry opts randrange body env budget retries db) ->
    0 <= c <= retry_backoff_max opts.
Proof.
  intros Hr Hb Hm.
  induction budget as [|budget IH]; intros retries db c; cbn [autoretry];
    destruct (body _ _) as [[[]|e] db1]; cbn; try (by intros ?%elem_of_nil);
    destruct (autoretry_for opts e); cbn; try (by intros ?%elem_of_nil).
  rewrite elem_of_cons. intros [->|Hin]; [|by eapply IH].
  unfold countdown. rewrite Hb. by apply backoff_interval_bounds.
Qed.

Lemma autoretry_countdowns_exact opts randrange body env budget :
  forall retries db,
    countdowns (autoretry opts randrange body env budget retries db)
    = countdown opts randrange
        <$> seq retries
              (length
                 (countdowns
                    (autoretry opts randrange body env budget retries db))).
Proof.
  induction budget as [|budget IH]; intros retries db; cbn [autoretry];
    destruct (body _ _) as [[[]|e] db1]; cbn; try reflexivity;
    destruct (autoretry_for opts e); cbn; try reflexivity.
  f_equal. apply IH.
Qed.

Lemma backoff_doubles randrange (retries : nat) :
  in_range randrange -> (retries < 3)%nat ->
  countdown aggregate_assets_summary_task_options randrange retries
  = randrange (2 ^ Z.of_nat retries + 1)
  /\ 0 <= randrange (2 ^ Z.of_nat retries + 1) <= 2 ^ Z.of_nat retries.
Proof.
  intros Hr Hlt. unfold countdown, get_exponential_backoff_interval. cbn.
  assert (0 < 2 ^ Z.of_nat retries <= 4).
  { destruct retries as [|[|[|?]]]; cbn; lia. }
  rewrite Z.mul_1_l, Z.min_r by lia.
  specialize (Hr (2 ^ Z.of_nat retries + 1)). lia.
Qed.

(** C7. A pass whose write-back finds the version's marker moved raises
    [VersionMetadataConcurrentlyModifiedError] and leaves the database as the
    concurrent writer left it. The task's retry policy then re-queues the
    whole task while the budget lasts; at most 3 retries are scheduled, each
    after a countdown between 0 and 600 seconds; and the error surfaces only
    when all 3 retries have been used. The countdowns back off
    exponentially: the one before retry [i + 1] is the jitter's draw from
    the [2 ^ i + 1] values [0 .. 2 ^ i], so its bound doubles from one
    retry to the next (1, 2, 4 seconds), and without the jitter taking
    anything off it is [2 ^ i] itself. *)
Theorem concurrent_modification_is_retried
    (aggregate_assets_summary : list Metadata -> JSON) (randrange : Z -> Z)
    (env : nat -> Interference) (version_id : Z) (db : DB) :
  in_range randrange ->
  let opts := aggregate_assets_summary_task_options in
  let body := fun concurrent =>
    aggregate_assets_summary_body aggregate_assets_summary concurrent
      version_id in
  let o := run_aggregate_assets_summary_task aggregate_assets_summary
             randrange env version_id db in
  (forall concurrent version st,
     versions st !! version_id = Some version ->
     marker_moved concurrent version_id version st ->
     body concurrent st
     = (Raise VersionMetadataConcurrentlyModifiedError, concurrent st))
  /\ (forall budget retries st st',
        body (during (env retries)) (before (env retries) st)
        = (Raise VersionMetadataConcurrentlyModifiedError, st') ->
        autoretry opts randrange body env (S budget) retries st
        = after_countdown (countdown opts randrange retries)
            (autoretry opts randrange body env budget (S retries) st'))
  /\ (length (countdowns o) <= 3)%nat
  /\ (forall c, c ∈ countdowns o -> 0 <= c <= 600)
  /\ (result o = Raise VersionMetadataConcurrentlyModifiedError ->
      length (countdowns o) = 3%nat)
  /\ (forall i c,
        countdowns o !! i = Some c ->
        c = randrange (2 ^ Z.of_nat i + 1) /\ 0 <= c <= 2 ^ Z.of_nat i)
  /\ ((forall n, randrange n = n - 1) ->
      forall i c, countdowns o !! i = Some c -> c = 2 ^ Z.of_nat i).
Proof.
  intros Hr opts body o.
  assert (Hexact : forall i c,
            countdowns o !! i = Some c ->
            c = randrange (2 ^ Z.of_nat i + 1) /\ 0 <= c <= 2 ^ Z.of_nat i).
  { intros i c Hi.
    pose proof (autoretry_countdowns_length opts randrange body env 3 0%nat
                  db) as Hlen.
    change (length (countdowns o) <= 3)%nat in Hlen.
    pose proof (lookup_lt_Some _ _ _ Hi) as Hlt.
    assert (Hi3 : (i < 3)%nat) by lia.
    destruct (backoff_doubles randrange i Hr Hi3) as [Heq Hb].
    pose proof (autoretry_countdowns_exact opts randrange body env 3 0%nat
                  db) as Hex.
    change (countdowns o
            = countdown opts randrange <$> seq 0 (length (countdowns o)))
      in Hex.
    rewrite Hex, list_lookup_fmap, lookup_seq_lt in Hi by exact Hlt.
    cbn [fmap option_fmap option_map Nat.add] in Hi.
    injection Hi as <-. unfold opts. rewrite Heq. done. }
  split; [|split; [|split; [|split; [|split; [|split]]]]].
  - unfold body, aggregate_assets_summary_body.
    intros concurrent version st Hv Hm.
    rewrite Hv. by apply rejected_write_keeps_newer_state.
  - intros budget retries st st' Hb. by eapply autoretry_requeues.
  - apply (autoretry_countdowns_length opts randrange body env 3 0%nat db).
  - intros c Hc.
    by apply (autoretry_countdowns_bounded opts randrange body env 3 Hr
                eq_refl ltac:(by cbn) 0%nat db c).
  - intros H.
    by apply (autoretry_surfaces_on_exhaustion opts randrange body env 3
                0%nat db VersionMetadataConcurrentlyModifiedError).
  - exact Hexact.
  - intros Hmax i c Hi. destruct (Hexact i c Hi) as [-> _].
    rewrite Hmax. lia.
Qed.

(** * Path listing *)

Lemma search_path_None path_prefix vpk db :
  PathIndex.search_path path_prefix vpk db = None
  <-> forall n, n ∈ asset_paths db ->
        PathIndex.matches path_prefix vpk n = false.
Proof.
  unfold PathIndex.search_path.
  destruct (List.filter _ _) as [|m l] eqn:Hf.
  - split; [intros _|done]. intros n Hin.
    destruct (PathIndex.matches path_prefix vpk n) eqn:Hm; [|done].
    assert (In n (List.filter (PathIndex.matches path_prefix vpk)
                    (asset_paths db)))
      by (apply filter_In; split; [by apply list_elem_of_In|done]).
    rewrite Hf in *. done.
  - split; [done|]. intros H.
    assert (Hin : In m (List.filter (PathIndex.matches path_prefix vpk)
                          (asset_paths db))) by (rewrite Hf; by left).
    apply filter_In in Hin as [Hin Hm]. apply list_elem_of_In in Hin.
    rewrite (H m Hin) in Hm. done.
Qed.

(** C8. For a version and a directory prefix that matches no node of the
    version's path index, [search_path] returns the absent result and the
    [paths] view raises "Specified path not found." instead of answering
    with a listing; when some node matches, it answers with a listing. *)
Theorem unknown_prefix_is_not_found (svc : Services) (path_prefix : string)
    (dandiset_pk : Z) (version_str : string) (db : DB) (vpk : Z)
    (version : Version.t) :
  search_path svc = PathIndex.search_path ->
  PathIndex.is_directory path_prefix = true ->
  find_version dandiset_pk version_str db = Some (vpk, version) ->
  ((forall n, n ∈ asset_paths db ->
      PathIndex.matches path_prefix vpk n = false) ->
   PathIndex.search_path path_prefix vpk db = None
   /\ paths svc path_prefix dandiset_pk version_str db
      = Raise path_not_found_error)
  /\ ((exists n, n ∈ asset_paths db
                 /\ PathIndex.matches path_prefix vpk n = true) ->
      exists children,
        paths svc path_prefix dandiset_pk version_str db
        = Ok {| body := AssetPaths children; status_code := HTTP_200_OK |}).
Proof.
  intros Hsvc _ Hv. unfold paths. rewrite Hv, Hsvc. cbn. split.
  - intros Hnone. apply search_path_None in Hnone. by rewrite Hnone.
  - intros (n & Hin & Hm).
    destruct (PathIndex.search_path path_prefix vpk db) as [children|] eqn:Hs.
    + by exists children.
    + rewrite search_path_None in Hs. rewrite (Hs n Hin) in Hm. done.
Qed.

(** * The statements at concrete inputs *)

Ltac compute_eq := vm_compute; reflexivity.

Lemma update_identical_request_raises_witness :
  get_object 1 "draft" "a-1" Fixture.db = Ok (1, Fixture.asset_a)
  /\ update reference_services 11 "a-2"
       (Fixture.request "sub/a.nwb" (Some "b-ready") None) 1 "draft" "a-1"
       Fixture.db
     = (Raise (AttributeError "zarr_archive"), Fixture.db).
Proof.
  split; [compute_eq|].
  apply (update_identical_request_raises reference_services 11 "a-2"
           (Fixture.request "sub/a.nwb" (Some "b-ready") None) 1 "draft"
           "a-1" Fixture.db 1 Fixture.draft 1 Fixture.asset_a
           {| Asset.asset_id := "a-2"; Asset.path := "sub/a.nwb";
              Asset.blob := Some "b-ready"; Asset.embargoed_blob := None;
              Asset.zarr := None;
              Asset.metadata := Fixture.metadata "sub/a.nwb";
              Asset.status := PENDING; Asset.validation_errors := [];
              Asset.previous := None |});
    compute_eq.
Defined.

Lemma fresh_blob_not_ready :
  content_not_ready Fixture.db Fixture.asset_fresh.
Proof.
  left. exists "b-fresh",
    {| AssetBlob.blob_id := "b-fresh"; AssetBlob.etag := "e2-1";
       AssetBlob.sha256 := None; AssetBlob.size := 50 |}.
  repeat split; compute_eq.
Defined.

Lemma validation_deferred_until_content_ready_witness :
  content_not_ready Fixture.db Fixture.asset_fresh
  /\ _maybe_validate_asset_metadata reference_services 9 Fixture.asset_fresh
       Fixture.db = (Ok tt, Fixture.db)
  /\ validate_asset_metadata_task 9
       ∉ validate_pending_asset_metadata Fixture.db.
Proof.
  split; [exact fresh_blob_not_ready|].
  destruct (validation_deferred_until_content_ready reference_services 9
              Fixture.asset_fresh Fixture.db fresh_blob_not_ready)
    as (Hnoop & Hsweep & _).
  split; [exact Hnoop|]. apply Hsweep. compute_eq.
Defined.

Lemma exactly_one_content_reference_witness :
  create reference_services 11 "a-2"
    (Fixture.request "sub/b.nwb" (Some "b-ready") (Some "z-complete"))
    1 "draft" Fixture.db
  = (Raise AssetRequestSerializer.blob_id_error, Fixture.db)
  /\ update reference_services 11 "a-2"
       (Fixture.request "sub/b.nwb" None None) 1 "draft" "a-1" Fixture.db
     = (Raise AssetRequestSerializer.blob_id_error, Fixture.db).
Proof.
  split.
  - refine (proj1 (proj2 (proj2 (exactly_one_content_reference
             reference_services 11 "a-2"
             (Fixture.request "sub/b.nwb" (Some "b-ready")
                (Some "z-complete"))
             1 "draft" "a-1" Fixture.db) _) 1 Fixture.draft _ _));
      [|compute_eq|reflexivity].
    cbn. split; intros _; eauto.
  - refine (proj2 (proj2 (proj2 (exactly_one_content_reference
             reference_services 11 "a-2"
             (Fixture.request "sub/b.nwb" None None)
             1 "draft" "a-1" Fixture.db) _) 1 Fixture.draft _ _)
             1 Fixture.asset_a _);
      [|compute_eq|reflexivity|compute_eq].
    cbn. split; intros [? [=]].
Defined.



Lemma zarr_asset_is_not_validated_inline :
  let request := Fixture.request "sub/z.zarr" None (Some "z-complete") in
  let asset :=
    {| Asset.asset_id := "a-2"; Asset.path := "sub/z.zarr";
       Asset.blob := None; Asset.embargoed_blob := None;
       Asset.zarr := Some "z-complete";
       Asset.metadata := Fixture.metadata "sub/z.zarr";
       Asset.status := PENDING; Asset.validation_errors := [];
       Asset.previous := None |} in
  let st := created reference_services 11 1 Fixture.draft asset Fixture.db in
  create reference_services 11 "a-2" request 1 "draft" Fixture.db
  = (Ok (asset_detail 10 asset), st)
  /\ zarr_is_complete st asset = true
  /\ assets st !! 10 = Some asset
  /\ Asset.status asset = PENDING
  /\ assets (validate_asset_metadata reference_services 10 st) !! 10
     = Some (Asset.set_validation VALID [] asset)
  /\ st <> validate_asset_metadata reference_services 10 st.
Proof.
  cbv zeta. repeat split; try compute_eq.
  intros H.
  apply (f_equal (fun d => Asset.status <$> assets d !! 10)) in H.
  vm_compute in H. discriminate.
Qed.

Lemma inline_validation_needs_a_blob_witness :
  let request := Fixture.request "sub/b.nwb" (Some "b-ready") None in
  let asset :=
    {| Asset.asset_id := "a-2"; Asset.path := "sub/b.nwb";
       Asset.blob := Some "b-ready"; Asset.embargoed_blob := None;
       Asset.zarr := None;
       Asset.metadata := Fixture.metadata "sub/b.nwb";
       Asset.status := PENDING; Asset.validation_errors := [];
       Asset.previous := None |} in
  let st := created reference_services 11 1 Fixture.draft asset Fixture.db in
  digest_computed st asset
  /\ create reference_services 11 "a-2" request 1 "draft" Fixture.db
     = (Ok (asset_detail 10 asset),
        validate_asset_metadata reference_services 10 st)
  /\ assets (validate_asset_metadata reference_services 10 st) !! 10
     = Some (Asset.set_validation VALID [] asset).
Proof.
  cbv zeta.
  assert (Hd : digest_computed
                 (created reference_services 11 1 Fixture.draft
                    {| Asset.asset_id := "a-2"; Asset.path := "sub/b.nwb";
                       Asset.blob := Some "b-ready";
                       Asset.embargoed_blob := None; Asset.zarr := None;
                       Asset.metadata := Fixture.metadata "sub/b.nwb";
                       Asset.status := PENDING;
                       Asset.validation_errors := [];
                       Asset.previous := None |} Fixture.db)
                 {| Asset.asset_id := "a-2"; Asset.path := "sub/b.nwb";
                    Asset.blob := Some "b-ready";
                    Asset.embargoed_blob := None; Asset.zarr := None;
                    Asset.metadata := Fixture.metadata "sub/b.nwb";
                    Asset.status := PENDING; Asset.validation_errors := [];
                    Asset.previous := None |}).
  { exists "b-ready",
      {| AssetBlob.blob_id := "b-ready"; AssetBlob.etag := "e1-1";
         AssetBlob.sha256 := Some "f00d"; AssetBlob.size := 100 |}, "f00d".
    split; [left; split; compute_eq|reflexivity]. }
  split; [exact Hd|]. split; [|compute_eq].
  refine (proj1 (proj1 (inline_validation_needs_a_blob reference_services 11
            "a-2" (Fixture.request "sub/b.nwb" (Some "b-ready") None)
            1 "draft" "a-1" Fixture.db 1 Fixture.draft _ _ _ _) _ _) Hd);
    compute_eq.
Defined.

Lemma concurrent_modification_is_retried_witness :
  let o := run_aggregate_assets_summary_task (fun _ => JNull)
             (fun n => n - 1) Fixture.racing 1 Fixture.db in
  in_range (fun n => n - 1)
  /\ result o = Raise VersionMetadataConcurrentlyModifiedError
  /\ length (countdowns o) = 3%nat
  /\ countdowns o = [1; 2; 4]
  /\ (Version.metadata <$> versions (final o) !! 1)
     = Some (Version.metadata Fixture.draft)
  /\ (Version.modified <$> versions (final o) !! 1) = Some 14.
Proof.
  cbv zeta.
  assert (Hr : in_range (fun n => n - 1)) by (intros n Hn; lia).
  split; [exact Hr|]. split; [compute_eq|].
  split; [|split; [|split]; compute_eq].
  destruct (concurrent_modification_is_retried (fun _ => JNull)
              (fun n => n - 1) Fixture.racing 1 Fixture.db Hr)
    as (_ & _ & _ & _ & H & _).
  apply H. compute_eq.
Defined.

Lemma unknown_prefix_is_not_found_witness :
  PathIndex.is_directory "nope/" = true
  /\ paths reference_services "nope/" 1 "draft" Fixture.db
     = Raise path_not_found_error
  /\ exists children,
       paths reference_services "sub/" 1 "draft" Fixture.db
       = Ok {| body := AssetPaths children; status_code := HTTP_200_OK |}.
Proof.
  split; [reflexivity|]. split.
  - refine (proj2 (proj1 (unknown_prefix_is_not_found reference_services
              "nope/" 1 "draft" Fixture.db 1 Fixture.draft _ _ _) _));
      [reflexivity|reflexivity|compute_eq|].
    intros n Hn. cbn in Hn.
    rewrite !elem_of_cons, elem_of_nil in Hn.
    destruct Hn as [->|[->|[->|[]]]]; compute_eq.
  - refine (proj2 (unknown_prefix_is_not_found reference_services
              "sub/" 1 "draft" Fixture.db 1 Fixture.draft _ _ _) _);
      [reflexivity|reflexivity|compute_eq|].
    eexists. split; [apply list_elem_of_here|compute_eq].
Defined.

Lemma draft_sweep_schedules_pending_drafts_only_witness :
  versions Fixture.db !! 2 = Some Fixture.published
  /\ Version.status Fixture.published = PENDING
  /\ (aggregate_assets_summary_task 2
        ∉ validate_draft_version_metadata Fixture.db).
Proof.
  split; [compute_eq|]. split; [reflexivity|].
  refine (proj1 (proj2 (proj2 (draft_sweep_schedules_pending_drafts_only
            Fixture.db) 2 Fixture.published _ _))); [compute_eq|].
  vm_compute. discriminate.
Defined.

(** * Resubmitting equal metadata *)

(** A request whose metadata is [==] to the stored one without being the
    same JSON text ([1] for [true]) is taken as unchanged, and fails like
    the identical request. *)
Example update_python_equal_request_raises :
  Sample.flagged (JNum 1) <> Sample.flagged (JBool true)
  /\ update reference_services 11 "a-2"
       {| AssetRequestSerializer.metadata := Sample.flagged (JNum 1);
          AssetRequestSerializer.blob_id := Some "b-ready";
          AssetRequestSerializer.zarr_id := None |}
       1 "draft" "a-1" (Fixture.db_with (Sample.flagged (JBool true)))
     = (Raise (AttributeError "zarr_archive"),
        Fixture.db_with (Sample.flagged (JBool true))).
Proof.
  split; [|compute_eq]. intros H.
  apply (f_equal (fun m => m !! "flag")) in H. vm_compute in H. discriminate.
Qed.

(** * The validation model on the fixture *)

Example test_validate_asset_metadata :
  validated Fixture.db 1 = Some (VALID, []).
Proof. vm_compute. reflexivity. Qed.

Example test_validate_asset_metadata_no_schema_version :
  validated (Fixture.db_with ∅) 1
  = Some (INVALID,
          [Validation.issue "" "Metadata version None is not allowed."]).
Proof. vm_compute. reflexivity. Qed.

Example test_validate_asset_metadata_malformed_schema_version :
  validated
    (Fixture.db_with
       (<["schemaVersion" := JStr "xxx"]> (Fixture.metadata "sub/a.nwb"))) 1
  = Some (INVALID,
          [Validation.issue "" "Metadata version xxx is not allowed."]).
Proof. vm_compute. reflexivity. Qed.

Example test_validate_asset_metadata_no_encoding_format :
  validated
    (Fixture.db_with (delete "encodingFormat" (Fixture.metadata "sub/a.nwb")))
    1
  = Some (INVALID, [Validation.issue "encodingFormat" "field required"]).
Proof. vm_compute. reflexivity. Qed.

(** The blob of asset 9 has no sha256 yet: the validation leaves the
    database as it is. *)
Example validate_asset_metadata_not_ready :
  validate_asset_metadata reference_services 9 Fixture.db = Fixture.db
  /\ validated Fixture.db 9 = Some (PENDING, []).
Proof. split; vm_compute; reflexivity. Qed.

Example test_validate_asset_metadata_malformed_keywords :
  validated
    (Fixture.db_with
       (<["keywords" := JStr "foo"]> (Fixture.metadata "sub/a.nwb"))) 1
  = Some (INVALID, [Validation.issue "keywords" "value is not a valid list"]).
Proof. vm_compute. reflexivity. Qed.

(** * Scenarios *)

(** Attaching [sub/a.nwb] (100 bytes) and then [sub/b.nwb] (50 bytes): the
    listing of [sub/] shows the two leaves, the listing of the root the
    directory [sub/] with 2 files and 150 bytes. *)
Example scenario_listing_after_two_attaches :
  let db1 :=
    snd (create reference_services 11 "a-1"
           (Fixture.request "sub/a.nwb" (Some "b-ready") None) 1 "draft"
           Fixture.blank) in
  let db2 :=
    snd (create reference_services 12 "a-2"
           (Fixture.request "sub/b.nwb" (Some "b-fresh") None) 1 "draft"
           db1) in
  Fixture.totals (paths reference_services "sub/" 1 "draft" db2)
  = [("sub/a.nwb", 1, 100); ("sub/b.nwb", 1, 50)]
  /\ Fixture.totals (paths reference_services "" 1 "draft" db2)
     = [("sub/", 2, 150)].
Proof. split; vm_compute; reflexivity. Qed.

(** A pass that loses the race once and then runs undisturbed: one retry,
    and the summary is written. *)
Example scenario_aggregation_succeeds_on_retry :
  let env := fun n =>
    match n with O => Fixture.racing n | S _ => Fixture.quiet end in
  let o := run_aggregate_assets_summary_task (fun l => JNum (Z.of_nat (length l)))
             (fun _ => 0) env 1 Fixture.db in
  result o = Ok tt /\ length (countdowns o) = 1%nat
  /\ (versions (final o) !! 1 ≫= fun v => Version.metadata v !! "assetsSummary")
     = Some (JNum 2).
Proof. repeat split; vm_compute; reflexivity. Qed.

(** * The request serializer *)

Lemma validate_Ok_inv svc d d' :
  AssetRequestSerializer.validate svc d = Ok d' ->
  one_content_id d
  /\ exists path,
       AssetRequestSerializer.metadata d !! "path" = Some (JStr path)
       /\ path <> "" /\ ASSET_PATH_REGEX svc path = true
       /\ d' = {| AssetRequestSerializer.metadata :=
                    AssetRequestSerializer.setdefault "schemaVersion"
                      (JStr (DANDI_SCHEMA_VERSION svc))
                      (AssetRequestSerializer.metadata d);
                  AssetRequestSerializer.blob_id :=
                    AssetRequestSerializer.blob_id d;
                  AssetRequestSerializer.zarr_id :=
                    AssetRequestSerializer.zarr_id d |}.
Proof.
  unfold AssetRequestSerializer.validate, one_content_id.
  destruct (AssetRequestSerializer.blob_id d) as [b|],
           (AssetRequestSerializer.zarr_id d) as [z|]; cbn;
    try discriminate.
  - destruct (AssetRequestSerializer.metadata d !! "path") as [p|];
      [|discriminate].
    destruct (truthy p) eqn:Ht; cbn; [|discriminate].
    destruct p as [| | |path| |]; try discriminate.
    destruct (ASSET_PATH_REGEX svc path) eqn:Hr; [|discriminate].
    intros [= <-]. split; [split; [done|by eauto]|].
    exists path. repeat split; [|done].
    intros ->. discriminate.
  - destruct (AssetRequestSerializer.metadata d !! "path") as [p|];
      [|discriminate].
    destruct (truthy p) eqn:Ht; cbn; [|discriminate].
    destruct p as [| | |path| |]; try discriminate.
    destruct (ASSET_PATH_REGEX svc path) eqn:Hr; [|discriminate].
    intros [= <-]. split; [split; [by intros [? [=]]|done]|].
    exists path. repeat split; [|done].
    intros ->. discriminate.
Qed.

Lemma validate_Ok_intro svc d path :
  one_content_id d ->
  AssetRequestSerializer.metadata d !! "path" = Some (JStr path) ->
  path <> "" -> ASSET_PATH_REGEX svc path = true ->
  AssetRequestSerializer.validate svc d
  = Ok {| AssetRequestSerializer.metadata :=
            AssetRequestSerializer.setdefault "schemaVersion"
              (JStr (DANDI_SCHEMA_VERSION svc))
              (AssetRequestSerializer.metadata d);
          AssetRequestSerializer.blob_id := AssetRequestSerializer.blob_id d;
          AssetRequestSerializer.zarr_id := AssetRequestSerializer.zarr_id d |}.
Proof.
  unfold AssetRequestSerializer.validate, one_content_id.
  intros Hone Hp Hne Hr. rewrite Hp.
  assert (Ht : truthy (JStr path) = true).
  { cbn. apply negb_true_iff. by apply String.eqb_neq. }
  rewrite Ht, Hr. cbn.
  destruct (AssetRequestSerializer.blob_id d) as [b|],
           (AssetRequestSerializer.zarr_id d) as [z|]; cbn; try reflexivity.
  - destruct Hone as [Hone _]. by specialize (Hone ltac:(eauto)).
  - destruct Hone as [_ Hone]. by destruct (Hone eq_refl).
Qed.

(** X1. [AssetRequestSerializer.validate] accepts a request exactly when it
    names one of [blob_id] and [zarr_id], not both and not neither, and its
    metadata holds under [path] a non-empty string that the asset path
    pattern accepts. *)
Theorem serializer_accepts_iff (svc : Services)
    (d : AssetRequestSerializer.data) :
  (exists d', AssetRequestSerializer.validate svc d = Ok d')
  <-> one_content_id d
      /\ exists path,
           AssetRequestSerializer.metadata d !! "path" = Some (JStr path)
           /\ path <> "" /\ ASSET_PATH_REGEX svc path = true.
Proof.
  split.
  - intros [d' H]. apply validate_Ok_inv in H as (? & path & ? & ? & ? & _).
    eauto 10.
  - intros (Hone & path & Hp & Hne & Hr). eexists.
    by apply validate_Ok_intro with path.
Qed.

(** X2. What validation changes: an accepted request comes back with the
    same [blob_id] and [zarr_id] and the same metadata, except that
    [schemaVersion] is present afterwards: the value the client sent when
    there was one, the configured schema version otherwise. *)
Theorem serializer_schema_version_default (svc : Services)
    (d d' : AssetRequestSerializer.data) :
  AssetRequestSerializer.validate svc d = Ok d' ->
  AssetRequestSerializer.blob_id d' = AssetRequestSerializer.blob_id d
  /\ AssetRequestSerializer.zarr_id d' = AssetRequestSerializer.zarr_id d
  /\ (forall k, k <> "schemaVersion" ->
        AssetRequestSerializer.metadata d' !! k
        = AssetRequestSerializer.metadata d !! k)
  /\ AssetRequestSerializer.metadata d' !! "schemaVersion"
     = Some (default (JStr (DANDI_SCHEMA_VERSION svc))
               (AssetRequestSerializer.metadata d !! "schemaVersion")).
Proof.
  intros H. apply validate_Ok_inv in H as (_ & path & _ & _ & _ & ->). cbn.
  unfold AssetRequestSerializer.setdefault.
  destruct (AssetRequestSerializer.metadata d !! "schemaVersion") as [v|]
    eqn:Hv; cbn.
  - by rewrite Hv.
  - repeat split; [|by rewrite lookup_insert_eq].
    intros k Hk. by rewrite lookup_insert_ne.
Qed.

Lemma setdefault_idempotent key value (m : Metadata) :
  AssetRequestSerializer.setdefault key value
    (AssetRequestSerializer.setdefault key value m)
  = AssetRequestSerializer.setdefault key value m.
Proof.
  unfold AssetRequestSerializer.setdefault.
  destruct (m !! key) as [v|] eqn:Hv; [by rewrite Hv|].
  by rewrite lookup_insert_eq.
Qed.

(** X3. Validation is idempotent: a request that validation returned is
    accepted again and returned as it is. *)
Theorem serializer_idempotent (svc : Services)
    (d d' : AssetRequestSerializer.data) :
  AssetRequestSerializer.validate svc d = Ok d' ->
  AssetRequestSerializer.validate svc d' = Ok d'.
Proof.
  intros H.
  apply validate_Ok_inv in H as (Hone & path & Hp & Hne & Hr & ->).
  rewrite (validate_Ok_intro svc _ path); [|done| |done|done].
  - cbn. by rewrite setdefault_idempotent.
  - cbn. unfold AssetRequestSerializer.setdefault.
    destruct (_ !! "schemaVersion"); [done|]. by rewrite lookup_insert_ne.
Qed.

(** X4. A path that is not a string escapes as a [TypeError]: when the
    request names exactly one content id and its metadata holds under [path]
    a truthy value that is not a string (a number, [true], a non-empty list
    or object), the pattern match raises instead of answering with a
    validation error. *)
Theorem serializer_type_error_on_non_string_path (svc : Services)
    (d : AssetRequestSerializer.data) (p : JSON) :
  one_content_id d ->
  AssetRequestSerializer.metadata d !! "path" = Some p ->
  truthy p = true -> (forall s, p <> JStr s) ->
  AssetRequestSerializer.validate svc d = Raise TypeError.
Proof.
  unfold AssetRequestSerializer.validate, one_content_id.
  intros Hone Hp Ht Hs. rewrite Hp, Ht. cbn.
  assert (Hex : Bool.eqb
            (bool_decide (is_Some (AssetRequestSerializer.blob_id d)))
            (bool_decide (is_Some (AssetRequestSerializer.zarr_id d)))
          = false).
  { destruct (AssetRequestSerializer.blob_id d) as [b|],
             (AssetRequestSerializer.zarr_id d) as [z|]; cbn;
      try reflexivity.
    - destruct Hone as [Hone _]. by specialize (Hone ltac:(eauto)).
    - destruct Hone as [_ Hone]. by destruct (Hone eq_refl). }
  rewrite Hex. destruct p; try reflexivity. by destruct (Hs s).
Qed.

(** * Building the asset from the request *)

(** X5. The exceptions of [asset_from_request]: the three validation
    errors of the serializer, the [TypeError] of a path that is not a
    string, and the 404 of a content id that is not on record. The
    [NotImplementedError] and the [KeyError] of its last branches are never
    raised, validation having made sure that one id is present. *)
Theorem asset_from_request_raises_only (svc : Services) (uuid4 : UUID)
    (d : AssetRequestSerializer.data) (db : DB) (e : Exn) :
  asset_from_request svc uuid4 d db = Raise e ->
  e = AssetRequestSerializer.blob_id_error
  \/ e = AssetRequestSerializer.no_path_error
  \/ e = AssetRequestSerializer.invalid_path_error
  \/ e = TypeError \/ e = Http404.
Proof.
  unfold asset_from_request.
  destruct (AssetRequestSerializer.validate svc d) as [d'|e'] eqn:Hv.
  - apply validate_Ok_inv in Hv as (Hone & path & Hp & Hne & Hr & ->).
    cbn. unfold one_content_id in Hone.
    assert (Hpath : AssetRequestSerializer.setdefault "schemaVersion"
                      (JStr (DANDI_SCHEMA_VERSION svc))
                      (AssetRequestSerializer.metadata d) !! "path"
                    = Some (JStr path)).
    { unfold AssetRequestSerializer.setdefault.
      destruct (_ !! "schemaVersion"); [done|].
      by rewrite lookup_insert_ne. }
    destruct (AssetRequestSerializer.blob_id d) as [b|].
    + destruct (asset_blobs db !! b); cbn.
      * by rewrite Hpath.
      * destruct (embargoed_asset_blobs db !! b); cbn.
        -- by rewrite Hpath.
        -- intros [= <-]. tauto.
    + destruct (AssetRequestSerializer.zarr_id d) as [z|].
      * destruct (zarr_archives db !! z); cbn.
        -- by rewrite Hpath.
        -- intros [= <-]. tauto.
      * destruct Hone as [_ Hone]. by destruct (Hone eq_refl).
  - cbn. intros [= <-]. revert Hv.
    unfold AssetRequestSerializer.validate.
    repeat (match goal with
            | |- context [if ?c then _ else _] => destruct c
            | |- context [match ?x with _ => _ end] => destruct x
            end; try discriminate);
      intros [= <-]; tauto.
Qed.

Lemma validated_path svc d path :
  AssetRequestSerializer.metadata d !! "path" = Some (JStr path) ->
  AssetRequestSerializer.setdefault "schemaVersion"
    (JStr (DANDI_SCHEMA_VERSION svc)) (AssetRequestSerializer.metadata d)
    !! "path" = Some (JStr path).
Proof.
  intros Hp. unfold AssetRequestSerializer.setdefault.
  destruct (_ !! "schemaVersion"); [done|]. by rewrite lookup_insert_ne.
Qed.

(** X6. For a request that validation accepts, [asset_from_request]
    returns an asset exactly when the content the request names is on
    record, and raises the 404 otherwise. The asset refers to content that
    resolves; a [blob_id] that names both a regular and an embargoed blob
    is taken as the regular one; the path is the one of the request, the
    metadata the validated metadata stripped of its computed fields, the
    [asset_id] the fresh one; the asset is PENDING, without validation
    errors and without a previous asset. *)
Theorem asset_from_request_resolves_content (svc : Services) (uuid4 : UUID)
    (d d' : AssetRequestSerializer.data) (db : DB) :
  AssetRequestSerializer.validate svc d = Ok d' ->
  (content_on_record d db <->
   exists a, asset_from_request svc uuid4 d db = Ok a)
  /\ (~ content_on_record d db ->
      asset_from_request svc uuid4 d db = Raise Http404)
  /\ (forall a, asset_from_request svc uuid4 d db = Ok a ->
        content_resolves db a
        /\ (forall b, AssetRequestSerializer.blob_id d = Some b ->
              is_Some (asset_blobs db !! b) ->
              Asset.blob a = Some b /\ Asset.embargoed_blob a = None)
        /\ AssetRequestSerializer.metadata d !! "path"
           = Some (JStr (Asset.path a))
        /\ Asset.metadata a
           = strip_metadata svc (AssetRequestSerializer.metadata d')
        /\ Asset.asset_id a = uuid4 /\ Asset.status a = PENDING
        /\ Asset.validation_errors a = [] /\ Asset.previous a = None).
Proof.
  intros Hv. unfold asset_from_request, content_on_record, content_resolves.
  rewrite Hv. cbn.
  apply validate_Ok_inv in Hv as (Hone & path & Hp & Hne & Hr & ->).
  cbn. rewrite (validated_path svc d path Hp). unfold one_content_id in Hone.
  destruct (AssetRequestSerializer.blob_id d) as [b|] eqn:Hb.
  - destruct (asset_blobs db !! b) as [row|] eqn:Hrow; cbn.
    + split; [split; eauto|]. split; [intros []; eauto|].
      intros a [= <-]. cbn.
      repeat split; intros; simplify_eq/=; rewrite ?Hrow; eauto.
    + destruct (embargoed_asset_blobs db !! b) as [row|] eqn:Hrow'; cbn.
      * split; [split; eauto|]. split; [intros []; eauto|].
        intros a [= <-]. cbn.
        repeat split; intros; simplify_eq/=; rewrite ?Hrow'; eauto;
          by match goal with
             | H : is_Some _ |- _ => rewrite Hrow in H; destruct H
             end.
      * split; [split; [intros [[? [=]]|[? [=]]]|intros [? [=]]]|].
        split; [done|]. intros a [=].
  - assert (Hz : is_Some (AssetRequestSerializer.zarr_id d)).
    { destruct (AssetRequestSerializer.zarr_id d); [eauto|].
      destruct Hone as [_ Hone]. by destruct (Hone eq_refl). }
    destruct Hz as [z Hz]. rewrite Hz.
    destruct (zarr_archives db !! z) as [row|] eqn:Hrow; cbn.
    + split; [split; eauto|]. split; [intros []; eauto|].
      intros a [= <-]. cbn.
      repeat split; intros; simplify_eq/=; rewrite ?Hrow; eauto.
    + split; [split; [intros [? [=]]|intros [? [=]]]|].
      split; [done|]. intros a [=].
Qed.

(** * What the views write *)

Lemma set_validation_same a :
  Asset.set_validation (Asset.status a) (Asset.validation_errors a) a = a.
Proof. by destruct a. Qed.

Lemma same_but_validation_refl pk db : same_but_validation pk db db.
Proof.
  unfold same_but_validation. repeat split; try done.
  destruct (assets db !! pk) as [a|] eqn:Ha; [|done].
  exists (Asset.status a), (Asset.validation_errors a).
  by rewrite set_validation_same.
Qed.

Lemma reference_services_well_behaved : well_behaved reference_services.
Proof.
  split; cbn.
  - intros pk vpk db. unfold PathIndex.add_asset.
    by destruct (assets db !! pk).
  - intros old_pk new_pk vpk db.
    unfold PathIndex.update_asset, PathIndex.add_asset,
      PathIndex.delete_asset.
    destruct (assets db !! old_pk); cbn; by destruct (assets db !! new_pk).
  - intros pk vpk db. unfold PathIndex.delete_asset.
    by destruct (assets db !! pk).
  - intros pk db. unfold Validation.validate_asset_metadata.
    destruct (assets db !! pk) as [a|] eqn:Ha;
      [|apply same_but_validation_refl].
    destruct (Validation.content_ready db a);
      [|apply same_but_validation_refl].
    unfold same_but_validation. cbn. rewrite Ha.
    repeat split; try done.
    + intros k Hk. by rewrite lookup_insert_ne.
    + rewrite lookup_insert_eq. eauto.
Defined.

Lemma maybe_validate_outcome svc pk a db r db' :
  _maybe_validate_asset_metadata svc pk a db = (r, db') ->
  (r = Ok tt /\ (db' = db \/ db' = validate_asset_metadata svc pk db))
  \/ (r = Raise DoesNotExist /\ db' = db).
Proof.
  unfold _maybe_validate_asset_metadata, validate_if_digest.
  repeat (match goal with
          | |- context [if ?c then _ else _] => destruct c
          | |- context [match ?x with _ => _ end] => destruct x
          end); intros [= <- <-]; tauto.
Qed.

Lemma maybe_validate_resolved svc pk a db :
  content_resolves db a ->
  exists db', _maybe_validate_asset_metadata svc pk a db = (Ok tt, db')
              /\ (db' = db \/ db' = validate_asset_metadata svc pk db).
Proof.
  intros (Hb & He & _).
  unfold _maybe_validate_asset_metadata, validate_if_digest,
    Asset.is_blob, Asset.is_embargoed_blob.
  destruct (Asset.blob a) as [b|] eqn:Hbl.
  - rewrite bool_decide_eq_true_2 by eauto. cbn.
    destruct (Hb b eq_refl) as [row ->].
    destruct (AssetBlob.sha256 row); eauto.
  - rewrite bool_decide_eq_false_2 by (by intros [? [=]]).
    destruct (Asset.embargoed_blob a) as [b|] eqn:Hem.
    + rewrite bool_decide_eq_true_2 by eauto. cbn.
      destruct (He b eq_refl) as [row ->].
      destruct (AssetBlob.sha256 row); eauto.
    + rewrite bool_decide_eq_false_2 by (by intros [? [=]]). eauto.
Qed.

Lemma path_exists_false vpk path db :
  path_exists vpk path db = false
  <-> ~ exists pk a, live_at db vpk path pk a.
Proof.
  rewrite <- path_exists_true. by destruct (path_exists vpk path db).
Qed.

Lemma path_exists_excluding_false vpk path asset_id db :
  path_exists_excluding vpk path asset_id db = false
  <-> ~ exists pk a,
          live_at db vpk path pk a /\ Asset.asset_id a <> asset_id.
Proof.
  rewrite <- path_exists_excluding_true.
  by destruct (path_exists_excluding vpk path asset_id db).
Qed.

Lemma zarr_of_other_dandiset_false db a v :
  zarr_of_other_dandiset a v db = false <->
  (forall row, Asset.zarr a ≫= (zarr_archives db !!.) = Some row ->
     ZarrArchive.dandiset row = Version.dandiset v).
Proof.
  unfold zarr_of_other_dandiset.
  destruct (Asset.zarr a ≫= (zarr_archives db !!.)) as [row|].
  - rewrite negb_false_iff, bool_decide_eq_true. split; [|by eauto].
    by intros ? ? [= <-].
  - split; [by intros _ ?|done].
Qed.

Lemma zarr_of_same_dandiset_false db a v :
  zarr_of_same_dandiset db a v -> zarr_of_other_dandiset a v db = false.
Proof.
  intros H. apply zarr_of_other_dandiset_false. intros row Hrow.
  destruct (Asset.zarr a) as [z|] eqn:Hz; [|done]. cbn in Hrow.
  by apply (H z row).
Qed.

Lemma content_resolves_frame db db' a :
  asset_blobs db' = asset_blobs db ->
  embargoed_asset_blobs db' = embargoed_asset_blobs db ->
  zarr_archives db' = zarr_archives db ->
  content_resolves db a -> content_resolves db' a.
Proof. unfold content_resolves. by intros -> -> ->. Qed.

Lemma asset_from_request_Ok svc uuid4 d db a :
  asset_from_request svc uuid4 d db = Ok a ->
  content_resolves db a /\ exactly_one_content a
  /\ Asset.asset_id a = uuid4 /\ Asset.status a = PENDING
  /\ Asset.validation_errors a = [] /\ Asset.previous a = None.
Proof.
  intros H. split; [|split; [by eapply asset_from_request_exactly_one|]].
  - revert H. unfold asset_from_request, content_resolves.
    destruct (AssetRequestSerializer.validate svc d) as [d'|]; [|done]. cbn.
    destruct (AssetRequestSerializer.blob_id d') as [b|].
    + destruct (asset_blobs db !! b) as [row|] eqn:Hrow; cbn.
      * destruct (_ !! "path") as [[]|]; try discriminate.
        intros [= <-]. cbn.
        repeat split; intros; simplify_eq/=; rewrite ?Hrow; eauto.
      * destruct (embargoed_asset_blobs db !! b) as [row|] eqn:Hrow'; cbn;
          [|discriminate].
        destruct (_ !! "path") as [[]|]; try discriminate.
        intros [= <-]. cbn.
        repeat split; intros; simplify_eq/=; rewrite ?Hrow'; eauto.
    + destruct (AssetRequestSerializer.zarr_id d') as [z|]; [|discriminate].
      destruct (zarr_archives db !! z) as [row|] eqn:Hrow; cbn;
        [|discriminate].
      destruct (_ !! "path") as [[]|]; try discriminate.
      intros [= <-]. cbn.
      repeat split; intros; simplify_eq/=; rewrite ?Hrow; eauto.
  - revert H. unfold asset_from_request.
    destruct (AssetRequestSerializer.validate svc d) as [d'|]; [|done]. cbn.
    destruct (AssetRequestSerializer.blob_id d') as [b|];
      [destruct (asset_blobs db !! b); cbn;
       [|destruct (embargoed_asset_blobs db !! b); cbn; [|discriminate]]
      |destruct (AssetRequestSerializer.zarr_id d') as [z|]; [|discriminate];
       destruct (zarr_archives db !! z); cbn; [|discriminate]];
      (destruct (_ !! "path") as [[]|]; try discriminate;
       by intros [= <-]).
Qed.

Lemma touch_and_respond_resolved svc now vpk version pk asset db :
  well_behaved svc -> content_resolves db asset ->
  exists db',
    touch_and_respond svc now vpk version pk asset db
    = (Ok (asset_detail pk asset), db')
    /\ same_but_validation pk db'
         (save_version now vpk (Version.set_status PENDING version) db).
Proof.
  intros Hwb Hres. unfold touch_and_respond.
  set (st := save_version now vpk (Version.set_status PENDING version) db).
  assert (Hres' : content_resolves st asset)
    by (by apply (content_resolves_frame db)).
  destruct (maybe_validate_resolved svc pk asset st Hres')
    as (db' & -> & [->| ->]); eexists; (split; [reflexivity|]).
  - apply same_but_validation_refl.
  - apply (validate_asset_metadata_frame svc Hwb).
Qed.

Lemma create_success (svc : Services) (now : Z) (uuid4 : UUID)
    (d : AssetRequestSerializer.data) (dandiset_pk : Z)
    (version_str : string) (db : DB) (vpk : Z) (version : Version.t)
    (asset : Asset.t) :
  well_behaved svc ->
  find_version dandiset_pk version_str db = Some (vpk, version) ->
  version_str = "draft" ->
  asset_from_request svc uuid4 d db = Ok asset ->
  ~ (exists pk a, live_at db vpk (Asset.path asset) pk a) ->
  zarr_of_same_dandiset db asset version ->
  let pk := asset_seq db in
  exists db',
    create svc now uuid4 d dandiset_pk version_str db
    = (Ok (asset_detail pk asset), db')
    /\ version_assets db' = {[ (vpk, pk) ]} ∪ version_assets db
    /\ (exists s errs,
          assets db' !! pk = Some (Asset.set_validation s errs asset))
    /\ (forall k, k <> pk -> assets db' !! k = assets db !! k)
    /\ versions db' = <[vpk := touched now version]> (versions db)
    /\ asset_seq db' = pk + 1
    /\ asset_blobs db' = asset_blobs db
    /\ embargoed_asset_blobs db' = embargoed_asset_blobs db
    /\ zarr_archives db' = zarr_archives db.
Proof.
  intros Hwb Hv -> Hreq Hfree Hz pk.
  destruct (find_version_Some _ _ _ _ _ Hv) as (_ & _ & Hstr).
  destruct (asset_from_request_Ok _ _ _ _ _ Hreq) as (Hres & _).
  apply path_exists_false in Hfree.
  apply zarr_of_same_dandiset_false in Hz.
  unfold create. rewrite Hv. cbn. rewrite Hstr. cbn.
  rewrite Hreq, Hfree, Hz. cbn.
  set (st0 := version_assets_add vpk (asset_seq db)
                (set_asset_seq (asset_seq db + 1)
                   (set_assets (insert (asset_seq db) asset) db))).
  destruct (add_asset_frame svc Hwb (asset_seq db) vpk st0)
    as (Hb & He & Hza & Ha & Hs & Hvs & Hva).
  destruct (touch_and_respond_resolved svc now vpk version (asset_seq db)
              asset (add_asset svc (asset_seq db) vpk st0) Hwb)
    as (db' & -> & Hb' & He' & Hza' & Hs' & Hvs' & Hva' & _ & Hk & Hrow).
  { apply (content_resolves_frame db); by rewrite ?Hb, ?He, ?Hza. }
  exists db'. split; [reflexivity|]. cbn in *.
  rewrite Hva', Hva, Hvs', Hs', Hs, Hb', Hb, He', He, Hza', Hza, Hvs.
  rewrite Ha, lookup_insert_eq in Hrow.
  repeat split; try done.
  intros k Hne. rewrite (Hk k Hne), Ha. by rewrite lookup_insert_ne.
Qed.

Lemma sequence_ahead_fresh db : sequence_ahead db -> assets db !! asset_seq db = None.
Proof.
  intros H. destruct (assets db !! asset_seq db) eqn:Hk; [|done].
  specialize (H (asset_seq db) ltac:(rewrite Hk; eauto)). lia.
Qed.

Lemma update_success (svc : Services) (now : Z) (uuid4 : UUID)
    (d : AssetRequestSerializer.data) (dandiset_pk : Z)
    (version_str : string) (asset_id : UUID) (db : DB) (vpk : Z)
    (version : Version.t) (old_pk : Z) (old_asset new_asset : Asset.t) :
  well_behaved svc ->
  find_version dandiset_pk version_str db = Some (vpk, version) ->
  version_str = "draft" ->
  get_object dandiset_pk version_str asset_id db = Ok (old_pk, old_asset) ->
  asset_from_request svc uuid4 d db = Ok new_asset ->
  modifies new_asset old_asset ->
  ~ (exists pk a, live_at db vpk (Asset.path new_asset) pk a
                  /\ Asset.asset_id a <> Asset.asset_id old_asset) ->
  let pk := asset_seq db in
  let minted := Asset.set_previous (Some old_pk) new_asset in
  exists db',
    update svc now uuid4 d dandiset_pk version_str asset_id db
    = (Ok (asset_detail pk minted), db')
    /\ version_assets db'
       = ({[ (vpk, pk) ]} ∪ version_assets db) ∖ {[ (vpk, old_pk) ]}
    /\ (exists s errs,
          assets db' !! pk = Some (Asset.set_validation s errs minted))
    /\ (forall k, k <> pk -> assets db' !! k = assets db !! k)
    /\ versions db' = <[vpk := touched now version]> (versions db)
    /\ asset_seq db' = pk + 1
    /\ asset_blobs db' = asset_blobs db
    /\ embargoed_asset_blobs db' = embargoed_asset_blobs db
    /\ zarr_archives db' = zarr_archives db.
Proof.
  intros Hwb Hv -> Hobj Hreq Hmod Hfree pk minted.
  destruct (find_version_Some _ _ _ _ _ Hv) as (_ & _ & Hstr).
  destruct (asset_from_request_Ok _ _ _ _ _ Hreq) as (Hres & _).
  apply path_exists_excluding_false in Hfree.
  unfold update. rewrite Hobj, Hv. cbn. rewrite Hstr. cbn.
  rewrite Hreq, (no_changes_modifies _ _ Hmod), Hfree. cbn.
  set (st0 := version_assets_remove vpk old_pk
                (version_assets_add vpk (asset_seq db)
                   (set_asset_seq (asset_seq db + 1)
                      (set_assets (insert (asset_seq db) minted) db)))).
  destruct (update_asset_frame svc Hwb old_pk (asset_seq db) vpk st0)
    as (Hb & He & Hza & Ha & Hs & Hvs & Hva).
  destruct (touch_and_respond_resolved svc now vpk version (asset_seq db)
              minted (update_asset svc old_pk (asset_seq db) vpk st0) Hwb)
    as (db' & Heq & Hb' & He' & Hza' & Hs' & Hvs' & Hva' & _ & Hk & Hrow).
  { apply (content_resolves_frame db _ new_asset); by rewrite ?Hb, ?He, ?Hza. }
  exists db'. split; [exact Heq|]. clear Heq. cbn in *.
  rewrite Hva', Hva, Hvs', Hs', Hs, Hb', Hb, He', He, Hza', Hza, Hvs.
  rewrite Ha, lookup_insert_eq in Hrow.
  repeat split; try done.
  intros k Hne. rewrite (Hk k Hne), Ha. by rewrite lookup_insert_ne.
Qed.

Lemma destroy_success (svc : Services) (now : Z) (dandiset_pk : Z)
    (version_str : string) (asset_id : UUID) (db : DB) (vpk : Z)
    (version : Version.t) (pk : Z) (asset : Asset.t) :
  well_behaved svc ->
  find_version dandiset_pk version_str db = Some (vpk, version) ->
  version_str = "draft" ->
  get_object dandiset_pk version_str asset_id db = Ok (pk, asset) ->
  exists db',
    destroy svc now dandiset_pk version_str asset_id db
    = (Ok {| body := NoBody; status_code := HTTP_204_NO_CONTENT |}, db')
    /\ version_assets db' = version_assets db ∖ {[ (vpk, pk) ]}
    /\ assets db' = assets db
    /\ versions db' = <[vpk := touched now version]> (versions db)
    /\ asset_seq db' = asset_seq db
    /\ asset_blobs db' = asset_blobs db
    /\ embargoed_asset_blobs db' = embargoed_asset_blobs db
    /\ zarr_archives db' = zarr_archives db.
Proof.
  intros Hwb Hv -> Hobj.
  destruct (find_version_Some _ _ _ _ _ Hv) as (_ & _ & Hstr).
  unfold destroy. rewrite Hobj, Hv. cbn. rewrite Hstr. cbn.
  destruct (delete_asset_frame svc Hwb pk vpk
              (version_assets_remove vpk pk db))
    as (Hb & He & Hza & Ha & Hs & Hvs & Hva).
  eexists. split; [reflexivity|]. cbn in *.
  by rewrite Hva, Hvs, Hs, Hb, He, Hza, Ha.
Qed.

Lemma get_object_live dandiset_pk version_str asset_id db pk a vpk version :
  find_version dandiset_pk version_str db = Some (vpk, version) ->
  get_object dandiset_pk version_str asset_id db = Ok (pk, a) ->
  (vpk, pk) ∈ version_assets db /\ assets db !! pk = Some a
  /\ Asset.asset_id a = asset_id.
Proof.
  intros Hv Hobj. apply get_object_Ok in Hobj as (v' & ver' & Hv' & H).
  rewrite Hv in Hv'. by simplify_eq.
Qed.

(** X7. A successful [create]: on the draft version, for a request that
    yields an asset whose path no asset of the version has and whose zarr
    archive, if any, belongs to the dandiset, the view answers 200 with the
    new asset, which is then stored under the next key of the sequence and
    attached to the version, as built up to its validation status and
    errors. Every asset attached to any version before is attached after,
    nothing else is; the version is PENDING with the new modification time,
    and no other version row changes. *)
Theorem create_attaches (svc : Services) (now : Z) (uuid4 : UUID)
    (d : AssetRequestSerializer.data) (dandiset_pk : Z)
    (version_str : string) (db : DB) (vpk : Z) (version : Version.t)
    (asset : Asset.t) :
  well_behaved svc -> sequence_ahead db ->
  find_version dandiset_pk version_str db = Some (vpk, version) ->
  version_str = "draft" ->
  asset_from_request svc uuid4 d db = Ok asset ->
  ~ (exists pk a, live_at db vpk (Asset.path asset) pk a) ->
  zarr_of_same_dandiset db asset version ->
  let pk := asset_seq db in
  exists db' row,
    create svc now uuid4 d dandiset_pk version_str db
    = (Ok (asset_detail pk asset), db')
    /\ live_at db' vpk (Asset.path asset) pk row
    /\ (exists s errs, row = Asset.set_validation s errs asset)
    /\ (forall v p k a, live_at db v p k a -> live_at db' v p k a)
    /\ (forall v p k a, live_at db' v p k a ->
          (k = pk /\ a = row) \/ live_at db v p k a)
    /\ versions db' !! vpk = Some (touched now version)
    /\ (forall v, v <> vpk -> versions db' !! v = versions db !! v).
Proof.
  intros Hwb Hseq Hv Hd Hreq Hfree Hz pk.
  destruct (create_success svc now uuid4 d dandiset_pk version_str db vpk
              version asset Hwb Hv Hd Hreq Hfree Hz)
    as (db' & Heq & Hva & (s & errs & Hrow) & Hk & Hvs & _).
  pose proof (sequence_ahead_fresh db Hseq) as Hfresh. subst pk.
  exists db', (Asset.set_validation s errs asset).
  split; [exact Heq|]. unfold live_at. rewrite Hva, Hvs.
  split; [|split; [by eauto|split; [|split; [|split]]]].
  - split; [|by split]. apply elem_of_union. left. by apply elem_of_singleton.
  - intros v p k a (Hin & Ha & Hp).
    assert (k <> asset_seq db) by (intros ->; congruence).
    split; [apply elem_of_union; by right|]. by rewrite Hk.
  - intros v p k a (Hin & Ha & Hp).
    destruct (decide (k = asset_seq db)) as [->|Hne].
    + left. split; [done|]. congruence.
    + right. rewrite Hk in Ha by done. split; [|done].
      apply elem_of_union in Hin as [Hin|Hin]; [|done].
      apply elem_of_singleton in Hin. congruence.
  - by rewrite lookup_insert_eq.
  - intros v Hne. by rewrite lookup_insert_ne.
Qed.

(** X8. A successful [update]: on the draft version, for a request that
    changes the metadata or the blob of the addressed asset and whose path
    no other asset of the version has, the view answers 200 with a newly
    minted asset. It is stored under the next key with the fresh
    [asset_id], its [previous] is the old asset, and it takes the old
    asset's place in the version; the old asset's row is kept unchanged but
    is no longer attached. All other attachments are as before, and the
    version is PENDING with the new modification time. *)
Theorem update_replaces (svc : Services) (now : Z) (uuid4 : UUID)
    (d : AssetRequestSerializer.data) (dandiset_pk : Z)
    (version_str : string) (asset_id : UUID) (db : DB) (vpk : Z)
    (version : Version.t) (old_pk : Z) (old_asset new_asset : Asset.t) :
  well_behaved svc -> sequence_ahead db ->
  find_version dandiset_pk version_str db = Some (vpk, version) ->
  version_str = "draft" ->
  get_object dandiset_pk version_str asset_id db = Ok (old_pk, old_asset) ->
  asset_from_request svc uuid4 d db = Ok new_asset ->
  modifies new_asset old_asset ->
  ~ (exists pk a, live_at db vpk (Asset.path new_asset) pk a
                  /\ Asset.asset_id a <> Asset.asset_id old_asset) ->
  let pk := asset_seq db in
  exists db' row,
    update svc now uuid4 d dandiset_pk version_str asset_id db
    = (Ok (asset_detail pk (Asset.set_previous (Some old_pk) new_asset)),
       db')
    /\ live_at db' vpk (Asset.path new_asset) pk row
    /\ (exists s errs,
          row = Asset.set_validation s errs
                  (Asset.set_previous (Some old_pk) new_asset))
    /\ Asset.previous row = Some old_pk
    /\ Asset.asset_id row = uuid4
    /\ assets db' !! old_pk = Some old_asset
    /\ ((vpk, old_pk) ∉ version_assets db')
    /\ (forall v p k a, live_at db v p k a -> (v, k) <> (vpk, old_pk) ->
          live_at db' v p k a)
    /\ (forall v p k a, live_at db' v p k a ->
          (k = pk /\ a = row) \/ live_at db v p k a)
    /\ versions db' !! vpk = Some (touched now version).
Proof.
  intros Hwb Hseq Hv Hd Hobj Hreq Hmod Hfree pk.
  destruct (update_success svc now uuid4 d dandiset_pk version_str asset_id
              db vpk version old_pk old_asset new_asset Hwb Hv Hd Hobj Hreq
              Hmod Hfree)
    as (db' & Heq & Hva & (s & errs & Hrow) & Hk & Hvs & _).
  pose proof (sequence_ahead_fresh db Hseq) as Hfresh. subst pk.
  destruct (get_object_live _ _ _ _ _ _ _ _ Hv Hobj) as (Hlive & Hold & _).
  destruct (asset_from_request_Ok _ _ _ _ _ Hreq) as (_ & _ & Hid & _).
  assert (Hne : old_pk <> asset_seq db) by (intros ->; congruence).
  eexists db', _. split; [exact Heq|]. unfold live_at. rewrite Hva, Hvs.
  split; [|split; [by eauto|split; [done|split; [done|
    split; [|split; [|split; [|split]]]]]]].
  - split; [|by split].
    apply elem_of_difference. split.
    + apply elem_of_union. left. by apply elem_of_singleton.
    + rewrite elem_of_singleton. congruence.
  - by rewrite Hk.
  - rewrite elem_of_difference, elem_of_singleton. tauto.
  - intros v p k a (Hin & Ha & Hp) Hnot.
    assert (k <> asset_seq db) by (intros ->; congruence).
    split; [|by rewrite Hk].
    apply elem_of_difference. split; [apply elem_of_union; by right|].
    by rewrite elem_of_singleton.
  - intros v p k a (Hin & Ha & Hp).
    destruct (decide (k = asset_seq db)) as [->|Hne'].
    + left. split; [done|]. congruence.
    + right. rewrite Hk in Ha by done. split; [|done].
      apply elem_of_difference in Hin as [Hin _].
      apply elem_of_union in Hin as [Hin|Hin]; [|done].
      apply elem_of_singleton in Hin. congruence.
  - by rewrite lookup_insert_eq.
Qed.

(** X9. A successful [destroy]: on the draft version the addressed asset
    is detached and the view answers 204. No asset row is deleted or
    changed, every other attachment is as before, the version is PENDING
    with the new modification time, and no other version row changes. *)
Theorem destroy_detaches (svc : Services) (now : Z) (dandiset_pk : Z)
    (version_str : string) (asset_id : UUID) (db : DB) (vpk : Z)
    (version : Version.t) (pk : Z) (asset : Asset.t) :
  well_behaved svc ->
  find_version dandiset_pk version_str db = Some (vpk, version) ->
  version_str = "draft" ->
  get_object dandiset_pk version_str asset_id db = Ok (pk, asset) ->
  exists db',
    destroy svc now dandiset_pk version_str asset_id db
    = (Ok {| body := NoBody; status_code := HTTP_204_NO_CONTENT |}, db')
    /\ assets db' = assets db
    /\ ((vpk, pk) ∉ version_assets db')
    /\ (forall v k, (v, k) <> (vpk, pk) ->
          (v, k) ∈ version_assets db' <-> (v, k) ∈ version_assets db)
    /\ versions db' !! vpk = Some (touched now version)
    /\ (forall v, v <> vpk -> versions db' !! v = versions db !! v).
Proof.
  intros Hwb Hv Hd Hobj.
  destruct (destroy_success svc now dandiset_pk version_str asset_id db vpk
              version pk asset Hwb Hv Hd Hobj)
    as (db' & Heq & Hva & Ha & Hvs & _).
  exists db'. split; [exact Heq|]. rewrite Hva, Hvs.
  split; [done|]. split; [|split; [|split]].
  - rewrite elem_of_difference, elem_of_singleton. tauto.
  - intros v k Hne. rewrite elem_of_difference, elem_of_singleton. tauto.
  - by rewrite lookup_insert_eq.
  - intros v Hne. by rewrite lookup_insert_ne.
Qed.

Lemma touch_and_respond_outcome svc now vpk version pk asset db r db' :
  touch_and_respond svc now vpk version pk asset db = (r, db') ->
  r = Ok (asset_detail pk asset) \/ r = Raise DoesNotExist.
Proof.
  unfold touch_and_respond.
  destruct (_maybe_validate_asset_metadata _ _ _ _) as [r0 db0] eqn:Hm.
  apply maybe_validate_outcome in Hm as [[-> _]|[-> _]];
    intros [= <- <-]; tauto.
Qed.

(** X10. A refusal writes nothing. Whenever [create] or [update] ends in
    anything but the 200 with the asset, and whenever [destroy] ends in
    anything but the 204, the database is the one the request found. (For
    [create] and [update] the one exception is a blob whose row is gone
    when the inline validation refreshes it: [DoesNotExist] is raised after
    the asset was written.) *)
Theorem refusals_write_nothing (svc : Services) (now : Z) (uuid4 : UUID)
    (d : AssetRequestSerializer.data) (dandiset_pk : Z)
    (version_str : string) (asset_id : UUID) (db : DB) :
  (forall r db',
     create svc now uuid4 d dandiset_pk version_str db = (r, db') ->
     (exists pk a, r = Ok (asset_detail pk a)) \/ r = Raise DoesNotExist
     \/ db' = db)
  /\ (forall r db',
        update svc now uuid4 d dandiset_pk version_str asset_id db
          = (r, db') ->
        (exists pk a, r = Ok (asset_detail pk a)) \/ r = Raise DoesNotExist
        \/ db' = db)
  /\ (forall r db',
        destroy svc now dandiset_pk version_str asset_id db = (r, db') ->
        r = Ok {| body := NoBody; status_code := HTTP_204_NO_CONTENT |}
        \/ db' = db).
Proof.
  split; [|split]; intros r db'.
  - unfold create.
    destruct (find_version _ _ _) as [[vpk version]|]; cbn;
      [|intros [= <- <-]; tauto].
    destruct (negb _); [intros [= <- <-]; tauto|].
    destruct (asset_from_request _ _ _ _) as [asset|e];
      [|intros [= <- <-]; tauto].
    destruct (path_exists _ _ _); [intros [= <- <-]; tauto|].
    destruct (zarr_of_other_dandiset _ _ _); [intros [= <- <-]; tauto|].
    cbn. intros H. apply touch_and_respond_outcome in H as [->| ->]; eauto.
  - unfold update.
    destruct (get_object _ _ _ _) as [[old_pk old_asset]|];
      [|intros [= <- <-]; tauto].
    destruct (find_version _ _ _) as [[vpk version]|]; cbn;
      [|intros [= <- <-]; tauto].
    destruct (negb _); [intros [= <- <-]; tauto|].
    destruct (asset_from_request _ _ _ _) as [asset|e];
      [|intros [= <- <-]; tauto].
    pose proof (no_changes_not_true asset old_asset) as Hnc.
    destruct (no_changes asset old_asset) as [[]|];
      [done| |intros [= <- <-]; tauto].
    destruct (path_exists_excluding _ _ _ _); [intros [= <- <-]; tauto|].
    cbn. intros H. apply touch_and_respond_outcome in H as [->| ->]; eauto.
  - unfold destroy.
    destruct (get_object _ _ _ _) as [[pk asset]|];
      [|intros [= <- <-]; tauto].
    destruct (find_version _ _ _) as [[vpk version]|]; cbn;
      [|intros [= <- <-]; tauto].
    destruct (negb _); intros [= <- <-]; tauto.
Qed.

(** * Invariants *)

Lemma exactly_one_content_set_validation s errs a :
  exactly_one_content (Asset.set_validation s errs a)
  <-> exactly_one_content a.
Proof. done. Qed.

Lemma consistent_insert db db' vpk row :
  consistent db ->
  asset_blobs db' = asset_blobs db ->
  embargoed_asset_blobs db' = embargoed_asset_blobs db ->
  zarr_archives db' = zarr_archives db ->
  asset_seq db' = asset_seq db + 1 ->
  assets db' !! asset_seq db = Some row ->
  (forall k, k <> asset_seq db -> assets db' !! k = assets db !! k) ->
  (forall v k, (v, k) ∈ version_assets db' ->
     (v, k) = (vpk, asset_seq db) \/ (v, k) ∈ version_assets db) ->
  unused_asset_id db (Asset.asset_id row) ->
  exactly_one_content row -> content_resolves db row ->
  (forall k r, (vpk, k) ∈ version_assets db' -> k <> asset_seq db ->
     assets db !! k = Some r -> Asset.path r <> Asset.path row) ->
  consistent db'.
Proof.
  intros [I1 I2 I3 I4 I5] Hb He Hz Hs Hrow Hk Hva Hid Hone Hres Hpath.
  pose proof (sequence_ahead_fresh db I2) as Hfresh.
  assert (Hold : forall v k, (v, k) ∈ version_assets db' ->
            k <> asset_seq db -> (v, k) ∈ version_assets db).
  { intros v k Hin Hne. destruct (Hva v k Hin) as [[= _ ->]|]; done. }
  assert (Hnew : forall v, (v, asset_seq db) ∈ version_assets db' ->
            v = vpk).
  { intros v Hin. destruct (Hva v _ Hin) as [[= ->]|Hin']; [done|].
    apply I1 in Hin'. rewrite Hfresh in Hin'. by destruct Hin'. }
  split.
  - intros v k Hin. destruct (decide (k = asset_seq db)) as [->|Hne].
    + rewrite Hrow. eauto.
    + rewrite Hk by done. eauto.
  - intros k Hsome. rewrite Hs.
    destruct (decide (k = asset_seq db)) as [->|Hne]; [lia|].
    rewrite Hk in Hsome by done. apply I2 in Hsome. lia.
  - intros k1 k2 r1 r2 H1 H2 Heq.
    destruct (decide (k1 = asset_seq db)) as [->|Hne1],
             (decide (k2 = asset_seq db)) as [->|Hne2]; try done.
    + rewrite Hrow in H1. rewrite Hk in H2 by done. simplify_eq.
      by destruct (Hid k2 r2 H2).
    + rewrite Hrow in H2. rewrite Hk in H1 by done. simplify_eq.
      by destruct (Hid k1 r1 H1).
    + rewrite Hk in H1, H2 by done. eauto.
  - intros v k1 k2 r1 r2 Hin1 Hin2 H1 H2 Heq.
    destruct (decide (k1 = asset_seq db)) as [->|Hne1],
             (decide (k2 = asset_seq db)) as [->|Hne2]; try done.
    + rewrite Hrow in H1. rewrite Hk in H2 by done. simplify_eq.
      apply Hnew in Hin1 as ->. by destruct (Hpath k2 r2 Hin2 Hne2 H2).
    + rewrite Hrow in H2. rewrite Hk in H1 by done. simplify_eq.
      apply Hnew in Hin2 as ->. by destruct (Hpath k1 r1 Hin1 Hne1 H1).
    + rewrite Hk in H1, H2 by done. eauto.
  - intros k r Hr. destruct (decide (k = asset_seq db)) as [->|Hne].
    + rewrite Hrow in Hr. simplify_eq. split; [done|].
      by apply (content_resolves_frame db).
    + rewrite Hk in Hr by done. destruct (I5 k r Hr). split; [done|].
      by apply (content_resolves_frame db).
Qed.

Lemma consistent_shrink db db' :
  consistent db ->
  asset_blobs db' = asset_blobs db ->
  embargoed_asset_blobs db' = embargoed_asset_blobs db ->
  zarr_archives db' = zarr_archives db ->
  asset_seq db' = asset_seq db ->
  assets db' = assets db ->
  version_assets db' ⊆ version_assets db ->
  consistent db'.
Proof.
  intros [I1 I2 I3 I4 I5] Hb He Hz Hs Ha Hva. split.
  - intros v k Hin. rewrite Ha. eauto.
  - intros k. unfold sequence_ahead in I2. rewrite Ha, Hs. eauto.
  - rewrite Ha. eauto.
  - rewrite Ha. intros v k1 k2 r1 r2 Hin1 Hin2. eauto.
  - rewrite Ha. intros k r Hr. destruct (I5 k r Hr). split; [done|].
    by apply (content_resolves_frame db).
Qed.

Lemma zarr_of_other_dandiset_same db a v :
  zarr_of_other_dandiset a v db = false -> zarr_of_same_dandiset db a v.
Proof.
  intros H z row Hz Hrow.
  apply (proj1 (zarr_of_other_dandiset_false db a v) H). by rewrite Hz.
Qed.

Lemma consistent_after_create svc now uuid4 d dandiset_pk version_str db :
  well_behaved svc -> consistent db -> unused_asset_id db uuid4 ->
  consistent (snd (create svc now uuid4 d dandiset_pk version_str db)).
Proof.
  intros Hwb Hc Hid.
  destruct (find_version dandiset_pk version_str db) as [[vpk version]|]
    eqn:Hv; [|by unfold create; rewrite Hv].
  destruct (find_version_Some _ _ _ _ _ Hv) as (_ & _ & Hstr).
  destruct (String.eqb_spec version_str "draft") as [Hd|Hd].
  2:{ unfold create. rewrite Hv. cbn. rewrite Hstr.
      by rewrite (eqb_draft_false _ Hd). }
  destruct (asset_from_request svc uuid4 d db) as [asset|e] eqn:Hreq.
  2:{ unfold create. rewrite Hv. cbn. rewrite Hstr, Hd. cbn.
      by rewrite Hreq. }
  destruct (path_exists vpk (Asset.path asset) db) eqn:Hfree.
  { unfold create. rewrite Hv. cbn. rewrite Hstr, Hd. cbn.
    by rewrite Hreq, Hfree. }
  destruct (zarr_of_other_dandiset asset version db) eqn:Hz.
  { unfold create. rewrite Hv. cbn. rewrite Hstr, Hd. cbn.
    by rewrite Hreq, Hfree, Hz. }
  pose proof Hfree as Hfree'. apply path_exists_false in Hfree'.
  apply zarr_of_other_dandiset_same in Hz.
  destruct (create_success svc now uuid4 d dandiset_pk version_str db vpk
              version asset Hwb Hv Hd Hreq Hfree' Hz)
    as (db' & -> & Hva & (s & errs & Hrow) & Hk & Hvs & Hs & Hb & He & Hza).
  cbn [snd].
  destruct (asset_from_request_Ok _ _ _ _ _ Hreq) as (Hres & Hone & Hu & _).
  apply (consistent_insert db db' vpk (Asset.set_validation s errs asset));
    try done.
  - intros v k. rewrite Hva, elem_of_union, elem_of_singleton. tauto.
  - cbn. by rewrite Hu.
  - intros k r Hin Hne Hr Hp. apply Hfree'. exists k, r.
    split; [|by split].
    rewrite Hva, elem_of_union, elem_of_singleton in Hin.
    destruct Hin as [[=]|]; done.
Qed.

Lemma consistent_after_update svc now uuid4 d dandiset_pk version_str
    asset_id db :
  well_behaved svc -> consistent db -> unused_asset_id db uuid4 ->
  consistent
    (snd (update svc now uuid4 d dandiset_pk version_str asset_id db)).
Proof.
  intros Hwb Hc Hid.
  destruct (get_object dandiset_pk version_str asset_id db)
    as [[old_pk old_asset]|e] eqn:Hobj; [|by unfold update; rewrite Hobj].
  destruct (find_version dandiset_pk version_str db) as [[vpk version]|]
    eqn:Hv; [|by unfold update; rewrite Hobj, Hv].
  destruct (find_version_Some _ _ _ _ _ Hv) as (_ & _ & Hstr).
  destruct (String.eqb_spec version_str "draft") as [Hd|Hd].
  2:{ unfold update. rewrite Hobj, Hv. cbn. rewrite Hstr.
      by rewrite (eqb_draft_false _ Hd). }
  destruct (asset_from_request svc uuid4 d db) as [asset|e] eqn:Hreq.
  2:{ unfold update. rewrite Hobj, Hv. cbn. rewrite Hstr, Hd. cbn.
      by rewrite Hreq. }
  destruct (no_changes asset old_asset) as [[]|e] eqn:Hnc.
  { by destruct (no_changes_not_true asset old_asset). }
  2:{ unfold update. rewrite Hobj, Hv. cbn. rewrite Hstr, Hd. cbn.
      by rewrite Hreq, Hnc. }
  destruct (path_exists_excluding vpk (Asset.path asset)
              (Asset.asset_id old_asset) db) eqn:Hfree.
  { unfold update. rewrite Hobj, Hv. cbn. rewrite Hstr, Hd. cbn.
    by rewrite Hreq, Hnc, Hfree. }
  assert (Hmod : modifies asset old_asset)
    by (by apply no_changes_false_modifies).
  pose proof Hfree as Hfree'. apply path_exists_excluding_false in Hfree'.
  destruct (update_success svc now uuid4 d dandiset_pk version_str asset_id
              db vpk version old_pk old_asset asset Hwb Hv Hd Hobj Hreq Hmod
              Hfree')
    as (db' & -> & Hva & (s & errs & Hrow) & Hk & Hvs & Hs & Hb & He & Hza).
  cbn [snd].
  destruct (asset_from_request_Ok _ _ _ _ _ Hreq) as (Hres & Hone & Hu & _).
  destruct (get_object_live _ _ _ _ _ _ _ _ Hv Hobj) as (Hlive & Hold & _).
  apply (consistent_insert db db' vpk
           (Asset.set_validation s errs
              (Asset.set_previous (Some old_pk) asset)));
    try done.
  - intros v k. rewrite Hva, elem_of_difference, elem_of_union,
      elem_of_singleton. tauto.
  - cbn. by rewrite Hu.
  - intros k r Hin Hne Hr Hp.
    rewrite Hva, elem_of_difference, elem_of_union, !elem_of_singleton in Hin.
    destruct Hin as [[[=]|Hin] Hnot]; [done|].
    apply Hfree'. exists k, r. split; [by split|].
    intros Hideq. apply Hnot. f_equal.
    by apply (asset_ids_unique db Hc k old_pk r old_asset).
Qed.

Lemma consistent_after_destroy svc now dandiset_pk version_str asset_id db :
  well_behaved svc -> consistent db ->
  consistent (snd (destroy svc now dandiset_pk version_str asset_id db)).
Proof.
  intros Hwb Hc.
  destruct (get_object dandiset_pk version_str asset_id db)
    as [[pk asset]|e] eqn:Hobj; [|by unfold destroy; rewrite Hobj].
  destruct (find_version dandiset_pk version_str db) as [[vpk version]|]
    eqn:Hv; [|by unfold destroy; rewrite Hobj, Hv].
  destruct (find_version_Some _ _ _ _ _ Hv) as (_ & _ & Hstr).
  destruct (String.eqb_spec version_str "draft") as [Hd|Hd].
  2:{ unfold destroy. rewrite Hobj, Hv. cbn. rewrite Hstr.
      by rewrite (eqb_draft_false _ Hd). }
  destruct (destroy_success svc now dandiset_pk version_str asset_id db vpk
              version pk asset Hwb Hv Hd Hobj)
    as (db' & -> & Hva & Ha & Hvs & Hs & Hb & He & Hza).
  cbn [snd]. apply (consistent_shrink db); try done.
  rewrite Hva. apply subseteq_difference_l. done.
Qed.

(** X11. The three mutating views keep the asset tables consistent, however
    they end: attachments point at stored assets, the key sequence is ahead
    of every key, [asset_id]s are unique, a version has at most one asset
    per path, and every stored asset has exactly one content reference,
    which resolves. [create] and [update] need the [asset_id] they draw to
    be unused. *)
Theorem views_keep_the_tables_consistent (svc : Services) (now : Z)
    (uuid4 : UUID) (d : AssetRequestSerializer.data) (dandiset_pk : Z)
    (version_str : string) (asset_id : UUID) (db : DB) :
  well_behaved svc -> consistent db ->
  (unused_asset_id db uuid4 ->
   consistent (snd (create svc now uuid4 d dandiset_pk version_str db))
   /\ consistent
        (snd (update svc now uuid4 d dandiset_pk version_str asset_id db)))
  /\ consistent (snd (destroy svc now dandiset_pk version_str asset_id db)).
Proof.
  intros Hwb Hc. split; [intros Hid; split|].
  - by apply consistent_after_create.
  - by apply consistent_after_update.
  - by apply consistent_after_destroy.
Qed.

(** * Views and sweeps together *)

Lemma pending_draft_is_swept db vpk v :
  versions db !! vpk = Some v -> Version.status v = PENDING ->
  Version.version v = "draft" ->
  validate_version_metadata_task vpk ∈ validate_draft_version_metadata db
  /\ aggregate_assets_summary_task vpk ∈ validate_draft_version_metadata db
  /\ write_manifest_files vpk ∈ validate_draft_version_metadata db.
Proof.
  intros Hv Hp Hd.
  assert (Hin : vpk ∈ pending_draft_versions db)
    by (apply elem_of_pending_draft_versions; eauto).
  repeat split; apply elem_of_validate_draft_version_metadata;
    exists vpk; tauto.
Qed.

Lemma touch_and_respond_touches svc now vpk version pk asset db r db' :
  well_behaved svc ->
  touch_and_respond svc now vpk version pk asset db = (r, db') ->
  versions db' !! vpk = Some (touched now version).
Proof.
  intros Hwb. unfold touch_and_respond.
  set (st := save_version now vpk (Version.set_status PENDING version) db).
  destruct (_maybe_validate_asset_metadata svc pk asset st)
    as [r0 db0] eqn:Hm.
  assert (Hvs : versions db0 = versions st).
  { apply maybe_validate_outcome in Hm as [[_ [->| ->]]|[_ ->]];
      try done.
    by destruct (validate_asset_metadata_frame svc Hwb pk st)
      as (_ & _ & _ & _ & ? & _). }
  assert (versions db0 !! vpk = Some (touched now version))
    by (rewrite Hvs; cbn; by rewrite lookup_insert_eq).
  by destruct r0; intros [= <- <-].
Qed.

(** X12. Every successful mutation is picked up by the next sweep of the
    draft versions: after a [create], [update] or [destroy] that answered
    200 or 204 the version is PENDING with the new modification time, and
    [validate_draft_version_metadata] enqueues its validation, its asset
    summary and its manifests. *)
Theorem successful_mutation_schedules_version (svc : Services) (now : Z)
    (uuid4 : UUID) (d : AssetRequestSerializer.data) (dandiset_pk : Z)
    (version_str : string) (asset_id : UUID) (db : DB) (vpk : Z)
    (version : Version.t) (r : Result Response) (db' : DB) :
  well_behaved svc ->
  find_version dandiset_pk version_str db = Some (vpk, version) ->
  create svc now uuid4 d dandiset_pk version_str db = (r, db')
  \/ update svc now uuid4 d dandiset_pk version_str asset_id db = (r, db')
  \/ destroy svc now dandiset_pk version_str asset_id db = (r, db') ->
  succeeded r ->
  versions db' !! vpk = Some (touched now version)
  /\ validate_version_metadata_task vpk ∈ validate_draft_version_metadata db'
  /\ aggregate_assets_summary_task vpk ∈ validate_draft_version_metadata db'
  /\ write_manifest_files vpk ∈ validate_draft_version_metadata db'.
Proof.
  intros Hwb Hv Hrun (resp & -> & Hstatus).
  destruct (find_version_Some _ _ _ _ _ Hv) as (_ & _ & Hstr).
  assert (Hnot : forall resp', resp' = only_draft \/ resp' = path_conflict ->
            Ok resp = Ok resp' -> False).
  { intros resp' [-> | ->] [= ->]; by destruct Hstatus. }
  assert (Htouched : versions db' !! vpk = Some (touched now version)
                     /\ version_str = "draft").
  { destruct Hrun as [H|[H|H]].
    - revert H. unfold create. rewrite Hv. cbn. rewrite Hstr.
      destruct (String.eqb_spec version_str "draft") as [Hd|Hd]; cbn;
        [|intros [= H _]; destruct (Hnot only_draft); [tauto|by f_equal]].
      destruct (asset_from_request _ _ _ _); [|discriminate].
      destruct (path_exists _ _ _);
        [intros [= H _]; destruct (Hnot path_conflict); [tauto|by f_equal]|].
      destruct (zarr_of_other_dandiset _ _ _); [discriminate|]. cbn.
      intros H. split; [|done]. by eapply touch_and_respond_touches.
    - revert H. unfold update.
      destruct (get_object _ _ _ _) as [[old_pk old_asset]|];
        [|discriminate].
      rewrite Hv. cbn. rewrite Hstr.
      destruct (String.eqb_spec version_str "draft") as [Hd|Hd]; cbn;
        [|intros [= H _]; destruct (Hnot only_draft); [tauto|by f_equal]].
      destruct (asset_from_request _ _ _ _) as [asset|]; [|discriminate].
      destruct (no_changes asset old_asset) as [[]|]; [| |discriminate].
      + intros H. split; [|done]. by eapply touch_and_respond_touches.
      + destruct (path_exists_excluding _ _ _ _);
          [intros [= H _]; destruct (Hnot path_conflict);
           [tauto|by f_equal]|].
        cbn. intros H. split; [|done]. by eapply touch_and_respond_touches.
    - revert H. unfold destroy.
      destruct (get_object _ _ _ _) as [[pk asset]|]; [|discriminate].
      rewrite Hv. cbn. rewrite Hstr.
      destruct (String.eqb_spec version_str "draft") as [Hd|Hd]; cbn;
        [|intros [= H _]; destruct (Hnot only_draft); [tauto|by f_equal]].
      intros [= _ <-]. split; [|done].
      destruct (delete_asset_frame svc Hwb pk vpk
                  (version_assets_remove vpk pk db))
        as (_ & _ & _ & _ & _ & Hvs & _).
      cbn. by rewrite lookup_insert_eq. }
  destruct Htouched as [Ht Hd]. split; [done|].
  apply (pending_draft_is_swept db' vpk (touched now version)); try done.
  cbn. by rewrite Hstr.
Qed.

(** X13. A zarr asset is validated by the sweep, not by the view: after a
    successful [create] of an asset backed by a COMPLETE zarr archive with
    a checksum, the stored asset is as built, still PENDING, and
    [validate_pending_asset_metadata] enqueues its validation. *)
Theorem attached_zarr_asset_is_swept (svc : Services) (now : Z)
    (uuid4 : UUID) (d : AssetRequestSerializer.data) (dandiset_pk : Z)
    (version_str : string) (db : DB) (vpk : Z) (version : Version.t)
    (asset : Asset.t) :
  well_behaved svc ->
  find_version dandiset_pk version_str db = Some (vpk, version) ->
  version_str = "draft" ->
  asset_from_request svc uuid4 d db = Ok asset ->
  ~ (exists pk a, live_at db vpk (Asset.path asset) pk a) ->
  zarr_of_same_dandiset db asset version ->
  zarr_backed asset -> zarr_is_complete db asset = true ->
  let pk := asset_seq db in
  exists db',
    create svc now uuid4 d dandiset_pk version_str db
    = (Ok (asset_detail pk asset), db')
    /\ assets db' !! pk = Some asset /\ Asset.status asset = PENDING
    /\ validate_asset_metadata_task pk ∈ validate_pending_asset_metadata db'.
Proof.
  intros Hwb Hv -> Hreq Hfree Hz (Hb & He & _) Hcomplete pk.
  destruct (find_version_Some _ _ _ _ _ Hv) as (_ & _ & Hstr).
  destruct (asset_from_request_Ok _ _ _ _ _ Hreq) as (_ & _ & _ & Hp & _).
  apply path_exists_false in Hfree.
  apply zarr_of_same_dandiset_false in Hz.
  unfold create. rewrite Hv. cbn. rewrite Hstr. cbn.
  rewrite Hreq, Hfree, Hz. cbn. unfold touch_and_respond.
  rewrite maybe_validate_zarr by done.
  eexists. split; [reflexivity|].
  set (st0 := version_assets_add vpk (asset_seq db)
                (set_asset_seq (asset_seq db + 1)
                   (set_assets (insert (asset_seq db) asset) db))).
  destruct (add_asset_frame svc Hwb (asset_seq db) vpk st0)
    as (_ & _ & Hza & Ha & _).
  assert (Hrow : assets (save_version now vpk
                           (Version.set_status PENDING version)
                           (add_asset svc (asset_seq db) vpk st0))
                 !! asset_seq db = Some asset).
  { cbn. rewrite Ha. cbn. by rewrite lookup_insert_eq. }
  split; [exact Hrow|]. split; [done|].
  apply elem_of_validate_pending_asset_metadata. exists pk.
  split; [done|]. apply elem_of_validatable_assets. exists asset.
  split; [exact Hrow|]. unfold validatable.
  rewrite bool_decide_eq_true_2 by done. cbn.
  assert (Hc : zarr_is_complete
                 (save_version now vpk (Version.set_status PENDING version)
                    (add_asset svc (asset_seq db) vpk st0)) asset = true).
  { revert Hcomplete. unfold zarr_is_complete. cbn. by rewrite Hza. }
  rewrite Hc. apply orb_true_r.
Qed.

(** * The sweeps *)

Lemma validatable_assets_NoDup db : NoDup (validatable_assets db).
Proof.
  unfold validatable_assets.
  eapply sublist_NoDup; [apply (NoDup_fst_map_to_list (assets db))|].
  apply fmap_sublist, sublist_filter.
Qed.

Lemma pending_draft_versions_NoDup db : NoDup (pending_draft_versions db).
Proof.
  unfold pending_draft_versions.
  eapply sublist_NoDup; [apply (NoDup_fst_map_to_list (versions db))|].
  apply fmap_sublist. etrans; apply sublist_filter.
Qed.

Lemma validate_pending_asset_metadata_eq db :
  validate_pending_asset_metadata db
  = validate_asset_metadata_task <$> validatable_assets db.
Proof.
  unfold validate_pending_asset_metadata, throttled_iterator.
  by destruct (validatable_assets db).
Qed.

Lemma validate_draft_version_metadata_eq db :
  validate_draft_version_metadata db
  = pending_draft_versions db ≫= fun pk =>
      [ validate_version_metadata_task pk;
        aggregate_assets_summary_task pk;
        write_manifest_files pk ].
Proof.
  unfold validate_draft_version_metadata.
  by destruct (pending_draft_versions db).
Qed.

(** X14. The asset sweep enqueues one validation per validatable asset and
    nothing else: no task twice; the validation of a stored asset exactly
    when it is PENDING and its blob has a sha256 or its zarr archive is
    COMPLETE with a checksum; never an asset that has neither a blob nor a
    zarr archive (so never one that has an embargoed blob only); and every
    task is the validation of a stored asset. *)
Theorem asset_sweep_enqueues_once (db : DB) :
  NoDup (validate_pending_asset_metadata db)
  /\ (forall pk a, assets db !! pk = Some a ->
        validate_asset_metadata_task pk ∈ validate_pending_asset_metadata db
        <-> Asset.status a = PENDING
            /\ (blob_has_digest db a = true
                \/ zarr_is_complete db a = true))
  /\ (forall pk a, assets db !! pk = Some a ->
        Asset.blob a = None -> Asset.zarr a = None ->
        validate_asset_metadata_task pk
          ∉ validate_pending_asset_metadata db)
  /\ (forall t, t ∈ validate_pending_asset_metadata db ->
        exists pk, t = validate_asset_metadata_task pk
                   /\ is_Some (assets db !! pk)).
Proof.
  assert (Hiff : forall pk a, assets db !! pk = Some a ->
        validate_asset_metadata_task pk ∈ validate_pending_asset_metadata db
        <-> Asset.status a = PENDING
            /\ (blob_has_digest db a = true
                \/ zarr_is_complete db a = true)).
  { intros pk a Ha. rewrite elem_of_validate_pending_asset_metadata. split.
    - intros (pk' & [= <-] & Hin).
      apply elem_of_validatable_assets in Hin as (a' & Ha' & Hv).
      simplify_eq. unfold validatable in Hv.
      apply andb_true_iff in Hv as [Hp Hready].
      apply bool_decide_eq_true in Hp. by apply orb_true_iff in Hready.
    - intros [Hp Hready]. exists pk. split; [done|].
      apply elem_of_validatable_assets. exists a. split; [done|].
      unfold validatable. rewrite bool_decide_eq_true_2 by done.
      by apply orb_true_iff. }
  split; [|split; [exact Hiff|split]].
  - rewrite validate_pending_asset_metadata_eq.
    apply NoDup_fmap_2; [by intros ?? [=]|apply validatable_assets_NoDup].
  - intros pk a Ha Hb Hz. rewrite (Hiff pk a Ha).
    unfold blob_has_digest, zarr_is_complete. rewrite Hb, Hz. cbn.
    intros [_ [|]]; discriminate.
  - intros t Hin. apply elem_of_validate_pending_asset_metadata in Hin
      as (pk & -> & Hin). exists pk. split; [done|].
    apply elem_of_validatable_assets in Hin as (a & -> & _). eauto.
Qed.

Lemma length_bind_three {A B : Type} (f g h : A -> B) (l : list A) :
  length (l ≫= fun x => [f x; g x; h x]) = (3 * length l)%nat.
Proof. induction l as [|x l IH]; cbn; [done|]. rewrite IH. lia. Qed.

(** X15. The draft sweep enqueues three tasks per PENDING draft version and
    no task twice: validation, asset summary and manifests of a version
    come one after the other, in this order. *)
Theorem draft_sweep_three_tasks_per_version (db : DB) :
  NoDup (validate_draft_version_metadata db)
  /\ length (validate_draft_version_metadata db)
     = (3 * length (pending_draft_versions db))%nat
  /\ (forall pk, pk ∈ pending_draft_versions db ->
        exists l1 l2,
          validate_draft_version_metadata db
          = (l1 ++ [ validate_version_metadata_task pk;
                     aggregate_assets_summary_task pk;
                     write_manifest_files pk ] ++ l2)%list).
Proof.
  rewrite validate_draft_version_metadata_eq. split; [|split].
  - apply NoDup_bind; [| |apply pending_draft_versions_NoDup].
    + intros x1 x2 t _ _ H1 H2.
      rewrite !elem_of_cons, elem_of_nil in H1, H2.
      destruct H1 as [->|[->|[->|[]]]], H2 as [[=]|[[=]|[[=]|[]]]];
        done.
    + intros x _. repeat constructor;
        rewrite ?elem_of_cons, ?elem_of_nil; intuition congruence.
  - apply length_bind_three.
  - intros pk Hin. apply list_elem_of_split in Hin as (k1 & k2 & ->).
    rewrite bind_app. cbn. eauto.
Qed.

(** * The throttled iterator *)

(** X16. What draining [throttled_iterator] does. When the sleep length is
    accepted, that is for a positive rate and for a negative rate so large
    that [1 / max_per_second] is [-0.0], it hands out every item in order,
    sleeps after each one, the last included, and ends normally; the items
    are those of the iterable. Otherwise it hands out the first item only:
    the step after it raises [ZeroDivisionError] for a rate of zero and
    [ValueError] for a negative rate above [- 2 ^ 1075]. An empty iterable
    ends at once whatever the rate. *)
Theorem throttled_iterator_steps {A : Type} (iterable : list A)
    (max_per_second : Z) :
  (0 < max_per_second \/ max_per_second <= - 2 ^ 1075 ->
   throttled_steps iterable max_per_second
   = (iterable ≫= (fun x => [Yielded x; Slept max_per_second]), None)
   /\ yielded (fst (throttled_steps iterable max_per_second))
      = throttled_iterator iterable)
  /\ (- 2 ^ 1075 < max_per_second <= 0 ->
      forall item rest, iterable = item :: rest ->
        throttled_steps iterable max_per_second
        = ([Yielded item],
           Some (if max_per_second =? 0 then ZeroDivisionError
                 else ValueError)))
  /\ throttled_steps (@nil A) max_per_second = ([], None).
Proof.
  assert (Hpow : 0 < 2 ^ 1075) by (apply Z.pow_pos_nonneg; lia).
  split; [|split; [|reflexivity]].
  - intros Hok.
    assert (Hs : sleep_one_over max_per_second = None).
    { unfold sleep_one_over, quotient_is_zero.
      destruct (Z.eqb_spec max_per_second 0); [lia|].
      destruct (Z.ltb_spec max_per_second 0); [|done].
      destruct (Z.leb_spec (2 ^ 1075) (Z.abs max_per_second)); [done|lia]. }
    assert (H : throttled_steps iterable max_per_second
                = (iterable ≫= (fun x => [Yielded x; Slept max_per_second]),
                   None)).
    { induction iterable as [|x l IH]; [done|].
      cbn [throttled_steps]. by rewrite Hs, IH. }
    split; [exact H|]. rewrite H. cbn [fst]. unfold throttled_iterator.
    clear H. induction iterable as [|x l IH]; [done|].
    cbn. f_equal. exact IH.
  - intros Hneg item rest ->. cbn [throttled_steps].
    unfold sleep_one_over, quotient_is_zero.
    destruct (Z.eqb_spec max_per_second 0); [done|].
    destruct (Z.ltb_spec max_per_second 0); [|lia].
    destruct (Z.leb_spec (2 ^ 1075) (Z.abs max_per_second)); [lia|done].
Qed.

(** * Permission checks *)

Lemma owner_only_Allowed acc user dandiset :
  owner_only acc user dandiset = Allowed
  <-> exists u, user = Some u /\ (u, dandiset) ∈ owners acc.
Proof.
  unfold owner_only, has_perm_owner. destruct user as [u|].
  - case_bool_decide; split; try done.
    + eauto.
    + intros (u' & [= <-] & ?). done.
  - split; [done|]. by intros (? & [=] & _).
Qed.

(** X17. The permission check of the nested view set, for a version that
    exists: the request passes exactly when the dandiset is OPEN or the user
    is authenticated and owns it; an anonymous user is told
    [NotAuthenticated] and an authenticated user who is not an owner
    [PermissionDenied], both exactly when the dandiset is not OPEN, so a
    dandiset that is being unembargoed is still closed. *)
Theorem nested_permission_check (acc : Access) (user : option Z)
    (dandiset_pk : Z) (version_str : string) (db : DB) (vpk : Z)
    (version : Version.t) (status : EmbargoStatus) :
  find_version dandiset_pk version_str db = Some (vpk, version) ->
  embargo_status acc !! Version.dandiset version = Some status ->
  let check :=
    nested_raise_if_unauthorized acc user dandiset_pk version_str db in
  (check = Allowed
   <-> status = OPEN
       \/ exists u, user = Some u
                    /\ (u, Version.dandiset version) ∈ owners acc)
  /\ (check = NotAuthenticated <-> status <> OPEN /\ user = None)
  /\ (check = PermissionDenied
      <-> status <> OPEN
          /\ exists u, user = Some u
                       /\ (u, Version.dandiset version) ∉ owners acc).
Proof.
  intros Hv Hs check. subst check. unfold nested_raise_if_unauthorized.
  rewrite Hv, Hs. case_bool_decide as Hopen.
  - unfold owner_only, has_perm_owner. destruct user as [u|].
    + case_bool_decide as Hown.
      * split; [|split]; split; try done.
        -- intros _. right. eauto.
        -- intros [_ [=]].
        -- intros (_ & u' & [= <-] & ?). done.
      * split; [|split]; split; try done.
        -- intros [?|(u' & [= <-] & ?)]; done.
        -- intros [_ [=]].
        -- intros _. split; [done|]. eauto.
    + split; [|split]; split; try done.
      * intros [?|(? & [=] & _)]. done.
      * intros (_ & ? & [=] & _).
  - assert (status = OPEN) as ->.
    { destruct (decide (status = OPEN)); [done|]. by destruct Hopen. }
    split; [|split]; split; try done.
    + intros _. by left.
    + intros [? _]. done.
    + intros [? _]. done.
Qed.

(** X18. [AssetViewSet.retrieve] discloses the metadata of an asset exactly
    when the asset exists and either has no embargoed blob or the user is
    authenticated and owns the dandiset of that blob. The embargo status of
    the dandisets the asset is attached to plays no part. *)
Theorem retrieve_discloses_iff (acc : Access) (user : option Z)
    (asset_id : UUID) (db : DB) (m : Metadata) :
  snd (retrieve acc user asset_id db) = Some m
  <-> exists pk asset,
        find_asset asset_id db = Some (pk, asset)
        /\ Asset.metadata asset = m
        /\ (Asset.embargoed_blob asset = None
            \/ exists b dandiset u,
                 Asset.embargoed_blob asset = Some b
                 /\ embargoed_blob_dandiset acc !! b = Some dandiset
                 /\ user = Some u
                 /\ (u, dandiset) ∈ owners acc).
Proof.
  unfold retrieve, asset_raise_if_unauthorized.
  destruct (find_asset asset_id db) as [[pk asset]|] eqn:Hf.
  - destruct (Asset.embargoed_blob asset) as [b|] eqn:Hb.
    + destruct (embargoed_blob_dandiset acc !! b) as [d|] eqn:Hd.
      * destruct (owner_only acc user d) eqn:Ho; cbn [snd].
        -- apply owner_only_Allowed in Ho as (u & -> & Hin). split.
           ++ intros [= <-]. exists pk, asset. split; [done|].
              split; [done|]. right. by exists b, d, u.
           ++ intros (? & ? & [= <- <-] & <- & _). done.
        -- split; [done|].
           intros (? & ? & [= <- <-] & _ & [?|(? & ? & ? & ? & ? & ? & ?)]);
             simplify_eq.
           unfold owner_only in Ho. cbn in Ho. unfold has_perm_owner in Ho.
           by rewrite bool_decide_eq_true_2 in Ho.
        -- split; [done|].
           intros (? & ? & [= <- <-] & _ & [?|(? & ? & ? & ? & ? & ? & ?)]);
             simplify_eq.
           unfold owner_only in Ho. cbn in Ho. unfold has_perm_owner in Ho.
           by rewrite bool_decide_eq_true_2 in Ho.
        -- split; [done|].
           intros (? & ? & [= <- <-] & _ & [?|(? & ? & ? & ? & ? & ? & ?)]);
             simplify_eq.
           unfold owner_only in Ho. cbn in Ho. unfold has_perm_owner in Ho.
           by rewrite bool_decide_eq_true_2 in Ho.
      * cbn [snd]. split; [done|].
        intros (? & ? & [= <- <-] & _ & [?|(? & ? & ? & ? & ? & ? & ?)]);
          simplify_eq.
    + cbn [snd]. split.
      * intros [= <-]. exists pk, asset. auto.
      * intros (? & ? & [= <- <-] & <- & _). done.
  - cbn [snd]. split; [done|]. intros (? & ? & [=] & _).
Qed.

(** * Field validators *)

Example show_draft_folder_id_regex :
  pattern.anchored draft_folder_id_regex = "^[0-9a-f]{24}$".
Proof. reflexivity. Qed.

Example show_sha256_regex :
  pattern.anchored sha256_regex = "^[0-9a-f]{64}$".
Proof. reflexivity. Qed.

Example show_etag_regex :
  pattern.anchored etag_regex = "^[0-9a-f]{32}(-[1-9][0-9]*)?$".
Proof. reflexivity. Qed.

Lemma Matches_Cat_inv r1 r2 s :
  pattern.Matches (pattern.Cat r1 r2) s
  <-> exists s1 s2, s = (s1 ++ s2)%list /\ pattern.Matches r1 s1
                    /\ pattern.Matches r2 s2.
Proof.
  split.
  - inversion 1; subst. eauto.
  - intros (s1 & s2 & -> & H1 & H2). by constructor.
Qed.

Lemma Matches_Times_S_inv r n s :
  pattern.Matches (pattern.Times r (S n)) s
  <-> exists s1 s2, s = (s1 ++ s2)%list /\ pattern.Matches r s1
                    /\ pattern.Matches (pattern.Times r n) s2.
Proof.
  split.
  - inversion 1; subst. eauto.
  - intros (s1 & s2 & -> & H1 & H2). by constructor.
Qed.

Lemma Matches_Times_0_inv r s :
  pattern.Matches (pattern.Times r 0) s <-> s = [].
Proof. split; [by inversion 1|intros ->; constructor]. Qed.

Lemma Matches_Alt_inv r1 r2 s :
  pattern.Matches (pattern.Alt r1 r2) s
  <-> pattern.Matches r1 s \/ pattern.Matches r2 s.
Proof.
  split.
  - inversion 1; subst; auto.
  - intros [?|?]; [by apply pattern.M_AltL|by apply pattern.M_AltR].
Qed.

Lemma Matches_Opt_inv r s :
  pattern.Matches (pattern.Opt r) s <-> s = [] \/ pattern.Matches r s.
Proof.
  split.
  - inversion 1; subst; auto.
  - intros [->|?]; [apply pattern.M_Opt0|by apply pattern.M_Opt1].
Qed.

Lemma Matches_Group_inv r s :
  pattern.Matches (pattern.Group r) s <-> pattern.Matches r s.
Proof. split; [by inversion 1|by constructor]. Qed.

Lemma Matches_Char_inv c s : pattern.Matches (pattern.Char c) s <-> s = [c].
Proof. split; [by inversion 1|intros ->; constructor]. Qed.

Lemma Matches_Class_inv ranges s :
  pattern.Matches (pattern.Class ranges) s
  <-> exists c, s = [c] /\ pattern.in_class ranges c = true.
Proof.
  split; [inversion 1; subst; eauto|intros (c & -> & ?); by constructor].
Qed.

Lemma Matches_Times_nil r n :
  pattern.Matches r [] -> pattern.Matches (pattern.Times r n) [].
Proof.
  intros H. induction n as [|n IH]; [constructor|].
  apply Matches_Times_S_inv. by exists [], [].
Qed.

Lemma nullable_spec r : pattern.nullable r = true <-> pattern.Matches r [].
Proof.
  induction r as [| | | |r1 IH1 r2 IH2|r1 IH1 r2 IH2|r IH|r IH|r IH n|r IH];
    cbn [pattern.nullable].
  - split; [done|]. inversion 1.
  - split; [constructor|done].
  - split; [done|]. inversion 1.
  - split; [done|]. inversion 1.
  - rewrite andb_true_iff, IH1, IH2, Matches_Cat_inv. split.
    + intros [H1 H2]. by exists [], [].
    + intros (s1 & s2 & Heq & H1 & H2). symmetry in Heq.
      apply app_eq_nil in Heq as [-> ->]. done.
  - by rewrite orb_true_iff, IH1, IH2, Matches_Alt_inv.
  - split; [constructor|done].
  - split; [constructor|done].
  - destruct n as [|n].
    + split; [constructor|done].
    + rewrite IH, Matches_Times_S_inv. split.
      * intros H. exists [], []. split; [done|]. split; [done|].
        by apply Matches_Times_nil.
      * intros (s1 & s2 & Heq & H1 & H2). symmetry in Heq.
        apply app_eq_nil in Heq as [-> ->]. done.
  - by rewrite IH, Matches_Group_inv.
Qed.

Lemma Matches_Star_cons r c s :
  pattern.Matches (pattern.Star r) (c :: s)
  -> exists s1 s2, s = (s1 ++ s2)%list /\ pattern.Matches r (c :: s1)
                   /\ pattern.Matches (pattern.Star r) s2.
Proof.
  remember (pattern.Star r) as r' eqn:Hr. remember (c :: s) as cs eqn:Hcs.
  intros H. revert s Hcs.
  induction H as [| | | | | | |r0 s1 s2 H1 _ H2 IH2| | | | |];
    try discriminate; intros s Hcs.
  injection Hr as ->. destruct s1 as [|d s1].
  - cbn in Hcs. by apply IH2.
  - cbn in Hcs. injection Hcs as -> <-. by exists s1, s2.
Qed.

Lemma Matches_Times_cons r n c s :
  pattern.Matches (pattern.Times r n) (c :: s)
  -> exists n' s1 s2, n = S n' /\ s = (s1 ++ s2)%list
                      /\ pattern.Matches r (c :: s1)
                      /\ pattern.Matches (pattern.Times r n') s2.
Proof.
  revert s. induction n as [|n IH]; intros s H.
  - by apply Matches_Times_0_inv in H.
  - apply Matches_Times_S_inv in H as (s1 & s2 & Heq & H1 & H2).
    destruct s1 as [|d s1].
    + cbn in Heq. subst s2.
      apply IH in H2 as (n' & t1 & t2 & -> & -> & Ht1 & Ht2).
      exists (S n'), t1, t2. split; [done|]. split; [done|]. split; [done|].
      apply Matches_Times_S_inv. by exists [], t2.
    + cbn in Heq. injection Heq as -> ->. by exists n, s1, s2.
Qed.

Lemma deriv_spec r : forall c s,
  pattern.Matches (pattern.deriv c r) s <-> pattern.Matches r (c :: s).
Proof.
  induction r as [| |c0|ranges|r1 IH1 r2 IH2|r1 IH1 r2 IH2|r IH|r IH|r IH n
                 |r IH];
    intros c s; cbn [pattern.deriv].
  - split; inversion 1.
  - split; inversion 1.
  - rewrite Matches_Char_inv. destruct (Ascii.eqb_spec c c0) as [->|Hne].
    + split; [by inversion 1|intros [= ->]; constructor].
    + split; [inversion 1|intros [= -> ->]; done].
  - rewrite Matches_Class_inv. destruct (pattern.in_class ranges c) eqn:Hc.
    + split; [inversion 1; eauto|intros (? & [= <- ->] & _); constructor].
    + split; [inversion 1|intros (? & [= <- ->] & ?); congruence].
  - assert (Hcat : pattern.Matches (pattern.Cat (pattern.deriv c r1) r2) s
                   <-> exists s1 s2, s = (s1 ++ s2)%list
                         /\ pattern.Matches r1 (c :: s1)
                         /\ pattern.Matches r2 s2).
    { rewrite Matches_Cat_inv. split.
      - intros (s1 & s2 & -> & H1 & H2). exists s1, s2.
        split; [done|]. split; [by apply IH1|done].
      - intros (s1 & s2 & -> & H1 & H2). exists s1, s2.
        split; [done|]. split; [by apply IH1|done]. }
    assert (Hsplit : pattern.Matches (pattern.Cat r1 r2) (c :: s)
                     <-> (exists s1 s2, s = (s1 ++ s2)%list
                            /\ pattern.Matches r1 (c :: s1)
                            /\ pattern.Matches r2 s2)
                         \/ (pattern.Matches r1 []
                             /\ pattern.Matches r2 (c :: s))).
    { rewrite Matches_Cat_inv. split.
      - intros (s1 & s2 & Heq & H1 & H2). destruct s1 as [|d s1].
        + cbn in Heq. subst s2. by right.
        + cbn in Heq. injection Heq as -> ->. left. by exists s1, s2.
      - intros [(s1 & s2 & -> & H1 & H2)|[H1 H2]].
        + by exists (c :: s1), s2.
        + by exists [], (c :: s). }
    rewrite Hsplit. destruct (pattern.nullable r1) eqn:Hn.
    + rewrite Matches_Alt_inv, Hcat, IH2.
      apply nullable_spec in Hn. tauto.
    + rewrite Hcat. split; [auto|].
      intros [?|[H1 _]]; [done|]. apply nullable_spec in H1. congruence.
  - by rewrite !Matches_Alt_inv, IH1, IH2.
  - rewrite Matches_Cat_inv. split.
    + intros (s1 & s2 & -> & H1 & H2).
      change (c :: s1 ++ s2)%list with ((c :: s1) ++ s2)%list.
      constructor; [by apply IH|done].
    + intros H. apply Matches_Star_cons in H as (s1 & s2 & -> & H1 & H2).
      exists s1, s2. split; [done|]. split; [by apply IH|done].
  - rewrite Matches_Opt_inv, IH. split; [auto|]. by intros [?|?].
  - destruct n as [|n].
    + rewrite Matches_Times_0_inv. split; [inversion 1|done].
    + rewrite Matches_Cat_inv. split.
      * intros (s1 & s2 & -> & H1 & H2). apply Matches_Times_S_inv.
        exists (c :: s1), s2. split; [done|]. split; [by apply IH|done].
      * intros H.
        apply Matches_Times_cons in H as (n' & s1 & s2 & [= <-] & -> & H1 & H2).
        exists s1, s2. split; [done|]. split; [by apply IH|done].
  - by rewrite Matches_Group_inv, IH.
Qed.

Lemma fullmatch_spec s : forall r,
  pattern.fullmatch r s = true <-> pattern.Matches r s.
Proof.
  induction s as [|c s IH]; intros r; cbn [pattern.fullmatch].
  - apply nullable_spec.
  - rewrite IH. apply deriv_spec.
Qed.

Lemma Matches_Times_single r (P : ascii -> bool) :
  (forall s, pattern.Matches r s <-> exists c, s = [c] /\ P c = true) ->
  forall n s,
    pattern.Matches (pattern.Times r n) s
    <-> length s = n /\ forallb P s = true.
Proof.
  intros Hr. induction n as [|n IH]; intros s.
  - rewrite Matches_Times_0_inv. split.
    + by intros ->.
    + intros [Hl _]. by destruct s.
  - rewrite Matches_Times_S_inv. split.
    + intros (s1 & s2 & -> & H1 & H2). apply Hr in H1 as (c & -> & Hc).
      apply IH in H2 as [<- H2]. cbn. by rewrite Hc, H2.
    + intros [Hl Hall]. destruct s as [|c s]; [done|].
      cbn in Hl, Hall. apply andb_true_iff in Hall as [Hc Hall].
      exists [c], s. split; [done|]. split.
      * apply Hr. eauto.
      * apply IH. split; [lia|done].
Qed.

Lemma Matches_Star_single r (P : ascii -> bool) :
  (forall s, pattern.Matches r s <-> exists c, s = [c] /\ P c = true) ->
  forall s, pattern.Matches (pattern.Star r) s <-> forallb P s = true.
Proof.
  intros Hr s. split.
  - remember (pattern.Star r) as r' eqn:Heq. intros H.
    induction H as [| | | | | | |r0 s1 s2 H1 _ H2 IH2| | | | |];
      try discriminate; [done|].
    injection Heq as ->. apply Hr in H1 as (c & -> & Hc).
    cbn. rewrite Hc. by apply IH2.
  - induction s as [|c s IH]; [constructor|].
    cbn. rewrite andb_true_iff. intros [Hc Hall].
    change (c :: s) with ([c] ++ s)%list. constructor; [|by apply IH].
    apply Hr. eauto.
Qed.

Lemma length_list_ascii_of_string value :
  length (list_ascii_of_string value) = String.length value.
Proof. induction value as [|c v IH]; [done|]. cbn. by rewrite IH. Qed.

Lemma list_ascii_of_string_app v w :
  list_ascii_of_string (v ++ w)
  = (list_ascii_of_string v ++ list_ascii_of_string w)%list.
Proof.
  induction v as [|c v IH]; [done|].
  change (list_ascii_of_string (String c (v ++ w))
          = c :: (list_ascii_of_string v ++ list_ascii_of_string w)%list).
  cbn [list_ascii_of_string]. by rewrite IH.
Qed.

Lemma before_final_newline_spec s s' :
  pattern.before_final_newline s = Some s' <-> s = (s' ++ ["010"%char])%list.
Proof.
  unfold pattern.before_final_newline. split.
  - destruct (reverse s) as [|c rest] eqn:Hrev; [done|].
    destruct (Ascii.eqb_spec c "010") as [->|]; [|done].
    intros [= <-]. rewrite <- (reverse_involutive s), Hrev.
    by rewrite reverse_cons.
  - intros ->. rewrite reverse_app, reverse_singleton. cbn [app].
    rewrite Ascii.eqb_refl. by rewrite reverse_involutive.
Qed.

Lemma search_anchored_spec body value :
  pattern.search_anchored body value = true
  <-> pattern.Matches body (list_ascii_of_string value)
      \/ exists s', list_ascii_of_string value = (s' ++ ["010"%char])%list
                    /\ pattern.Matches body s'.
Proof.
  unfold pattern.search_anchored.
  rewrite orb_true_iff, fullmatch_spec. split.
  - intros [?|H]; [by left|]. right.
    destruct (pattern.before_final_newline _) as [s'|] eqn:Hb; [|done].
    apply before_final_newline_spec in Hb. apply fullmatch_spec in H. eauto.
  - intros [?|(s' & Heq & H)]; [by left|]. right.
    apply before_final_newline_spec in Heq. rewrite Heq.
    by apply fullmatch_spec.
Qed.

Lemma in_range_ascii lo hi c :
  (nat_of_ascii hi <? 128)%nat = true -> pattern.in_range lo hi c = true ->
  is_continuation c = false.
Proof.
  unfold pattern.in_range, is_continuation. intros Hhi%Nat.ltb_lt H.
  apply andb_true_iff in H as [_ H]. apply Nat.leb_le in H.
  apply andb_false_iff. left. apply Nat.leb_gt. lia.
Qed.

Lemma is_hex_ascii c : is_hex c = true -> is_continuation c = false.
Proof.
  unfold is_hex. intros [H|H]%orb_true_iff;
    (eapply in_range_ascii; [|exact H]); reflexivity.
Qed.

Lemma code_points_app a b :
  code_points (a ++ b) = (code_points a + code_points b)%nat.
Proof. unfold code_points. by rewrite List.filter_app, length_app. Qed.

Lemma code_points_ascii (P : ascii -> bool) l :
  (forall c, P c = true -> is_continuation c = false) ->
  forallb P l = true -> code_points l = length l.
Proof.
  intros HP. unfold code_points. induction l as [|c l IH]; [done|]. cbn.
  intros [Hc Hl]%andb_true_iff. rewrite (HP c Hc). cbn. by rewrite IH.
Qed.

Lemma code_points_newline : code_points ["010"%char] = 1%nat.
Proof. reflexivity. Qed.

Lemma code_points_hex l : forallb is_hex l = true -> code_points l = length l.
Proof. apply code_points_ascii, is_hex_ascii. Qed.

Lemma code_points_part_number parts :
  is_part_number parts -> code_points parts = length parts.
Proof.
  intros (d & ds & -> & Hd & Hds).
  change ("-" :: d :: ds)%char%list with (["-"%char; d] ++ ds)%list.
  rewrite code_points_app, length_app.
  rewrite (code_points_ascii pattern.is_ascii_digit ds);
    [|intros c; apply in_range_ascii; reflexivity|done].
  unfold code_points. cbn.
  by rewrite (in_range_ascii "1" "9" d eq_refl Hd).
Qed.

Lemma clean_models_CharField n body value :
  clean (models_CharField n [RegexValidator body]) value = true
  <-> value <> ""
      /\ pattern.search_anchored body value = true
      /\ (len value <= n)%nat.
Proof.
  unfold clean, run_validators, models_CharField.
  cbn [blank validators app forallb orb]. unfold RegexValidator,
    MaxLengthValidator.
  destruct value as [|c v]; cbn [is_empty_value negb orb andb].
  - split; [done|]. by intros [? _].
  - rewrite andb_true_r, andb_true_iff. split.
    + intros [? Hl]. apply Nat.leb_le in Hl. done.
    + intros (_ & ? & Hl). split; [done|]. by apply Nat.leb_le.
Qed.

Lemma hex_spec s :
  pattern.Matches hex s <-> exists c, s = [c] /\ is_hex c = true.
Proof.
  unfold hex. rewrite Matches_Class_inv. unfold is_hex, pattern.in_class.
  cbn. by setoid_rewrite orb_false_r.
Qed.

Lemma hex_field_accepts n body value :
  (0 < n)%nat -> body = pattern.Times hex n ->
  clean (models_CharField n [RegexValidator body]) value = true
  <-> String.length value = n
      /\ forallb is_hex (list_ascii_of_string value) = true.
Proof.
  intros Hn ->. rewrite clean_models_CharField, search_anchored_spec.
  rewrite (Matches_Times_single hex is_hex hex_spec).
  rewrite length_list_ascii_of_string. split.
  - intros (_ & [[? ?]|(s' & Heq & H)] & Hlen); [done|].
    apply (Matches_Times_single hex is_hex hex_spec) in H as [Hl Hh].
    unfold len in Hlen.
    rewrite Heq, code_points_app, (code_points_hex _ Hh),
      code_points_newline in Hlen.
    lia.
  - intros [Hl Hall]. split; [|split; [by left|]].
    + intros ->. cbn in Hl. lia.
    + unfold len. rewrite (code_points_hex _ Hall).
      rewrite length_list_ascii_of_string. lia.
Qed.

(** X19. [Dandiset.draft_folder_id] and [Asset.sha256] of the initial
    migration accept exactly the strings of 24, respectively 64, lower-case
    hexadecimal digits. The pattern alone would also accept such a string
    followed by a newline, [$] matching before a final newline; it is the
    length limit that refuses it. *)
Theorem hex_fields_accept_exactly (value : string) :
  (clean draft_folder_id_field value = true
   <-> String.length value = 24%nat
       /\ forallb is_hex (list_ascii_of_string value) = true)
  /\ (clean sha256_field value = true
      <-> String.length value = 64%nat
          /\ forallb is_hex (list_ascii_of_string value) = true)
  /\ (clean sha256_field value = true ->
      RegexValidator sha256_regex (value ++ String "010" "") = true
      /\ clean sha256_field (value ++ String "010" "") = false).
Proof.
  split; [|split].
  - apply hex_field_accepts; [lia|done].
  - apply hex_field_accepts; [lia|done].
  - intros H. pose proof H as H'.
    apply hex_field_accepts in H' as [Hl Hall]; [|lia|done]. split.
    + unfold RegexValidator. apply search_anchored_spec. right.
      exists (list_ascii_of_string value).
      split; [by rewrite list_ascii_of_string_app|].
      unfold sha256_regex.
      apply (Matches_Times_single hex is_hex hex_spec).
      by rewrite length_list_ascii_of_string.
    + apply not_true_is_false. intros Hc.
      apply hex_field_accepts in Hc as [Hl' _]; [|lia|done].
      rewrite <- length_list_ascii_of_string, list_ascii_of_string_app,
        length_app, length_list_ascii_of_string in Hl'. cbn in Hl'. lia.
Qed.

Lemma Matches_etag_regex s :
  pattern.Matches etag_regex s
  <-> exists h parts,
        s = (h ++ parts)%list /\ length h = 32%nat
        /\ forallb is_hex h = true
        /\ (parts = [] \/ is_part_number parts).
Proof.
  assert (H19 : forall s, pattern.Matches (pattern.Class [("1", "9")]%char) s
                <-> exists c, s = [c] /\ pattern.in_range "1" "9" c = true).
  { intros t. rewrite Matches_Class_inv. unfold pattern.in_class. cbn.
    by setoid_rewrite orb_false_r. }
  assert (H09 : forall s, pattern.Matches (pattern.Class [("0", "9")]%char) s
                <-> exists c, s = [c] /\ pattern.is_ascii_digit c = true).
  { intros t. rewrite Matches_Class_inv. unfold pattern.in_class. cbn.
    by setoid_rewrite orb_false_r. }
  unfold etag_regex, is_part_number. rewrite Matches_Cat_inv. split.
  - intros (h & parts & -> & Hh & Hp).
    apply (Matches_Times_single _ _ hex_spec) in Hh as [? ?].
    exists h, parts. split; [done|]. split; [done|]. split; [done|].
    apply Matches_Opt_inv in Hp as [->|Hp]; [by left|]. right.
    apply Matches_Group_inv, Matches_Cat_inv in Hp as (a & t & -> & Ha & Hp).
    apply Matches_Char_inv in Ha as ->.
    apply Matches_Cat_inv in Hp as (b & ds & -> & Hb & Hds).
    apply H19 in Hb as (d & -> & Hd).
    apply (Matches_Star_single _ _ H09) in Hds. by exists d, ds.
  - intros (h & parts & -> & Lh & Hh & Hp). exists h, parts.
    split; [done|].
    split; [by apply (Matches_Times_single _ _ hex_spec)|].
    apply Matches_Opt_inv. destruct Hp as [->|(d & ds & -> & Hd & Hds)];
      [by left|]. right.
    apply Matches_Group_inv, Matches_Cat_inv. exists ["-"%char], (d :: ds).
    split; [done|]. split; [constructor|].
    apply Matches_Cat_inv. exists [d], ds. split; [done|].
    split; [apply H19; eauto|]. by apply (Matches_Star_single _ _ H09).
Qed.

(** X21. [ZarrUploadFile.etag] accepts exactly: 32 lower-case hexadecimal
    digits, then possibly a dash and a number without leading zero, then
    possibly one newline, what follows the 32 digits being at most eight
    characters long. So an ETag followed by a newline passes the
    validators. *)
Theorem etag_field_accepts_exactly (value : string) :
  clean etag_field value = true
  <-> exists h parts nl,
        list_ascii_of_string value = (h ++ parts ++ nl)%list
        /\ length h = 32%nat /\ forallb is_hex h = true
        /\ (parts = [] \/ is_part_number parts)
        /\ (nl = [] \/ nl = ["010"%char])
        /\ (length parts + length nl <= 8)%nat.
Proof.
  unfold etag_field.
  rewrite clean_models_CharField, search_anchored_spec. split.
  - intros (_ & [H|(s' & Heq & H)] & Hlen).
    + apply Matches_etag_regex in H as (h & parts & Heq & Lh & Hh & Hp).
      exists h, parts, []. rewrite app_nil_r. split; [done|].
      split; [done|]. split; [done|]. split; [done|]. split; [by left|].
      unfold len in Hlen.
      rewrite Heq, code_points_app, (code_points_hex _ Hh) in Hlen.
      destruct Hp as [->|Hp]; [cbn; lia|].
      rewrite (code_points_part_number _ Hp) in Hlen. cbn. lia.
    + apply Matches_etag_regex in H as (h & parts & -> & Lh & Hh & Hp).
      exists h, parts, ["010"%char]. split; [by rewrite Heq, <- app_assoc|].
      split; [done|]. split; [done|]. split; [done|]. split; [by right|].
      unfold len in Hlen.
      rewrite Heq, !code_points_app, (code_points_hex _ Hh),
        code_points_newline in Hlen.
      destruct Hp as [->|Hp].
      * cbn in *. lia.
      * rewrite (code_points_part_number _ Hp) in Hlen. cbn [length]. lia.
  - intros (h & parts & nl & Heq & Lh & Hh & Hp & Hnl & Hlen).
    split; [|split].
    + intros ->. by destruct h.
    + destruct Hnl as [->| ->].
      * left. rewrite Heq, app_nil_r. apply Matches_etag_regex.
        by exists h, parts.
      * right. exists (h ++ parts)%list. split; [by rewrite Heq, app_assoc|].
        apply Matches_etag_regex. by exists h, parts.
    + unfold len.
      rewrite Heq, !code_points_app, (code_points_hex _ Hh).
      assert (code_points parts = length parts) as ->.
      { destruct Hp as [->|Hp]; [done|by apply code_points_part_number]. }
      assert (code_points nl = length nl) as ->.
      { by destruct Hnl as [->| ->]. }
      lia.
Qed.

(** * The glob as a substring search *)

Lemma append_empty_r (s : string) : (s ++ "")%string = s.
Proof.
  induction s as [|c s IH]; [done|].
  change (String c (s ++ "")%string = String c s). by rewrite IH.
Qed.

Lemma iregex_glob_spec glob_pattern path :
  iregex (glob_iregex glob_pattern) path = true
  <-> exists before matched after,
        path = (before ++ matched ++ after)%string
        /\ glob_matches (list_ascii_of_string glob_pattern) matched.
Proof.
  unfold iregex. rewrite atoms_glob_iregex, match_anywhere_spec. split.
  - intros (pre & rest & -> & H).
    apply match_here_glob in H as (m & post & -> & H).
    by exists pre, m, post.
  - intros (pre & m & post & -> & H). exists pre, (m ++ post)%string.
    split; [reflexivity|]. apply match_here_glob. by exists m, post.
Qed.

Lemma glob_matches_nil_inv s : glob_matches [] s <-> s = "".
Proof. split; [by inversion 1|intros ->; constructor]. Qed.

Lemma glob_matches_star_inv g s :
  glob_matches ("*"%char :: g) s
  <-> exists s1 s2, s = (s1 ++ s2)%string /\ glob_matches g s2.
Proof.
  split.
  - inversion 1; subst; [eauto|congruence].
  - intros (s1 & s2 & -> & H). by constructor.
Qed.

Lemma glob_matches_app g1 : forall g2 s,
  glob_matches (g1 ++ g2)%list s
  <-> exists s1 s2, s = (s1 ++ s2)%string
                    /\ glob_matches g1 s1 /\ glob_matches g2 s2.
Proof.
  induction g1 as [|c g1 IH]; intros g2 s.
  - cbn [app]. split.
    + intros H. exists "", s. split; [done|]. split; [constructor|done].
    + intros (s1 & s2 & -> & H1 & H2). apply glob_matches_nil_inv in H1.
      by subst s1.
  - change ((c :: g1) ++ g2)%list with (c :: (g1 ++ g2))%list. split.
    + inversion 1 as [|? p q Hq|? d ? t Hc Hd Ht]; subst.
      * apply IH in Hq as (q1 & q2 & -> & H1 & H2).
        exists (p ++ q1)%string, q2. split; [by rewrite append_assoc|].
        split; [by constructor|done].
      * apply IH in Ht as (t1 & t2 & -> & H1 & H2).
        exists (String d t1), t2. split; [done|].
        split; [by constructor|done].
    + intros (s1 & s2 & -> & H1 & H2).
      inversion H1 as [|? p q Hq|? d ? t Hc Hd Ht]; subst.
      * rewrite <- append_assoc. constructor. apply IH. by exists q, s2.
      * change (String d t ++ s2)%string with (String d (t ++ s2)%string).
        constructor; [done|done|]. apply IH. by exists t, s2.
Qed.

Lemma iregex_glob_stars glob_pattern path :
  iregex (glob_iregex ("*" ++ glob_pattern ++ "*")) path
  = iregex (glob_iregex glob_pattern) path.
Proof.
  apply eq_true_iff_eq. rewrite !iregex_glob_spec.
  change (list_ascii_of_string ("*" ++ glob_pattern ++ "*"))
    with ("*"%char :: list_ascii_of_string (glob_pattern ++ "*")).
  rewrite list_ascii_of_string_app.
  change (list_ascii_of_string "*") with ["*"%char]. split.
  - intros (b & m & a & -> & H).
    apply glob_matches_star_inv in H as (p & q & -> & H).
    apply glob_matches_app in H as (q1 & q2 & -> & H1 & _).
    exists (b ++ p)%string, q1, (q2 ++ a)%string. split; [|done].
    by rewrite !append_assoc.
  - intros (b & m & a & -> & H). exists b, m, a. split; [done|].
    apply glob_matches_star_inv. exists "", m. split; [done|].
    apply glob_matches_app. exists m, "". split; [by rewrite append_empty_r|].
    split; [done|]. apply glob_matches_star_inv. exists "", "".
    split; [done|constructor].
Qed.

Lemma filter_sublist {A} (f : A -> bool) (l : list A) :
  sublist (List.filter f l) l.
Proof.
  induction l as [|x l IH]; [constructor|].
  cbn. destruct (f x); by constructor.
Qed.

Lemma filter_all {A} (f : A -> bool) (l : list A) :
  (forall x, f x = true) -> List.filter f l = l.
Proof.
  intros H. induction l as [|x l IH]; [done|]. cbn. by rewrite H, IH.
Qed.

(** X22. The glob of the asset list is a substring search. A star at the
    start and at the end of a glob changes nothing; the empty glob and [*]
    list every asset of the version; a glob only ever narrows the list,
    keeping its order; and an asset whose path contains a star-free glob
    literally is listed. *)
Theorem glob_is_a_substring_search (glob_pattern : string) (vpk : Z)
    (db : DB) :
  list_assets (Some ("*" ++ glob_pattern ++ "*")) vpk db
  = list_assets (Some glob_pattern) vpk db
  /\ list_assets (Some "") vpk db = list_assets None vpk db
  /\ list_assets (Some "*") vpk db = list_assets None vpk db
  /\ sublist (list_assets (Some glob_pattern) vpk db)
             (list_assets None vpk db)
  /\ (forall pk a before after,
        In (pk, a) (list_assets None vpk db) ->
        Asset.path a = (before ++ glob_pattern ++ after)%string ->
        ~ In "*"%char (list_ascii_of_string glob_pattern) ->
        In (pk, a) (list_assets (Some glob_pattern) vpk db)).
Proof.
  assert (Hall : forall path, iregex (glob_iregex "") path = true).
  { intros path. apply iregex_glob_spec. exists "", "", path.
    split; [done|constructor]. }
  split; [|split; [|split; [|split]]].
  - unfold list_assets. apply List.filter_ext. intros [pk a].
    apply iregex_glob_stars.
  - unfold list_assets. apply filter_all. intros [pk a]. apply Hall.
  - unfold list_assets. apply filter_all. intros [pk a].
    apply iregex_glob_spec. exists "", "", (Asset.path a).
    split; [done|]. apply glob_matches_star_inv. exists "", "".
    split; [done|constructor].
  - unfold list_assets. apply filter_sublist.
  - intros pk a before after Hin Hpath Hstar. unfold list_assets in *.
    apply filter_In. split; [done|]. apply iregex_glob_spec.
    exists before, glob_pattern, after. split; [done|].
    clear -Hstar. induction glob_pattern as [|c g IH]; [constructor|].
    cbn in Hstar. constructor.
    + intros ->. apply Hstar. by left.
    + done.
    + apply IH. intros ?. apply Hstar. by right.
Qed.

(** * Creating, then removing *)

Lemma find_version_intro dandiset_pk version_str db k v :
  versions_unique db -> versions db !! k = Some v ->
  Version.dandiset v = dandiset_pk -> Version.version v = version_str ->
  find_version dandiset_pk version_str db = Some (k, v).
Proof.
  intros Hu Hk Hd Hs. unfold find_version.
  destruct (List.find _ _) as [[k' v']|] eqn:Hf.
  - apply List.find_some in Hf as [Hin Hp].
    apply list_elem_of_In, elem_of_map_to_list in Hin.
    apply bool_decide_eq_true in Hp as [Hd' Hs'].
    assert (k' = k) as -> by (eapply Hu; eauto; congruence).
    by simplify_eq.
  - eapply List.find_none in Hf.
    2: { apply list_elem_of_In, elem_of_map_to_list. exact Hk. }
    cbn in Hf. apply bool_decide_eq_false in Hf. by destruct Hf.
Qed.

Lemma find_version_touched dandiset_pk version_str db db' vpk version now :
  versions_unique db ->
  find_version dandiset_pk version_str db = Some (vpk, version) ->
  versions db' = <[vpk := touched now version]> (versions db) ->
  find_version dandiset_pk version_str db'
  = Some (vpk, touched now version).
Proof.
  intros Hu Hv Hvers.
  destruct (find_version_Some _ _ _ _ _ Hv) as (Hvk & Hvd & Hvs).
  apply find_version_intro; [| |done|done].
  - intros k1 k2 v1 v2. rewrite Hvers.
    destruct (decide (k1 = vpk)) as [->|H1];
      destruct (decide (k2 = vpk)) as [->|H2]; [done|..].
    + rewrite lookup_insert_eq, lookup_insert_ne by done.
      intros [= <-] H2'. cbn. intros ? ?. symmetry. by eapply Hu.
    + rewrite lookup_insert_eq, lookup_insert_ne by done.
      intros H1' [= <-]. cbn. intros ? ?. by eapply Hu.
    + rewrite !lookup_insert_ne by done. apply Hu.
  - rewrite Hvers. by rewrite lookup_insert_eq.
Qed.

Lemma find_asset_row_intro vpk db asset_id pk row :
  (vpk, pk) ∈ version_assets db -> assets db !! pk = Some row ->
  Asset.asset_id row = asset_id ->
  (forall k a, (vpk, k) ∈ version_assets db -> assets db !! k = Some a ->
     Asset.asset_id a = asset_id -> k = pk) ->
  List.find (fun '(_, a) => String.eqb (Asset.asset_id a) asset_id)
            (version_asset_rows vpk db) = Some (pk, row).
Proof.
  intros Hin Hrow Hid Huniq.
  destruct (List.find _ _) as [[k a]|] eqn:Hf.
  - apply List.find_some in Hf as [Hl Hp].
    apply list_elem_of_In, elem_of_version_asset_rows in Hl as [Hl Ha].
    apply String.eqb_eq in Hp.
    assert (k = pk) as -> by (by eapply Huniq). by simplify_eq.
  - eapply List.find_none in Hf.
    2: { apply list_elem_of_In, elem_of_version_asset_rows. split; eauto. }
    cbn in Hf. apply String.eqb_neq in Hf. done.
Qed.

(** X23. Creating an asset and then removing it leaves the version with the
    assets it had: [destroy] finds the new asset under the [asset_id]
    [create] gave it, the attachments are those from before the two
    requests, the asset's row stays in the table, every other row is
    unchanged, and the version is PENDING with the time of the removal. *)
Theorem create_then_destroy_restores_the_version (svc : Services)
    (now later : Z) (uuid4 : UUID) (d : AssetRequestSerializer.data)
    (dandiset_pk : Z) (version_str : string) (db : DB) (vpk : Z)
    (version : Version.t) (asset : Asset.t) :
  well_behaved svc -> consistent db -> versions_unique db ->
  unused_asset_id db uuid4 ->
  find_version dandiset_pk version_str db = Some (vpk, version) ->
  version_str = "draft" ->
  asset_from_request svc uuid4 d db = Ok asset ->
  ~ (exists pk a, live_at db vpk (Asset.path asset) pk a) ->
  zarr_of_same_dandiset db asset version ->
  let pk := asset_seq db in
  exists db1 db2,
    create svc now uuid4 d dandiset_pk version_str db
    = (Ok (asset_detail pk asset), db1)
    /\ destroy svc later dandiset_pk version_str uuid4 db1
       = (Ok {| body := NoBody; status_code := HTTP_204_NO_CONTENT |}, db2)
    /\ version_assets db2 = version_assets db
    /\ (exists s errs,
          assets db2 !! pk = Some (Asset.set_validation s errs asset))
    /\ (forall k, k <> pk -> assets db2 !! k = assets db !! k)
    /\ versions db2 = <[vpk := touched later version]> (versions db).
Proof.
  intros Hwb Hc Hu Hfresh Hv Hdraft Hreq Hfree Hz pk.
  destruct (create_success svc now uuid4 d dandiset_pk version_str db vpk
              version asset Hwb Hv Hdraft Hreq Hfree Hz)
    as (db1 & Hcreate & Hva & (s & errs & Hrow) & Hothers & Hvers & _).
  fold pk in Hcreate, Hva, Hrow, Hothers.
  destruct (find_version_Some _ _ _ _ _ Hv) as (Hvk & Hvd & Hvs).
  assert (Hnew : (vpk, pk) ∉ version_assets db).
  { intros Hin. apply (associations_resolve db Hc) in Hin as [a Ha].
    pose proof (sequence_ahead_fresh db (keys_below_sequence db Hc)) as Hn.
    fold pk in Hn. congruence. }
  assert (Hv1 : find_version dandiset_pk version_str db1
                = Some (vpk, touched now version)).
  { by eapply find_version_touched. }
  assert (Hobj : get_object dandiset_pk version_str uuid4 db1
                 = Ok (pk, Asset.set_validation s errs asset)).
  { unfold get_object. rewrite Hv1. cbn.
    rewrite (find_asset_row_intro vpk db1 uuid4 pk
               (Asset.set_validation s errs asset)); [done| | | |].
    - rewrite Hva. apply elem_of_union. left. by apply elem_of_singleton.
    - done.
    - cbn. by destruct (asset_from_request_Ok _ _ _ _ _ Hreq)
        as (? & ? & ? & ?).
    - intros k a Hin Ha Hid. destruct (decide (k = pk)) as [|Hne]; [done|].
      rewrite Hothers in Ha by done. by destruct (Hfresh k a Ha). }
  destruct (destroy_success svc later dandiset_pk version_str uuid4 db1 vpk
              (touched now version) pk _ Hwb Hv1 Hdraft Hobj)
    as (db2 & Hdestroy & Hva2 & Has2 & Hvers2 & _).
  exists db1, db2. split; [done|]. split; [done|]. split; [|split; [|split]].
  - rewrite Hva2, Hva. apply set_eq. intros x.
    rewrite elem_of_difference, elem_of_union, !elem_of_singleton. split.
    + intros [[->|?] ?]; done.
    + intros Hin. split; [by right|]. intros ->. done.
  - rewrite Has2. eauto.
  - intros k Hk. rewrite Has2. by apply Hothers.
  - rewrite Hvers2, Hvers. rewrite insert_insert_eq. done.
Qed.

(** X24. After a successful [update] the old [asset_id] is gone from the
    version and the new one is there: fetching the asset under the old id
    is a 404, fetching it under the fresh id gives the minted asset, whose
    [previous] is the old asset, still in the table. *)
Theorem update_retires_the_old_asset_id (svc : Services) (now : Z)
    (uuid4 : UUID) (d : AssetRequestSerializer.data) (dandiset_pk : Z)
    (version_str : string) (asset_id : UUID) (db : DB) (vpk : Z)
    (version : Version.t) (old_pk : Z) (old_asset new_asset : Asset.t) :
  well_behaved svc -> consistent db -> versions_unique db ->
  unused_asset_id db uuid4 ->
  find_version dandiset_pk version_str db = Some (vpk, version) ->
  version_str = "draft" ->
  get_object dandiset_pk version_str asset_id db = Ok (old_pk, old_asset) ->
  asset_from_request svc uuid4 d db = Ok new_asset ->
  modifies new_asset old_asset ->
  ~ (exists pk a, live_at db vpk (Asset.path new_asset) pk a
                  /\ Asset.asset_id a <> Asset.asset_id old_asset) ->
  let pk := asset_seq db in
  exists db' row,
    update svc now uuid4 d dandiset_pk version_str asset_id db
    = (Ok (asset_detail pk (Asset.set_previous (Some old_pk) new_asset)),
       db')
    /\ get_object dandiset_pk version_str asset_id db' = Raise Http404
    /\ get_object dandiset_pk version_str uuid4 db' = Ok (pk, row)
    /\ Asset.previous row = Some old_pk
    /\ assets db' !! old_pk = Some old_asset.
Proof.
  intros Hwb Hc Hu Hfresh Hv Hdraft Hobj Hreq Hmod Hfree pk.
  destruct (update_success svc now uuid4 d dandiset_pk version_str asset_id
              db vpk version old_pk old_asset new_asset Hwb Hv Hdraft Hobj
              Hreq Hmod Hfree)
    as (db' & Hupdate & Hva & (s & errs & Hrow) & Hothers & Hvers & _).
  fold pk in Hupdate, Hva, Hrow, Hothers.
  destruct (find_version_Some _ _ _ _ _ Hv) as (Hvk & Hvd & Hvs).
  destruct (get_object_live _ _ _ _ _ _ _ _ Hv Hobj) as (Hold_in & Hold & Hid).
  pose proof (sequence_ahead_fresh db (keys_below_sequence db Hc)) as Hn.
  fold pk in Hn.
  assert (Hne : old_pk <> pk) by (intros ->; congruence).
  assert (Hv1 : find_version dandiset_pk version_str db'
                = Some (vpk, touched now version)).
  { by eapply find_version_touched. }
  assert (Hin' : forall k, (vpk, k) ∈ version_assets db'
                 <-> k = pk \/ ((vpk, k) ∈ version_assets db /\ k <> old_pk)).
  { intros k. rewrite Hva, elem_of_difference, elem_of_union,
      !elem_of_singleton. split.
    - intros [[[= ->]|?] Hk]; [by left|]. right. split; [done|].
      intros ->. by apply Hk.
    - intros [->|[? Hk]].
      + split; [by left|]. intros [= ?]. by apply Hne.
      + split; [by right|]. intros [= ?]. by apply Hk. }
  set (minted := Asset.set_validation s errs
                   (Asset.set_previous (Some old_pk) new_asset)) in *.
  assert (Hminted : Asset.asset_id minted = uuid4).
  { cbn. by destruct (asset_from_request_Ok _ _ _ _ _ Hreq)
      as (? & ? & ? & ?). }
  exists db', minted. split; [done|]. split; [|split; [|split]].
  - unfold get_object. rewrite Hv1. cbn.
    destruct (List.find _ _) as [[k a]|] eqn:Hf; [|done].
    apply List.find_some in Hf as [Hl Hp].
    apply list_elem_of_In, elem_of_version_asset_rows in Hl as [Hl Ha].
    apply String.eqb_eq in Hp. apply Hin' in Hl as [->|[Hl Hk]].
    + rewrite Hrow in Ha. injection Ha as <-. rewrite Hminted in Hp.
      subst asset_id. by destruct (Hfresh old_pk old_asset Hold).
    + rewrite Hothers in Ha.
      * destruct Hk. eapply (asset_ids_unique db Hc); eauto. congruence.
      * intros ->. apply (associations_resolve db Hc) in Hl as [? ?].
        congruence.
  - unfold get_object. rewrite Hv1. cbn.
    rewrite (find_asset_row_intro vpk db' uuid4 pk minted); [done| | | |].
    + apply Hin'. by left.
    + done.
    + done.
    + intros k a Hl Ha Hk. destruct (decide (k = pk)) as [|Hkp]; [done|].
      rewrite Hothers in Ha by done. by destruct (Hfresh k a Ha).
  - done.
  - rewrite Hothers by done. done.
Qed.

(** * WebKNOSSOS addresses *)

Lemma prefix_app_swap p : forall a r1 r2,
  String.prefix p (a ++ r1) = true ->
  (String.length p <= String.length a)%nat ->
  String.prefix p (a ++ r2) = true.
Proof.
  induction p as [|c p IH]; intros a r1 r2 H Hl;
    [by destruct (a ++ r2)%string|].
  destruct a as [|x a]; [cbn in Hl; lia|].
  change (String.prefix (String c p) (String x (a ++ r1)) = true) in H.
  change (String.prefix (String c p) (String x (a ++ r2)) = true).
  cbn [String.prefix] in *. destruct (ascii_dec c x); [|done].
  apply (IH a r1 r2 H). cbn in Hl. lia.
Qed.

Lemma append_String c (s t : string) :
  (String c s ++ t)%string = String c (s ++ t)%string.
Proof. reflexivity. Qed.

Lemma append_Empty (t : string) : ("" ++ t)%string = t.
Proof. reflexivity. Qed.

Lemma length_append (a b : string) :
  String.length (a ++ b) = (String.length a + String.length b)%nat.
Proof.
  induction a as [|c a IH]; [done|].
  change (S (String.length (a ++ b)) = S (String.length a + String.length b)).
  by rewrite IH.
Qed.

Lemma scheme_is_doubled (scheme h : string) :
  scheme = "https://" \/ scheme = "http://" ->
  String.prefix scheme (h ++ "/api/auth/login") = true ->
  String.prefix ("https://" ++ scheme) ("https://" ++ h ++ "/api/datasets")
  = true.
Proof.
  intros Hs Hp.
  assert (Hlen : (3 <= String.length h)%nat).
  { destruct h as [|a [|b [|c h]]]; [| | |cbn; lia]; exfalso;
      rewrite ?append_String, ?append_Empty in Hp;
      destruct Hs as [-> | ->]; cbn [String.prefix] in Hp;
      repeat (match type of Hp with
              | context [ascii_dec ?x ?y] =>
                  destruct (ascii_dec x y); [subst|done]
              end);
      done. }
  assert (Hswap : String.prefix scheme ((h ++ "/api/") ++ "datasets") = true).
  { apply prefix_app_swap with (r1 := "auth/login").
    - by rewrite <- append_assoc.
    - rewrite length_append. destruct Hs as [-> | ->]; cbn; lia. }
  rewrite <- append_assoc in Hswap.
  change ("https://" ++ scheme)%string
    with (String "h" (String "t" (String "t" (String "p" (String "s"
           (String ":" (String "/" (String "/" scheme)))))))).
  change ("https://" ++ h ++ "/api/datasets")%string
    with (String "h" (String "t" (String "t" (String "p" (String "s"
           (String ":" (String "/" (String "/"
              (h ++ "/api/" ++ "datasets")%string)))))))).
  cbn [String.prefix]. repeat (destruct (ascii_dec _ _); [|done]).
  exact Hswap.
Qed.

(** X25. The addresses built from [WEBKNOSSOS_API_URL]. The two address
    methods of a dataset raise exactly when the variable is set to the
    empty string. With the variable unset the login endpoint of the
    scheduled task is [None/api/auth/login], while the dataset listing goes
    to the default host. And whenever the login endpoint starts with
    [https://] or [http://], the address of the dataset listing starts with
    [https://] twice over: no value of the variable serves both. *)
Theorem webknossos_addresses (environ : option string) :
  (forall self,
     (WebKnossosDataset.get_webknossos_url environ self = None
      <-> environ = Some "")
     /\ (WebKnossosDataset.get_datasource_properties_url environ self = None
         <-> environ = Some ""))
  /\ (environ = None ->
      webknossos_login_endpoint environ = "None/api/auth/login"
      /\ webknossos_datasets_url environ
         = "https://webknossos-r5.lincbrain.org/api/datasets")
  /\ (forall scheme,
        scheme = "https://" \/ scheme = "http://" ->
        String.prefix scheme (webknossos_login_endpoint environ) = true ->
        String.prefix ("https://" ++ scheme)
                      (webknossos_datasets_url environ) = true).
Proof.
  split; [|split].
  - intros self.
    unfold WebKnossosDataset.get_webknossos_url,
      WebKnossosDataset.get_datasource_properties_url.
    destruct environ as [h|]; cbn [getenv fstr].
    + destruct (String.eqb_spec h "") as [->|Hne]; cbn [negb].
      * done.
      * split; (split; [done|]); intros [= ->]; done.
    + split; (split; [done|done]).
  - intros ->. done.
  - intros scheme Hs Hp. destruct environ as [h|].
    + by apply scheme_is_doubled.
    + exfalso. destruct Hs as [-> | ->]; cbn in Hp; done.
Qed.

(** * The further statements on the fixture *)

Lemma fixture_assets_inv k r :
  assets Fixture.db !! k = Some r ->
  (k = 1 /\ r = Fixture.asset_a) \/ (k = 9 /\ r = Fixture.asset_fresh).
Proof.
  change (assets Fixture.db)
    with (<[1 := Fixture.asset_a]>
            ({[ 9 := Fixture.asset_fresh ]} : gmap Z Asset.t)).
  rewrite lookup_insert_Some, lookup_singleton_Some. intuition.
Qed.

Lemma fixture_versions_inv k v :
  versions Fixture.db !! k = Some v ->
  (k = 1 /\ v = Fixture.draft) \/ (k = 2 /\ v = Fixture.published).
Proof.
  change (versions Fixture.db)
    with (<[1 := Fixture.draft]>
            ({[ 2 := Fixture.published ]} : gmap Z Version.t)).
  rewrite lookup_insert_Some, lookup_singleton_Some. intuition.
Qed.

Lemma fixture_version_assets_inv v k :
  (v, k) ∈ version_assets Fixture.db ->
  (v = 1 /\ k = 1) \/ (v = 2 /\ k = 1) \/ (v = 1 /\ k = 9).
Proof.
  change (version_assets Fixture.db)
    with ({[ (1, 1); (2, 1); (1, 9) ]} : gset (Z * Z)).
  rewrite !elem_of_union, !elem_of_singleton.
  intros [[[= -> ->]|[= -> ->]]|[= -> ->]]; auto.
Qed.

Lemma fixture_sequence_ahead : sequence_ahead Fixture.db.
Proof.
  intros k [r Hk].
  apply fixture_assets_inv in Hk as [[-> _]|[-> _]]; vm_compute; done.
Qed.

Lemma fixture_consistent : consistent Fixture.db.
Proof.
  split.
  - intros v k Hin.
    apply fixture_version_assets_inv in Hin as [[-> ->]|[[-> ->]|[-> ->]]];
      vm_compute; eauto.
  - apply fixture_sequence_ahead.
  - intros k1 k2 r1 r2 H1 H2.
    apply fixture_assets_inv in H1 as [[-> ->]|[-> ->]];
      apply fixture_assets_inv in H2 as [[-> ->]|[-> ->]];
      vm_compute; congruence.
  - intros v k1 k2 r1 r2 Hin1 Hin2 H1 H2.
    apply fixture_assets_inv in H1 as [[-> ->]|[-> ->]];
      apply fixture_assets_inv in H2 as [[-> ->]|[-> ->]];
      vm_compute; congruence.
  - intros k r Hk.
    apply fixture_assets_inv in Hk as [[-> ->]|[-> ->]].
    + split.
      * left. repeat split; vm_compute; eauto.
      * repeat split; intros ? [= <-]; vm_compute; eauto.
    + split.
      * left. repeat split; vm_compute; eauto.
      * repeat split; intros ? [= <-]; vm_compute; eauto.
Qed.

Lemma fixture_versions_unique : versions_unique Fixture.db.
Proof.
  intros k1 k2 v1 v2 H1 H2.
  apply fixture_versions_inv in H1 as [[-> ->]|[-> ->]];
    apply fixture_versions_inv in H2 as [[-> ->]|[-> ->]];
    vm_compute; congruence.
Qed.

Lemma fixture_unused_asset_id : unused_asset_id Fixture.db "a-2".
Proof.
  intros k r Hk.
  apply fixture_assets_inv in Hk as [[-> ->]|[-> ->]]; vm_compute; congruence.
Qed.

Lemma fixture_path_is_free path :
  path_exists 1 path Fixture.db = false ->
  ~ (exists pk a, live_at Fixture.db 1 path pk a).
Proof. apply path_exists_false. Qed.

Lemma serializer_schema_version_default_witness :
  AssetRequestSerializer.metadata Sample.bare_validated !! "schemaVersion"
  = Some (JStr "0.6.0").
Proof.
  destruct (serializer_schema_version_default reference_services
              Sample.bare_request Sample.bare_validated)
    as (_ & _ & _ & H); [compute_eq|exact H].
Defined.

Lemma serializer_idempotent_witness :
  AssetRequestSerializer.validate reference_services Sample.bare_validated
  = Ok Sample.bare_validated.
Proof.
  apply (serializer_idempotent reference_services Sample.bare_request).
  compute_eq.
Defined.

Lemma serializer_type_error_on_non_string_path_witness :
  AssetRequestSerializer.validate reference_services
    Sample.numeric_path_request
  = Raise TypeError.
Proof.
  apply (serializer_type_error_on_non_string_path reference_services
           Sample.numeric_path_request (JNum 7)).
  - split; [reflexivity|]. intros _. vm_compute. eauto.
  - compute_eq.
  - reflexivity.
  - intros s. discriminate.
Defined.

Lemma asset_from_request_raises_only_witness :
  Http404 = AssetRequestSerializer.blob_id_error
  \/ Http404 = AssetRequestSerializer.no_path_error
  \/ Http404 = AssetRequestSerializer.invalid_path_error
  \/ Http404 = TypeError \/ Http404 = Http404.
Proof.
  apply (asset_from_request_raises_only reference_services "a-2"
           (Fixture.request "sub/b.nwb" (Some "b-missing") None)
           Fixture.db Http404).
  compute_eq.
Defined.

Lemma asset_from_request_resolves_content_witness :
  content_on_record Sample.bare_request Fixture.db
  <-> exists a,
        asset_from_request reference_services "a-2" Sample.bare_request
          Fixture.db = Ok a.
Proof.
  destruct (asset_from_request_resolves_content reference_services "a-2"
              Sample.bare_request Sample.bare_validated Fixture.db)
    as (H & _); [compute_eq|exact H].
Defined.

Lemma create_attaches_witness :
  exists db' row,
    create reference_services 11 "a-2"
      (Fixture.request "sub/b.nwb" (Some "b-ready") None) 1 "draft"
      Fixture.db
    = (Ok (asset_detail 10
             (Sample.new_asset "sub/b.nwb" (Some "b-ready") None)), db')
    /\ live_at db' 1 "sub/b.nwb" 10 row
    /\ versions db' !! 1 = Some (touched 11 Fixture.draft).
Proof.
  destruct (create_attaches reference_services 11 "a-2"
              (Fixture.request "sub/b.nwb" (Some "b-ready") None) 1 "draft"
              Fixture.db 1 Fixture.draft
              (Sample.new_asset "sub/b.nwb" (Some "b-ready") None))
    as (db' & row & H1 & H2 & _ & _ & _ & H3 & _).
  - exact reference_services_well_behaved.
  - exact fixture_sequence_ahead.
  - compute_eq.
  - reflexivity.
  - compute_eq.
  - apply fixture_path_is_free. compute_eq.
  - intros z row. discriminate.
  - exists db', row. split; [exact H1|]. split; [exact H2|exact H3].
Defined.

Lemma update_replaces_witness :
  exists db' row,
    update reference_services 11 "a-2"
      (Fixture.request "sub/a2.nwb" (Some "b-ready") None) 1 "draft" "a-1"
      Fixture.db
    = (Ok (asset_detail 10
             (Asset.set_previous (Some 1)
                (Sample.new_asset "sub/a2.nwb" (Some "b-ready") None))),
       db')
    /\ live_at db' 1 "sub/a2.nwb" 10 row
    /\ Asset.previous row = Some 1
    /\ assets db' !! 1 = Some Fixture.asset_a
    /\ ((1, 1) ∉ version_assets db').
Proof.
  destruct (update_replaces reference_services 11 "a-2"
              (Fixture.request "sub/a2.nwb" (Some "b-ready") None) 1 "draft"
              "a-1" Fixture.db 1 Fixture.draft 1 Fixture.asset_a
              (Sample.new_asset "sub/a2.nwb" (Some "b-ready") None))
    as (db' & row & H1 & H2 & _ & H3 & _ & H4 & H5 & _).
  - exact reference_services_well_behaved.
  - exact fixture_sequence_ahead.
  - compute_eq.
  - reflexivity.
  - compute_eq.
  - compute_eq.
  - left. compute_eq.
  - apply path_exists_excluding_false. compute_eq.
  - exists db', row. split; [exact H1|]. split; [exact H2|].
    split; [exact H3|]. split; [exact H4|exact H5].
Defined.

Lemma destroy_detaches_witness :
  exists db',
    destroy reference_services 11 1 "draft" "a-1" Fixture.db
    = (Ok {| body := NoBody; status_code := HTTP_204_NO_CONTENT |}, db')
    /\ assets db' = assets Fixture.db
    /\ ((1, 1) ∉ version_assets db').
Proof.
  destruct (destroy_detaches reference_services 11 1 "draft" "a-1"
              Fixture.db 1 Fixture.draft 1 Fixture.asset_a)
    as (db' & H1 & H2 & H3 & _).
  - exact reference_services_well_behaved.
  - compute_eq.
  - reflexivity.
  - compute_eq.
  - exists db'. split; [exact H1|]. split; [exact H2|exact H3].
Defined.

Lemma views_keep_the_tables_consistent_witness :
  consistent
    (snd (create reference_services 11 "a-2"
            (Fixture.request "sub/b.nwb" (Some "b-ready") None) 1 "draft"
            Fixture.db))
  /\ consistent
       (snd (destroy reference_services 11 1 "draft" "a-1" Fixture.db)).
Proof.
  destruct (views_keep_the_tables_consistent reference_services 11 "a-2"
              (Fixture.request "sub/b.nwb" (Some "b-ready") None) 1 "draft"
              "a-1" Fixture.db)
    as [Hcu Hd].
  - exact reference_services_well_behaved.
  - exact fixture_consistent.
  - split; [|exact Hd]. apply Hcu. exact fixture_unused_asset_id.
Defined.

Lemma successful_mutation_schedules_version_witness :
  validate_version_metadata_task 1
  ∈ validate_draft_version_metadata
      (snd (destroy reference_services 11 1 "draft" "a-1" Fixture.db)).
Proof.
  destruct (successful_mutation_schedules_version reference_services 11
              "a-2" (Fixture.request "sub/b.nwb" (Some "b-ready") None) 1
              "draft" "a-1" Fixture.db 1 Fixture.draft
              (Ok {| body := NoBody; status_code := HTTP_204_NO_CONTENT |})
              (snd (destroy reference_services 11 1 "draft" "a-1"
                      Fixture.db)))
    as (_ & H & _).
  - exact reference_services_well_behaved.
  - compute_eq.
  - right. right. compute_eq.
  - eexists. split; [reflexivity|]. right. reflexivity.
  - exact H.
Defined.

Lemma attached_zarr_asset_is_swept_witness :
  exists db',
    create reference_services 11 "a-2"
      (Fixture.request "sub/z.zarr" None (Some "z-complete")) 1 "draft"
      Fixture.db
    = (Ok (asset_detail 10
             (Sample.new_asset "sub/z.zarr" None (Some "z-complete"))), db')
    /\ validate_asset_metadata_task 10 ∈ validate_pending_asset_metadata db'.
Proof.
  destruct (attached_zarr_asset_is_swept reference_services 11 "a-2"
              (Fixture.request "sub/z.zarr" None (Some "z-complete")) 1
              "draft" Fixture.db 1 Fixture.draft
              (Sample.new_asset "sub/z.zarr" None (Some "z-complete")))
    as (db' & H1 & _ & _ & H2).
  - exact reference_services_well_behaved.
  - compute_eq.
  - reflexivity.
  - compute_eq.
  - apply fixture_path_is_free. compute_eq.
  - intros z row [= <-]. vm_compute. intros [= <-]. reflexivity.
  - repeat split. vm_compute. eauto.
  - compute_eq.
  - exists db'. split; [exact H1|exact H2].
Defined.

Lemma nested_permission_check_witness :
  nested_raise_if_unauthorized Sample.access (Some 7) 1 "draft" Fixture.db
  = Allowed
  /\ nested_raise_if_unauthorized Sample.access None 1 "draft" Fixture.db
     = NotAuthenticated.
Proof.
  split.
  - destruct (nested_permission_check Sample.access (Some 7) 1 "draft"
                Fixture.db 1 Fixture.draft EMBARGOED)
      as [[_ H] _]; [compute_eq|compute_eq|].
    apply H. right. exists 7. split; [reflexivity|]. compute_eq.
  - reflexivity.
Defined.

Lemma create_then_destroy_restores_the_version_witness :
  exists db1 db2,
    create reference_services 11 "a-2"
      (Fixture.request "sub/b.nwb" (Some "b-ready") None) 1 "draft"
      Fixture.db
    = (Ok (asset_detail 10
             (Sample.new_asset "sub/b.nwb" (Some "b-ready") None)), db1)
    /\ destroy reference_services 12 1 "draft" "a-2" db1
       = (Ok {| body := NoBody; status_code := HTTP_204_NO_CONTENT |}, db2)
    /\ version_assets db2 = version_assets Fixture.db.
Proof.
  destruct (create_then_destroy_restores_the_version reference_services 11
              12 "a-2" (Fixture.request "sub/b.nwb" (Some "b-ready") None)
              1 "draft" Fixture.db 1 Fixture.draft
              (Sample.new_asset "sub/b.nwb" (Some "b-ready") None))
    as (db1 & db2 & H1 & H2 & H3 & _).
  - exact reference_services_well_behaved.
  - exact fixture_consistent.
  - exact fixture_versions_unique.
  - exact fixture_unused_asset_id.
  - compute_eq.
  - reflexivity.
  - compute_eq.
  - apply fixture_path_is_free. compute_eq.
  - intros z row. discriminate.
  - exists db1, db2. split; [exact H1|]. split; [exact H2|exact H3].
Defined.

Lemma update_retires_the_old_asset_id_witness :
  exists db' row,
    update reference_services 11 "a-2"
      (Fixture.request "sub/a2.nwb" (Some "b-ready") None) 1 "draft" "a-1"
      Fixture.db
    = (Ok (asset_detail 10
             (Asset.set_previous (Some 1)
                (Sample.new_asset "sub/a2.nwb" (Some "b-ready") None))),
       db')
    /\ get_object 1 "draft" "a-1" db' = Raise Http404
    /\ get_object 1 "draft" "a-2" db' = Ok (10, row).
Proof.
  destruct (update_retires_the_old_asset_id reference_services 11 "a-2"
              (Fixture.request "sub/a2.nwb" (Some "b-ready") None) 1 "draft"
              "a-1" Fixture.db 1 Fixture.draft 1 Fixture.asset_a
              (Sample.new_asset "sub/a2.nwb" (Some "b-ready") None))
    as (db' & row & H1 & H2 & H3 & _).
  - exact reference_services_well_behaved.
  - exact fixture_consistent.
  - exact fixture_versions_unique.
  - exact fixture_unused_asset_id.
  - compute_eq.
  - reflexivity.
  - compute_eq.
  - compute_eq.
  - left. compute_eq.
  - apply path_exists_excluding_false. compute_eq.
  - exists db', row. split; [exact H1|]. split; [exact H2|exact H3].
Defined.
